(** * FileReadAI: the extraction orchestration engine

    A shallow embedding of the form store (stores/formStore.js), of
    FormProcessingService (validation and response-field mapping) and of
    AIProviderService (the provider registry), with the properties of the
    specification stated and settled against it.

    JavaScript values are modelled by typed records; an attribute that may
    be missing from an object is an [option].  Numbers that are only
    copied and tested for zero (confidence scores, box coordinates) are
    rationals; sizes, indices and page numbers are naturals; instants
    are integers (milliseconds since the epoch). *)

From Stdlib Require Import QArith Ascii DecimalString DecimalNat DecimalFacts.
From stdpp Require Import gmap strings list.

Local Open Scope string_scope.
Local Open Scope list_scope.

(** ** JavaScript idioms *)

(** Truthiness of a value of a given type: the empty string and the
    number zero are falsy. *)
Class Truthy (A : Type) := truthy : A -> bool.

#[global] Instance truthy_string : Truthy string :=
  fun s => negb (String.eqb s "").
#[global] Instance truthy_Q : Truthy Q :=
  fun q => negb (Z.eqb (Qnum q) 0).
#[global] Instance truthy_nat : Truthy nat :=
  fun n => negb (Nat.eqb n 0).

(** A value that [JSON.parse] yields.  An array or an object, which is
    always truthy, is known by its JSON text. *)
Inductive JsValue :=
| JsNull
| JsBool (b : bool)
| JsNumber (q : Q)
| JsString (s : string)
| JsOther (json : string).

(** [null], [false], [0] and the empty string are falsy. *)
#[global] Instance truthy_JsValue : Truthy JsValue :=
  fun v => match v with
           | JsNull => false
           | JsBool b => b
           | JsNumber q => truthy q
           | JsString s => truthy s
           | JsOther _ => true
           end.

(** [a || d] where [a] may be undefined ([None]) and [d] is a value. *)
Definition js_or {A} `{Truthy A} (a : option A) (d : A) : A :=
  match a with
  | Some v => if truthy v then v else d
  | None => d
  end.

(** [a || b] where both sides may be undefined. *)
Definition js_or_opt {A} `{Truthy A} (a b : option A) : option A :=
  match a with
  | Some v => if truthy v then a else b
  | None => b
  end.

Notation "a ?| d" := (js_or a d) (at level 51, left associativity).

(** Template literals print numbers in decimal. *)
Definition nat_to_string (n : nat) : string :=
  NilZero.string_of_uint (Nat.to_uint n).
Definition Z_to_string (z : Z) : string :=
  NilZero.string_of_int (Z.to_int z).

(** A thrown JavaScript error: its constructor name and its message. *)
Record JsError := { err_name : string; message : string }.

Definition Error (msg : string) : JsError :=
  {| err_name := "Error"; message := msg |}.
Definition TypeError (msg : string) : JsError :=
  {| err_name := "TypeError"; message := msg |}.

(** ** Data model *)

Record BoundingBox := { bx : Q; by_ : Q; bwidth : Q; bheight : Q }.

(** The [boundingBox] key of a field object: missing, [null], or a box. *)
Inductive BoxSlot :=
| BoxAbsent
| BoxNull
| BoxAt (b : BoundingBox).

(** One entry of [rawData.fields], as parsed from the provider's JSON.
    A key that is missing is [None].  The label and the type are
    strings and the confidence is a number, as the prompt asks for them;
    the [value] of a form field is whatever JSON value the provider
    gives for it: a string, but also a number, a boolean, [null], an
    array or an object. *)
Record RawField := {
  raw_label : option string;
  raw_value : option JsValue;
  raw_type : option string;
  raw_confidence : option Q;
  raw_boundingBox : option BoundingBox
}.

(** The provider's parsed response. *)
Record RawData := {
  raw_fields : option (list RawField);
  raw_formTitle : option string;
  raw_summary : option string
}.

(** A field of the store.  [page] is missing on the objects built by
    [formatExtractedData]; [extractFields] and [addField] set it. *)
Record Field := {
  id : string;
  label : string;
  value : JsValue;
  type : string;
  confidence : Q;
  verified : bool;
  page : option nat;
  boundingBox : BoxSlot
}.

Record ExtractedData := {
  formTitle : option string;
  fields : list Field;
  extractedAt : Z
}.

Record HistoryEntry := {
  h_id : Z;
  h_filename : string;
  h_extractedAt : Z;
  h_fieldsCount : nat;
  h_formTitle : option string;
  h_provider : string
}.

(** A Blob is known by its size and an opaque content handle. *)
Record Blob := { blob_size : N; blob_content : N }.

Record File := {
  file_name : string;
  file_type : string;
  file_size : N;
  file_content : N
}.

(** [new File([blob], name, { type })] *)
Definition new_File (b : Blob) (name ty : string) : File :=
  {| file_name := name; file_type := ty;
     file_size := blob_size b; file_content := blob_content b |}.

(** ** FormProcessingService *)

Module FormProcessingService.

Inductive Validation :=
| valid
| invalid (error : string).

Definition maxSize : N := 10 * 1024 * 1024.

Definition allowedTypes : list string :=
  ["image/jpeg"; "image/jpg"; "image/png"; "image/webp"; "application/pdf"].

Definition includes (l : list string) (s : string) : bool :=
  existsb (String.eqb s) l.

(** [validateImageFile(file)]; a falsy [file] is [None]. *)
Definition validateImageFile (file : option File) : Validation :=
  match file with
  | None => invalid "No file provided"
  | Some f =>
      if negb (includes allowedTypes (file_type f)) then
        invalid "Invalid file type. Please upload JPG, PNG, WebP images or PDF files."
      else if (maxSize <? file_size f)%N then
        invalid "File too large. Maximum size is 10MB."
      else valid
  end.

Definition isPDF (file : File) : bool :=
  String.eqb (file_type file) "application/pdf".

(** The callback of [rawData.fields.map((field, index) => ...)]. *)
Definition formatField (pageNumber : nat) (index : nat) (field : RawField)
  : Field :=
  {| id := "field_" +:+ nat_to_string index +:+ "_" +:+ nat_to_string pageNumber;
     label := raw_label field ?| ("Field " +:+ nat_to_string (index + 1));
     value := raw_value field ?| JsString "";
     type := raw_type field ?| "text";
     confidence := raw_confidence field ?| (0.8)%Q;
     verified := false;
     page := None;
     boundingBox := match raw_boundingBox field with
                    | Some b => BoxAt b
                    | None => BoxNull
                    end |}.

(** [formatExtractedData(rawData, pageNumber)], given the instant [now]
    read by its [new Date()].  The [summary] key is dropped; the other
    keys of [rawData] ([formTitle]) are copied. *)
Definition formatExtractedData (now : Z) (rawData : option RawData)
    (pageNumber : nat) : ExtractedData :=
  match rawData with
  | None =>
      {| fields := []; formTitle := Some "Unknown Form"; extractedAt := now |}
  | Some raw =>
      match raw_fields raw with
      | None =>
          {| fields := []; formTitle := Some "Unknown Form";
             extractedAt := now |}
      | Some fs =>
          {| formTitle := raw_formTitle raw;
             extractedAt := now;
             fields := imap (formatField pageNumber) fs |}
      end
  end.

End FormProcessingService.

(** ** AIProviderService: the provider registry *)

(** The property names that every object inherits from
    [Object.prototype]: [this.providers[key]] is a function or an object,
    hence truthy, for these keys too. *)
Definition inheritedKeys : list string :=
  ["constructor"; "__defineGetter__"; "__defineSetter__"; "hasOwnProperty";
   "__lookupGetter__"; "__lookupSetter__"; "isPrototypeOf";
   "propertyIsEnumerable"; "toString"; "valueOf"; "__proto__";
   "toLocaleString"].

Module AIProviderService.

(** An entry of [this.providers].  [apiKeyVar] names the environment
    variable that the entry's service reads into [this.apiKey] in its
    constructor. *)
Record Provider := {
  name : string;
  description : string;
  icon : string;
  cost : string;
  apiKeyVar : string
}.

Definition providers : gmap string Provider :=
  <["gpt-4o" := {| name := "GPT-4o";
                   description := "OpenAI GPT-4 with Vision";
                   icon := "🤖";
                   cost := "Paid ($0.01-0.03/image)";
                   apiKeyVar := "VITE_OPENAI_API_KEY" |}]>
  (<["gemini" := {| name := "Gemini 2.5";
                    description := "Google Gemini Pro Vision";
                    icon := "✨";
                    cost := "Free (60 req/min)";
                    apiKeyVar := "VITE_GEMINI_API_KEY" |}]>
  (<["claude" := {| name := "Claude 3.5";
                    description := "Anthropic Claude Sonnet";
                    icon := "🧠";
                    cost := "Paid (~$0.02/image)";
                    apiKeyVar := "VITE_CLAUDE_API_KEY" |}]> ∅)).

Record ProviderInfo := {
  info_key : string;
  info_name : string;
  info_description : string;
  info_icon : string;
  info_cost : string;
  info_configured : bool
}.

Section WithEnv.

(** [import.meta.env] *)
Variable env : gmap string string.

(** [BaseService.getEnvVar(key)] *)
Definition getEnvVar (key : string) : option string := env !! key.

(** [service.isConfigured()], that is [!!this.apiKey]. *)
Definition isConfigured (p : Provider) : bool :=
  match getEnvVar (apiKeyVar p) with
  | Some apiKey => truthy apiKey
  | None => false
  end.

(** [this.providers[provider].isConfigured()].  Every key the service
    looks up this way is a key of [providers]. *)
Definition configured (provider : string) : bool :=
  match providers !! provider with
  | Some p => isConfigured p
  | None => false
  end.

Definition priorityOrder : list string := ["gemini"; "gpt-4o"; "claude"].

(** The [for (const provider of priorityOrder)] loop: the first
    provider that is configured, if the loop returns. *)
Fixpoint firstConfigured (order : list string) : option string :=
  match order with
  | [] => None
  | provider :: rest =>
      if configured provider then Some provider else firstConfigured rest
  end.

Definition getDefaultProvider : string :=
  match firstConfigured priorityOrder with
  | Some provider => provider
  | None => "gpt-4o"
  end.

(** [getProviderInfo(providerKey)].  For a key inherited from
    [Object.prototype], [this.providers[providerKey]] is truthy and has
    no [isConfigured]: building the result throws a TypeError. *)
Definition getProviderInfo (providerKey : string)
  : JsError + option ProviderInfo :=
  match providers !! providerKey with
  | Some provider =>
      inr (Some {| info_key := providerKey;
                   info_name := name provider;
                   info_description := description provider;
                   info_icon := icon provider;
                   info_cost := cost provider;
                   info_configured := isConfigured provider |})
  | None =>
      if FormProcessingService.includes inheritedKeys providerKey
      then inl (TypeError "provider.isConfigured is not a function")
      else inr None
  end.

End WithEnv.

End AIProviderService.

(** ** The form store *)

Record Store := {
  currentForm : option File;
  originalFile : option File;
  extractedData : option ExtractedData;
  processing : bool;
  error : option string;
  history : list HistoryEntry;
  imagePreview : option string;
  selectedProvider : string;
  isPDF : bool;
  currentPage : nat;
  totalPages : nat;
  processingPage : option nat;
  highlightedFieldId : option string
}.

(** One function per key that a [set({ key: v })] of the source merges
    into the state; a [set] of several keys is their composition. *)
Definition with_currentForm v (s : Store) : Store :=
  {| currentForm := v; originalFile := originalFile s;
     extractedData := extractedData s; processing := processing s;
     error := error s; history := history s;
     imagePreview := imagePreview s; selectedProvider := selectedProvider s;
     isPDF := isPDF s; currentPage := currentPage s;
     totalPages := totalPages s; processingPage := processingPage s;
     highlightedFieldId := highlightedFieldId s |}.
Definition with_originalFile v (s : Store) : Store :=
  {| currentForm := currentForm s; originalFile := v;
     extractedData := extractedData s; processing := processing s;
     error := error s; history := history s;
     imagePreview := imagePreview s; selectedProvider := selectedProvider s;
     isPDF := isPDF s; currentPage := currentPage s;
     totalPages := totalPages s; processingPage := processingPage s;
     highlightedFieldId := highlightedFieldId s |}.
Definition with_extractedData v (s : Store) : Store :=
  {| currentForm := currentForm s; originalFile := originalFile s;
     extractedData := v; processing := processing s;
     error := error s; history := history s;
     imagePreview := imagePreview s; selectedProvider := selectedProvider s;
     isPDF := isPDF s; currentPage := currentPage s;
     totalPages := totalPages s; processingPage := processingPage s;
     highlightedFieldId := highlightedFieldId s |}.
Definition with_processing v (s : Store) : Store :=
  {| currentForm := currentForm s; originalFile := originalFile s;
     extractedData := extractedData s; processing := v;
     error := error s; history := history s;
     imagePreview := imagePreview s; selectedProvider := selectedProvider s;
     isPDF := isPDF s; currentPage := currentPage s;
     totalPages := totalPages s; processingPage := processingPage s;
     highlightedFieldId := highlightedFieldId s |}.
Definition with_error v (s : Store) : Store :=
  {| currentForm := currentForm s; originalFile := originalFile s;
     extractedData := extractedData s; processing := processing s;
     error := v; history := history s;
     imagePreview := imagePreview s; selectedProvider := selectedProvider s;
     isPDF := isPDF s; currentPage := currentPage s;
     totalPages := totalPages s; processingPage := processingPage s;
     highlightedFieldId := highlightedFieldId s |}.
Definition with_history v (s : Store) : Store :=
  {| currentForm := currentForm s; originalFile := originalFile s;
     extractedData := extractedData s; processing := processing s;
     error := error s; history := v;
     imagePreview := imagePreview s; selectedProvider := selectedProvider s;
     isPDF := isPDF s; currentPage := currentPage s;
     totalPages := totalPages s; processingPage := processingPage s;
     highlightedFieldId := highlightedFieldId s |}.
Definition with_imagePreview v (s : Store) : Store :=
  {| currentForm := currentForm s; originalFile := originalFile s;
     extractedData := extractedData s; processing := processing s;
     error := error s; history := history s;
     imagePreview := v; selectedProvider := selectedProvider s;
     isPDF := isPDF s; currentPage := currentPage s;
     totalPages := totalPages s; processingPage := processingPage s;
     highlightedFieldId := highlightedFieldId s |}.
Definition with_isPDF v (s : Store) : Store :=
  {| currentForm := currentForm s; originalFile := originalFile s;
     extractedData := extractedData s; processing := processing s;
     error := error s; history := history s;
     imagePreview := imagePreview s; selectedProvider := selectedProvider s;
     isPDF := v; currentPage := currentPage s;
     totalPages := totalPages s; processingPage := processingPage s;
     highlightedFieldId := highlightedFieldId s |}.
Definition with_currentPage v (s : Store) : Store :=
  {| currentForm := currentForm s; originalFile := originalFile s;
     extractedData := extractedData s; processing := processing s;
     error := error s; history := history s;
     imagePreview := imagePreview s; selectedProvider := selectedProvider s;
     isPDF := isPDF s; currentPage := v;
     totalPages := totalPages s; processingPage := processingPage s;
     highlightedFieldId := highlightedFieldId s |}.
Definition with_totalPages v (s : Store) : Store :=
  {| currentForm := currentForm s; originalFile := originalFile s;
     extractedData := extractedData s; processing := processing s;
     error := error s; history := history s;
     imagePreview := imagePreview s; selectedProvider := selectedProvider s;
     isPDF := isPDF s; currentPage := currentPage s;
     totalPages := v; processingPage := processingPage s;
     highlightedFieldId := highlightedFieldId s |}.
Definition with_processingPage v (s : Store) : Store :=
  {| currentForm := currentForm s; originalFile := originalFile s;
     extractedData := extractedData s; processing := processing s;
     error := error s; history := history s;
     imagePreview := imagePreview s; selectedProvider := selectedProvider s;
     isPDF := isPDF s; currentPage := currentPage s;
     totalPages := totalPages s; processingPage := v;
     highlightedFieldId := highlightedFieldId s |}.

(** The store's initial state, given the provider the registry selected
    when it was constructed. *)
Definition initialStore (provider : string) : Store :=
  {| currentForm := None; originalFile := None; extractedData := None;
     processing := false; error := None; history := [];
     imagePreview := None; selectedProvider := provider;
     isPDF := false; currentPage := 1; totalPages := 1;
     processingPage := None; highlightedFieldId := None |}.

(** The mutable state of the application: the zustand store and the
    [currentProvider] of the AIProviderService singleton. *)
Record App := { form : Store; currentProvider : string }.

(** ** Asynchronous programs

    A function of the source is a tree of its effects: reading and
    writing the application state, reading the clock, creating an object
    URL, and awaiting a promise of an external service.  Between two
    [Await] nodes the code runs without interruption, as JavaScript
    does. *)

(** The promises that the store awaits. *)
Inductive Request :=
| PDFPageCount (pdfFile : File)
    (** [FormProcessingService.getPDFPageCount(pdfFile)] *)
| PDFToImage (pdfFile : File)
    (** [FormProcessingService.convertPDFToImage(pdfFile)] *)
| PDFPageToImage (pdfFile : File) (pageNumber : nat)
    (** [FormProcessingService.convertPDFPageToImage(pdfFile, pageNumber)] *)
| ServiceExtract (provider : string) (imageFile : File).
    (** [service.extractFormFields(imageFile)] of [providers[provider]] *)

(** The type of the value a promise is fulfilled with. *)
Definition Result (req : Request) : Type :=
  match req with
  | PDFPageCount _ => nat
  | PDFToImage _ => Blob
  | PDFPageToImage _ _ => Blob
  | ServiceExtract _ _ => option RawData
  end.

Inductive Prog (R : Type) : Type :=
| Ret (r : R)
| Throw (e : JsError)
| GetApp (k : App -> Prog R)
| PutApp (a : App) (k : Prog R)
| DateNow (k : Z -> Prog R)
| CreateObjectURL (k : string -> Prog R)
| Await (req : Request) (k : JsError + Result req -> Prog R).

Arguments Ret {R} r.
Arguments Throw {R} e.
Arguments GetApp {R} k.
Arguments PutApp {R} a k.
Arguments DateNow {R} k.
Arguments CreateObjectURL {R} k.
Arguments Await {R} req k.

Fixpoint prog_bind {A B} (f : A -> Prog B) (p : Prog A) : Prog B :=
  match p with
  | Ret r => f r
  | Throw e => Throw e
  | GetApp k => GetApp (fun a => prog_bind f (k a))
  | PutApp a k => PutApp a (prog_bind f k)
  | DateNow k => DateNow (fun t => prog_bind f (k t))
  | CreateObjectURL k => CreateObjectURL (fun u => prog_bind f (k u))
  | Await req k => Await req (fun r => prog_bind f (k r))
  end.

#[global] Instance prog_ret : MRet Prog := @Ret.
#[global] Instance prog_mbind : MBind Prog := @prog_bind.

(** [try { p } catch (error) { h error }] *)
Fixpoint try_catch {A} (p : Prog A) (h : JsError -> Prog A) : Prog A :=
  match p with
  | Ret r => Ret r
  | Throw e => h e
  | GetApp k => GetApp (fun a => try_catch (k a) h)
  | PutApp a k => PutApp a (try_catch k h)
  | DateNow k => DateNow (fun t => try_catch (k t) h)
  | CreateObjectURL k => CreateObjectURL (fun u => try_catch (k u) h)
  | Await req k => Await req (fun r => try_catch (k r) h)
  end.

(** [await promise]: a rejection is thrown at the await. *)
Definition await (req : Request) : Prog (Result req) :=
  Await req (fun r => match r with inl e => Throw e | inr v => Ret v end).

(** A synchronous call that returns a value or throws. *)
Definition settle {A} (r : JsError + A) : Prog A :=
  match r with inl e => Throw e | inr v => Ret v end.

Definition dateNow : Prog Z := DateNow Ret.
Definition createObjectURL : Prog string := CreateObjectURL Ret.

(** zustand's [get()], [set(partial)] and [set(state => partial)]; the
    updater of the last form may throw. *)
Definition get : Prog Store := GetApp (fun a => Ret (form a)).

Definition set (f : Store -> Store) : Prog unit :=
  GetApp (fun a =>
    PutApp {| form := f (form a); currentProvider := currentProvider a |}
           (Ret tt)).

Definition set_with (f : Store -> JsError + Store) : Prog unit :=
  GetApp (fun a =>
    match f (form a) with
    | inl e => Throw e
    | inr s =>
        PutApp {| form := s; currentProvider := currentProvider a |} (Ret tt)
    end).

(** *** Running a program *)

(** What the environment answers to an awaited promise. *)
Inductive Reply :=
| Rejected (e : JsError)
| Pages (n : nat)
| Image (b : Blob)
| Parsed (rawData : option RawData).

Definition answer (req : Request) (r : Reply) : option (JsError + Result req) :=
  match req return option (JsError + Result req) with
  | PDFPageCount _ =>
      match r with
      | Rejected e => Some (inl e) | Pages n => Some (inr n) | _ => None
      end
  | PDFToImage _ =>
      match r with
      | Rejected e => Some (inl e) | Image b => Some (inr b) | _ => None
      end
  | PDFPageToImage _ _ =>
      match r with
      | Rejected e => Some (inl e) | Image b => Some (inr b) | _ => None
      end
  | ServiceExtract _ _ =>
      match r with
      | Rejected e => Some (inl e) | Parsed d => Some (inr d) | _ => None
      end
  end.

(** The world a program runs in: the application state, the number of
    clock readings and of object URLs made so far, and the requests
    issued so far, oldest first. *)
Record World := {
  app : App;
  ticks : nat;
  urls : nat;
  log : list Request
}.

Definition Outcome (R : Type) : Type := (JsError + R)%type.

(** Where a program stands when it stops running: finished, or waiting
    for a promise. *)
Inductive Status (R : Type) : Type :=
| Done (o : Outcome R)
| Blocked (req : Request) (k : JsError + Result req -> Prog R).

Arguments Done {R} o.
Arguments Blocked {R} req k.

Section Semantics.

(** The instant that the n-th reading of the clock returns. *)
Variable clock : nat -> Z.

(** Run [p] to its end, the awaited promises being settled by the
    replies of [script] in order; the replies that were not used are
    returned.  [None]: the script ends before the program does, or a
    reply does not fit the request. *)
Fixpoint exec {R} (p : Prog R) (w : World) (script : list Reply)
  : option (Outcome R * World * list Reply) :=
  match p with
  | Ret r => Some (inr r, w, script)
  | Throw e => Some (inl e, w, script)
  | GetApp k => exec (k (app w)) w script
  | PutApp a k =>
      exec k {| app := a; ticks := ticks w; urls := urls w; log := log w |}
           script
  | DateNow k =>
      exec (k (clock (ticks w)))
           {| app := app w; ticks := S (ticks w); urls := urls w;
              log := log w |} script
  | CreateObjectURL k =>
      exec (k ("blob:" +:+ nat_to_string (urls w)))
           {| app := app w; ticks := ticks w; urls := S (urls w);
              log := log w |} script
  | Await req k =>
      match script with
      | [] => None
      | r :: script' =>
          match answer req r with
          | None => None
          | Some v =>
              exec (k v)
                   {| app := app w; ticks := ticks w; urls := urls w;
                      log := log w ++ [req] |} script'
          end
      end
  end.

(** Run [p] until it finishes or awaits: one uninterrupted turn. *)
Fixpoint advance {R} (p : Prog R) (w : World) : Status R * World :=
  match p with
  | Ret r => (Done (inr r), w)
  | Throw e => (Done (inl e), w)
  | GetApp k => advance (k (app w)) w
  | PutApp a k =>
      advance k {| app := a; ticks := ticks w; urls := urls w; log := log w |}
  | DateNow k =>
      advance (k (clock (ticks w)))
              {| app := app w; ticks := S (ticks w); urls := urls w;
                 log := log w |}
  | CreateObjectURL k =>
      advance (k ("blob:" +:+ nat_to_string (urls w)))
              {| app := app w; ticks := ticks w; urls := S (urls w);
                 log := log w |}
  | Await req k =>
      (Blocked req k,
       {| app := app w; ticks := ticks w; urls := urls w;
          log := log w ++ [req] |})
  end.

End Semantics.

(** ** Field objects *)

(** [{ ...field, page: pageNum }] *)
Definition with_page (pageNum : nat) (field : Field) : Field :=
  {| id := id field; label := label field; value := value field;
     type := type field; confidence := confidence field;
     verified := verified field; page := Some pageNum;
     boundingBox := boundingBox field |}.

(** [{ ...field, verified: v }] *)
Definition with_verified (v : bool) (field : Field) : Field :=
  {| id := id field; label := label field; value := value field;
     type := type field; confidence := confidence field;
     verified := v; page := page field;
     boundingBox := boundingBox field |}.

(** The [updates] argument of [updateField]: an object with [label]
    and/or [value]. *)
Record Updates := { upd_label : option string; upd_value : option JsValue }.

(** [{ ...field, ...updates, verified: true }] *)
Definition with_updates (updates : Updates) (field : Field) : Field :=
  {| id := id field;
     label := default (label field) (upd_label updates);
     value := default (value field) (upd_value updates);
     type := type field; confidence := confidence field;
     verified := true; page := page field;
     boundingBox := boundingBox field |}.

(** The [fieldData] argument of [addField]. *)
Record FieldData := {
  fd_label : option string;
  fd_value : option JsValue;
  fd_type : option string;
  fd_page : option nat
}.

(** [{ ...data, fields: fs }] *)
Definition with_fields (fs : list Field) (data : ExtractedData)
  : ExtractedData :=
  {| formTitle := formTitle data; fields := fs;
     extractedAt := extractedAt data |}.

(** The updater [state => ({ extractedData: { ...state.extractedData,
    fields: f(state.extractedData.fields) } })]: reading [fields] of a
    [null] [extractedData] throws. *)
Definition update_fields (f : list Field -> list Field) (state : Store)
  : JsError + Store :=
  match extractedData state with
  | None => inl (TypeError "Cannot read properties of null (reading 'fields')")
  | Some data =>
      inr (with_extractedData (Some (with_fields (f (fields data)) data)) state)
  end.

(** ** The store's actions *)

Section FormStore.

Variable env : gmap string string.

(** [AIProviderService.extractFormFields(imageFile)].  When the current
    provider is a key inherited from [Object.prototype],
    [getCurrentService()] returns [undefined] and the call of
    [isConfigured] throws; for any other key that is not a provider the
    read of [service] throws. *)
Definition extractFormFields (imageFile : File) : Prog (option RawData) :=
  a ← GetApp Ret;
  match AIProviderService.providers !! currentProvider a with
  | None =>
      if FormProcessingService.includes inheritedKeys (currentProvider a)
      then
        Throw (TypeError
          "this.providers[this.currentProvider].isConfigured is not a function")
      else
        Throw (TypeError
          "Cannot read properties of undefined (reading 'service')")
  | Some providerInfo =>
      if negb (AIProviderService.isConfigured env providerInfo) then
        Throw (Error (AIProviderService.name providerInfo +:+
          " is not configured. Please add the API key to your .env file. " +:+
          "Alternatively, try another provider from the dropdown."))
      else
        try_catch (await (ServiceExtract (currentProvider a) imageFile))
                  (fun error => Throw error)
  end.

Definition uploadForm (file : option File) : Prog unit :=
  set (fun s => with_processing true (with_error None s));;
  try_catch
    (match FormProcessingService.validateImageFile file, file with
     | FormProcessingService.invalid error, _ => Throw (Error error)
     | FormProcessingService.valid, None =>
         Throw (TypeError "Cannot read properties of null (reading 'type')")
     | FormProcessingService.valid, Some file =>
         let isPDFFile := FormProcessingService.isPDF file in
         '(fileToProcess, previewURL, pageCount) ←
           (if isPDFFile then
              pageCount ← await (PDFPageCount file);
              imageBlob ← await (PDFToImage file);
              previewURL ← createObjectURL;
              mret (new_File imageBlob (file_name file) "image/png",
                    previewURL, pageCount)
            else
              previewURL ← createObjectURL;
              mret (file, previewURL, 1));
         set (fun s =>
           with_currentForm (Some fileToProcess)
           (with_originalFile (if isPDFFile then Some file else None)
           (with_imagePreview (Some previewURL)
           (with_extractedData None
           (with_processing false
           (with_isPDF isPDFFile
           (with_currentPage 1
           (with_totalPages pageCount s))))))));;
         mret tt
     end)
    (fun error =>
       set (fun s => with_error (Some (message error))
                       (with_processing false s));;
       Throw error).

(** The loop [for (pageNum = 1; pageNum <= totalPages; pageNum++)] of
    [extractFields], with its local variables [allFields] and
    [formTitle].  It is entered with [remaining = totalPages] and
    [pageNum = 1]; an iteration takes one from [remaining] and adds one
    to [pageNum], so that [remaining = totalPages + 1 - pageNum] and the
    test [pageNum <= totalPages] is [remaining > 0]. *)
Fixpoint extractPages (originalFile : File) (remaining pageNum : nat)
    (allFields : list Field) (formTitle_ : option string)
  : Prog (list Field * option string) :=
  match remaining with
  | 0 => mret (allFields, formTitle_)
  | S remaining' =>
      set (with_processingPage (Some pageNum));;
      imageBlob ← await (PDFPageToImage originalFile pageNum);
      let pageFile :=
        new_File imageBlob (file_name originalFile) "image/png" in
      rawData ← extractFormFields pageFile;
      now ← dateNow;
      let formattedData := FormProcessingService.formatExtractedData now rawData pageNum in
      let formTitle_ :=
        if Nat.eqb pageNum 1 then formTitle formattedData else formTitle_ in
      let fieldsWithPage := map (with_page pageNum) (fields formattedData) in
      let allFields := allFields ++ fieldsWithPage in
      now ← dateNow;
      set (fun state =>
        with_extractedData
          (Some {| formTitle :=
                     Some (js_or_opt formTitle_
                             (extractedData state ≫= formTitle) ?| "");
                   fields := allFields;
                   extractedAt := now |}) state);;
      extractPages originalFile remaining' (S pageNum) allFields formTitle_
  end.

Definition extractFields : Prog ExtractedData :=
  s ← get;
  match currentForm s with
  | None => Throw (Error "No form uploaded")
  | Some currentForm_ =>
      set (fun s => with_processing true (with_error None s));;
      try_catch
        ('(allFields, formTitle_) ←
           match isPDF s && Nat.ltb 1 (totalPages s), originalFile s with
           | true, Some originalFile_ =>
               extractPages originalFile_ (totalPages s) 1 [] (Some "")
           | _, _ =>
               rawData ← extractFormFields currentForm_;
               now ← dateNow;
               let formattedData := FormProcessingService.formatExtractedData now rawData 1 in
               mret (map (with_page 1) (fields formattedData),
                     formTitle formattedData)
           end;
         now ← dateNow;
         let finalData :=
           {| formTitle := formTitle_; fields := allFields;
              extractedAt := now |} in
         providerInfo ←
           settle (AIProviderService.getProviderInfo env (selectedProvider s));
         entryId ← dateNow;
         now ← dateNow;
         let historyEntry :=
           {| h_id := entryId;
              h_filename := file_name currentForm_;
              h_extractedAt := now;
              h_fieldsCount := length allFields;
              h_formTitle := formTitle_;
              h_provider :=
                (AIProviderService.info_name <$> providerInfo) ?| selectedProvider s |} in
         set (fun state =>
           with_extractedData (Some finalData)
           (with_processing false
           (with_processingPage None
           (with_history (take 10 (historyEntry :: history state)) state))));;
         mret finalData)
        (fun error =>
           set (fun s => with_error (Some (message error))
                           (with_processing false
                           (with_processingPage None s)));;
           Throw error)
  end.

Definition updateField (fieldId : string) (updates : Updates) : Prog unit :=
  set_with (update_fields (map (fun field =>
    if String.eqb (id field) fieldId then with_updates updates field
    else field))).

Definition toggleFieldVerification (fieldId : string) : Prog unit :=
  set_with (update_fields (map (fun field =>
    if String.eqb (id field) fieldId
    then with_verified (negb (verified field)) field
    else field))).

Definition addField (fieldData : FieldData) : Prog unit :=
  s ← get;
  let pageNum :=
    js_or_opt (fd_page fieldData) (Some (currentPage s)) ?| 1 in
  now ← dateNow;
  let newField :=
    {| id := "field_" +:+ Z_to_string now +:+ "_" +:+ nat_to_string pageNum;
       label := fd_label fieldData ?| "New Field";
       value := fd_value fieldData ?| JsString "";
       type := fd_type fieldData ?| "text";
       confidence := 1.0%Q;
       verified := true;
       page := Some pageNum;
       boundingBox := BoxAbsent |} in
  set_with (update_fields (fun fs => fs ++ [newField])).

End FormStore.

(** ** More of the services and of the store *)

(** The keys of [this.providers] in the order [Object.entries] lists
    them, which is the order they are written in. *)
Definition providerKeys : list string := ["gpt-4o"; "gemini"; "claude"].

(** [this.providers[providerKey]] is truthy. *)
Definition hasProvider (providerKey : string) : bool :=
  match AIProviderService.providers !! providerKey with
  | Some _ => true
  | None => FormProcessingService.includes inheritedKeys providerKey
  end.

(** [AIProviderService.getAvailableProviders()] *)
Definition getAvailableProviders (env : gmap string string)
  : list AIProviderService.ProviderInfo :=
  omap (fun key =>
          match AIProviderService.providers !! key with
          | None => None
          | Some info =>
              Some {| AIProviderService.info_key := key;
                      AIProviderService.info_name :=
                        AIProviderService.name info;
                      AIProviderService.info_description :=
                        AIProviderService.description info;
                      AIProviderService.info_icon :=
                        AIProviderService.icon info;
                      AIProviderService.info_cost :=
                        AIProviderService.cost info;
                      AIProviderService.info_configured :=
                        AIProviderService.isConfigured env info |}
          end) providerKeys.

(** [AIProviderService.setProvider(providerKey)] *)
Definition AIProviderService_setProvider (providerKey : string) : Prog unit :=
  if negb (hasProvider providerKey) then
    Throw (Error ("Unknown provider: " +:+ providerKey))
  else
    GetApp (fun a =>
      PutApp {| form := form a; currentProvider := providerKey |} (Ret tt)).

Definition with_selectedProvider v (s : Store) : Store :=
  {| currentForm := currentForm s; originalFile := originalFile s;
     extractedData := extractedData s; processing := processing s;
     error := error s; history := history s;
     imagePreview := imagePreview s; selectedProvider := v;
     isPDF := isPDF s; currentPage := currentPage s;
     totalPages := totalPages s; processingPage := processingPage s;
     highlightedFieldId := highlightedFieldId s |}.

(** The store's [setProvider(provider)]; the [catch] block logs and
    rethrows. *)
Definition setProvider (provider : string) : Prog unit :=
  try_catch
    (AIProviderService_setProvider provider;;
     set (with_selectedProvider provider))
    (fun error => Throw error).

Definition deleteField (fieldId : string) : Prog unit :=
  set_with (update_fields
    (List.filter (fun field => negb (String.eqb (id field) fieldId)))).

Definition clearError : Prog unit := set (with_error None).

(** The object that [getStats()] returns. *)
Record Stats := {
  currentFieldsCount : nat;
  verifiedFieldsCount : nat;
  totalProcessed : nat;
  hasCurrentForm : bool
}.

Definition getStats : Prog Stats :=
  s ← get;
  mret {| currentFieldsCount :=
            (length <$> (fields <$> extractedData s)) ?| 0;
          verifiedFieldsCount :=
            (length <$> (List.filter verified <$>
                           (fields <$> extractedData s))) ?| 0;
          totalProcessed := length (history s);
          hasCurrentForm :=
            match extractedData s with Some _ => true | None => false end |}.

(** [if (imagePreview) { URL.revokeObjectURL(imagePreview) }]: the URLs
    that the statement revokes.  The actions below return the list of the
    URLs they revoke, in order, where the source returns nothing. *)
Definition revokeIfSet (imagePreview_ : option string) : list string :=
  match imagePreview_ with
  | Some url => if truthy url then [url] else []
  | None => []
  end.

Definition goToPage (pageNumber : nat) : Prog (list string) :=
  s ← get;
  match isPDF s, originalFile s with
  | true, Some originalFile_ =>
      if Nat.ltb pageNumber 1 || Nat.ltb (totalPages s) pageNumber then
        Throw (Error ("Invalid page number. Must be between 1 and " +:+
                      nat_to_string (totalPages s)))
      else
        set (with_processing true);;
        try_catch
          (imageBlob ← await (PDFPageToImage originalFile_ pageNumber);
           previewURL ← createObjectURL;
           s' ← get;
           let revoked := revokeIfSet (imagePreview s') in
           let fileToProcess :=
             new_File imageBlob (file_name originalFile_) "image/png" in
           set (fun s =>
             with_currentForm (Some fileToProcess)
             (with_imagePreview (Some previewURL)
             (with_currentPage pageNumber
             (with_processing false s))));;
           mret revoked)
          (fun error => set (with_processing false);; Throw error)
  | _, _ => Throw (Error "Current file is not a PDF")
  end.

Definition clearForm : Prog (list string) :=
  s ← get;
  let revoked := revokeIfSet (imagePreview s) in
  set (fun s =>
    with_currentForm None
    (with_originalFile None
    (with_extractedData None
    (with_imagePreview None
    (with_error None
    (with_isPDF false
    (with_currentPage 1
    (with_totalPages 1
    (with_processingPage None s)))))))));;
  mret revoked.

Definition reset : Prog (list string) :=
  s ← get;
  let revoked := revokeIfSet (imagePreview s) in
  set (fun s =>
    with_currentForm None
    (with_originalFile None
    (with_extractedData None
    (with_processing false
    (with_error None
    (with_history []
    (with_imagePreview None
    (with_isPDF false
    (with_currentPage 1
    (with_totalPages 1
    (with_processingPage None s)))))))))));;
  mret revoked.

(** *** FormProcessingService.exportToCSV *)

(** [array.join(sep)] on strings. *)
Fixpoint join (sep : string) (l : list string) : string :=
  match l with
  | [] => ""
  | [x] => x
  | x :: rest => x +:+ sep +:+ join sep rest
  end.

Definition newline : string := String (Ascii.ascii_of_nat 10) "".

Definition quote : string := String (Ascii.ascii_of_nat 34) "".

Section CsvExport.

(** How a template literal prints a number, and an array or an object
    given by its JSON text. *)
Variable showNumber : Q -> string.
Variable showOther : string -> string.

(** [`${cell}`] for the [value] of a field. *)
Definition templateText (v : JsValue) : string :=
  match v with
  | JsNull => "null"
  | JsBool true => "true"
  | JsBool false => "false"
  | JsNumber q => showNumber q
  | JsString s => s
  | JsOther json => showOther json
  end.

(** The cells of the row of a field. *)
Definition csvRow (field : Field) : list string :=
  [label field; templateText (value field); type field;
   showNumber (confidence field);
   if verified field then "Yes" else "No"].

Definition exportToCSV (formData : ExtractedData) : string :=
  match fields formData with
  | [] => "No data to export"
  | fs =>
      let headers := ["Label"; "Value"; "Type"; "Confidence"; "Verified"] in
      let rows := map csvRow fs in
      join newline
        (join "," headers
         :: map (fun row =>
                   join "," (map (fun cell => quote +:+ cell +:+ quote) row))
                rows)
  end.

End CsvExport.

(** *** The page filter of the ExtractedData component *)

(** [selectedPage === 'all' ? fields : fields.filter(f => (f.page || 1)
    === Number(selectedPage))]; ['all'] is [None]. *)
Definition displayedFields (selectedPage : option nat) (fs : list Field)
  : list Field :=
  match selectedPage with
  | None => fs
  | Some p => List.filter (fun f => Nat.eqb (page f ?| 1) p) fs
  end.

(** *** Running a program as far as the replies go *)

(** Run [p] with the replies of [script]; when the replies are used up
    and [p] awaits another promise, it is left waiting for it. *)
Fixpoint drive (clock : nat -> Z) {R} (p : Prog R) (w : World)
    (script : list Reply) : option (Status R * World * list Reply) :=
  match p with
  | Ret r => Some (Done (inr r), w, script)
  | Throw e => Some (Done (inl e), w, script)
  | GetApp k => drive clock (k (app w)) w script
  | PutApp a k =>
      drive clock k
            {| app := a; ticks := ticks w; urls := urls w; log := log w |}
            script
  | DateNow k =>
      drive clock (k (clock (ticks w)))
            {| app := app w; ticks := S (ticks w); urls := urls w;
               log := log w |} script
  | CreateObjectURL k =>
      drive clock (k ("blob:" +:+ nat_to_string (urls w)))
            {| app := app w; ticks := ticks w; urls := S (urls w);
               log := log w |} script
  | Await req k =>
      match script with
      | [] =>
          Some (Blocked req k,
                {| app := app w; ticks := ticks w; urls := urls w;
                   log := log w ++ [req] |}, [])
      | r :: script' =>
          match answer req r with
          | None => None
          | Some v =>
              drive clock (k v)
                    {| app := app w; ticks := ticks w; urls := urls w;
                       log := log w ++ [req] |} script'
          end
      end
  end.

(** ** Vocabulary of the properties *)

(** The store of a world, and the world [w] with its store replaced. *)
Definition store (w : World) : Store := form (app w).

Definition with_form (s : Store) (w : World) : World :=
  {| app := {| form := s; currentProvider := currentProvider (app w) |};
     ticks := ticks w; urls := urls w; log := log w |}.

(** The world [w] after one more reading of the clock. *)
Definition tick (w : World) : World :=
  {| app := app w; ticks := S (ticks w); urls := urls w; log := log w |}.

(** The world [w] after the request [req] was issued. *)
Definition logged (req : Request) (w : World) : World :=
  {| app := app w; ticks := ticks w; urls := urls w; log := log w ++ [req] |}.

(** The fields that page [pageNum] contributes, given the provider's
    response for it. *)
Definition pageFields (pageNum : nat) (rawData : option RawData) : list Field :=
  map (with_page pageNum)
      (fields (FormProcessingService.formatExtractedData 0 rawData pageNum)).

(** The fields of consecutive pages, the first being [pageNum]. *)
Fixpoint mergedFields (pageNum : nat) (raws : list (option RawData))
  : list Field :=
  match raws with
  | [] => []
  | r :: raws' => pageFields pageNum r ++ mergedFields (S pageNum) raws'
  end.

(** The number of fields in a provider's response. *)
Definition rawCount (rawData : option RawData) : nat :=
  match rawData with
  | Some d => match raw_fields d with Some fs => length fs | None => 0 end
  | None => 0
  end.

(** The title of a page's formatted result. *)
Definition reportedTitle (rawData : option RawData) : option string :=
  formTitle (FormProcessingService.formatExtractedData 0 rawData 1).

(** The replies of a run in which every page is rendered to the given
    blob and the provider answers with the given response. *)
Definition pagesScript (pages : list (Blob * option RawData)) : list Reply :=
  flat_map (fun p => [Image p.1; Parsed p.2]) pages.

(** The requests that the pages from [pageNum] on give rise to. *)
Fixpoint pageRequests (provider : string) (pdf : File) (pageNum : nat)
    (blobs : list Blob) : list Request :=
  match blobs with
  | [] => []
  | b :: blobs' =>
      PDFPageToImage pdf pageNum
      :: ServiceExtract provider (new_File b (file_name pdf) "image/png")
      :: pageRequests provider pdf (S pageNum) blobs'
  end.

(** The page numbers for which a rendering was requested. *)
Definition renderedPages (l : list Request) : list nat :=
  flat_map (fun req => match req with
                       | PDFPageToImage _ p => [p]
                       | _ => []
                       end) l.

(** The callback of [toggleFieldVerification]. *)
Definition toggle (fieldId : string) (field : Field) : Field :=
  if String.eqb (id field) fieldId
  then with_verified (negb (verified field)) field
  else field.

(** The active provider of the world [w] is configured. *)
Definition providerReady (env : gmap string string) (w : World) : Prop :=
  exists info,
    AIProviderService.providers !! currentProvider (app w) = Some info /\
    AIProviderService.isConfigured env info = true.

(** The world after page [pageNum] was processed from [w]: [title] and
    [allFields] are the values of the loop's variables after it. *)
Definition afterPage (clock : nat -> Z) (pdf : File) (pageNum : nat) (b : Blob)
    (allFields : list Field) (title : option string) (w : World) : World :=
  {| app :=
       {| form :=
            with_extractedData
              (Some {| formTitle :=
                         Some (js_or_opt title
                                 (extractedData (store w) ≫= formTitle) ?| "");
                       fields := allFields;
                       extractedAt := clock (S (ticks w)) |})
              (with_processingPage (Some pageNum) (store w));
          currentProvider := currentProvider (app w) |};
     ticks := S (S (ticks w));
     urls := urls w;
     log := log w ++
            [PDFPageToImage pdf pageNum;
             ServiceExtract (currentProvider (app w))
                            (new_File b (file_name pdf) "image/png")] |}.

(** The value of the loop's [formTitle] after the pages from [pageNum]
    on were processed. *)
Fixpoint titleAfter (pageNum : nat) (raws : list (option RawData))
    (title : option string) : option string :=
  match raws with
  | [] => title
  | r :: raws' =>
      titleAfter (S pageNum) raws'
                 (if Nat.eqb pageNum 1 then reportedTitle r else title)
  end.

(** How the world [w1], reached from [w] by processing the pages [done]
    from [pageNum] on, relates to [w]. *)
Definition pagesDone (pdf : File) (pageNum : nat) (allFields : list Field)
    (done : list (Blob * option RawData)) (w w1 : World) : Prop :=
  currentProvider (app w1) = currentProvider (app w) /\
  log w1 = log w ++ pageRequests (currentProvider (app w)) pdf pageNum done.*1 /\
  exists ed pp,
    store w1 = with_extractedData ed (with_processingPage pp (store w)) /\
    (done = [] -> ed = extractedData (store w)) /\
    (done ≠ [] ->
     exists pt pa,
       ed = Some {| formTitle := pt;
                    fields := allFields ++ mergedFields pageNum done.*2;
                    extractedAt := pa |}).

(** The blocks of [extractFields], named: the extraction proper (the
    multi-page loop or the single call), the end of the [try] block, and
    the worlds that the end of the [try] block and the [catch] block
    leave. *)
Definition runPages (env : gmap string string) (s : Store) (cur : File)
  : Prog (list Field * option string) :=
  match isPDF s && Nat.ltb 1 (totalPages s), originalFile s with
  | true, Some originalFile_ =>
      extractPages env originalFile_ (totalPages s) 1 [] (Some "")
  | _, _ =>
      rawData ← extractFormFields env cur;
      now ← dateNow;
      let formattedData :=
        FormProcessingService.formatExtractedData now rawData 1 in
      mret (map (with_page 1) (fields formattedData), formTitle formattedData)
  end.

Definition finalDataOf (clock : nat -> Z) (r : list Field * option string)
    (w1 : World) : ExtractedData :=
  {| formTitle := r.2; fields := r.1; extractedAt := clock (ticks w1) |}.

Definition historyEntryOf (clock : nat -> Z)
    (providerInfo : option AIProviderService.ProviderInfo)
    (selected : string) (cur : File) (r : list Field * option string)
    (w1 : World) : HistoryEntry :=
  {| h_id := clock (S (ticks w1));
     h_filename := file_name cur;
     h_extractedAt := clock (S (S (ticks w1)));
     h_fieldsCount := length r.1;
     h_formTitle := r.2;
     h_provider :=
       (AIProviderService.info_name <$> providerInfo) ?| selected |}.

Definition finished (clock : nat -> Z)
    (providerInfo : option AIProviderService.ProviderInfo)
    (selected : string) (cur : File) (r : list Field * option string)
    (w1 : World) : World :=
  with_form
    (with_extractedData (Some (finalDataOf clock r w1))
    (with_processing false
    (with_processingPage None
    (with_history
       (take 10 (historyEntryOf clock providerInfo selected cur r w1
                 :: history (store w1)))
       (store w1)))))
    (tick (tick (tick w1))).

Definition failed (e : JsError) (w1 : World) : World :=
  with_form
    (with_error (Some (message e))
    (with_processing false (with_processingPage None (store w1)))) w1.

(** What a caller and the store's observers see of a failed run: the
    error thrown, and the [error] and [processingPage] of the store. *)
Definition reportedFailure {R} (out : Outcome R * World * list Reply)
  : option JsError * option string * option nat :=
  let '(o, w, _) := out in
  (match o with inl e => Some e | inr _ => None end,
   error (store w), processingPage (store w)).

(** The first request of a run on the store [s] with current form
    [cur]. *)
Definition firstRequest (s : Store) (cur : File) (provider : string)
  : Request :=
  match isPDF s && Nat.ltb 1 (totalPages s), originalFile s with
  | true, Some pdf => PDFPageToImage pdf 1
  | _, _ => ServiceExtract provider cur
  end.

(** A program that leaves the history as it found it, however the
    promises it awaits are settled. *)
Definition keepsHistory (clock : nat -> Z) {A} (p : Prog A) : Prop :=
  forall w script o w' script',
    exec clock p w script = Some (o, w', script') ->
    history (store w') = history (store w).

(** Successive successful runs, each given the replies it consumes. *)
Fixpoint extractRuns (env : gmap string string) (clock : nat -> Z)
    (scripts : list (list Reply)) (w : World) : option World :=
  match scripts with
  | [] => Some w
  | script :: scripts' =>
      match exec clock (extractFields env) w script with
      | Some (inr _, w', _) => extractRuns env clock scripts' w'
      | _ => None
      end
  end.

(** The world [w] whose store holds the field list [fs] in place of
    the one of [data]. *)
Definition with_fieldList (fs : list Field) (data : ExtractedData) (w : World)
  : World :=
  with_form (with_extractedData (Some (with_fields fs data)) (store w)) w.

(** The ids of a field collection, in order. *)
Definition ids (fs : list Field) : list string := map id fs.

(** The id that [formatExtractedData] gives to the field of index
    [index] of page [pageNumber]. *)
Definition formattedId (index pageNumber : nat) : string :=
  "field_" +:+ nat_to_string index +:+ "_" +:+ nat_to_string pageNumber.

(** Whatever the replies, a value that [p] returns satisfies [Q]. *)
Definition returns (clock : nat -> Z) {A} (Q : A -> Prop) (p : Prog A) : Prop :=
  forall w script a w' script',
    exec clock p w script = Some (inr a, w', script') -> Q a.

(** Whatever the replies, [p] leaves the projection [proj] of the
    application state as it found it. *)
Definition keeps (clock : nat -> Z) {A B} (proj : App -> B) (p : Prog A)
  : Prop :=
  forall w script o w' script',
    exec clock p w script = Some (o, w', script') -> proj (app w') = proj (app w).

(** The document session of the application: what an upload sets and a
    run of the extraction reads, with the provider selection. *)
Record Session := {
  s_currentForm : option File;
  s_originalFile : option File;
  s_imagePreview : option string;
  s_isPDF : bool;
  s_currentPage : nat;
  s_totalPages : nat;
  s_selectedProvider : string;
  s_currentProvider : string
}.

Definition session (a : App) : Session :=
  {| s_currentForm := currentForm (form a);
     s_originalFile := originalFile (form a);
     s_imagePreview := imagePreview (form a);
     s_isPDF := isPDF (form a);
     s_currentPage := currentPage (form a);
     s_totalPages := totalPages (form a);
     s_selectedProvider := selectedProvider (form a);
     s_currentProvider := currentProvider a |}.

(** The number of occurrences of the character [c] in [s]. *)
Fixpoint countChar (c : Ascii.ascii) (s : string) : nat :=
  match s with
  | EmptyString => 0
  | String a s' => (if Ascii.eqb a c then 1 else 0) + countChar c s'
  end.

(** The occurrences of [c] in the cells of the rows of [fs]. *)
Definition cellChars (showNumber : Q -> string) (showOther : string -> string)
    (c : Ascii.ascii) (fs : list Field) : nat :=
  list_sum
    (map (fun f =>
            list_sum (map (countChar c) (csvRow showNumber showOther f)))
         fs).

Definition newlineChar : Ascii.ascii := Ascii.ascii_of_nat 10.

Definition quoteChar : Ascii.ascii := Ascii.ascii_of_nat 34.

(** A field as the extraction makes it for page [pageNum]: unverified,
    with a box slot, tagged with the page, its id made of its index and
    of the page. *)
Definition fromPage (pageNum : nat) (f : Field) : Prop :=
  verified f = false /\ boundingBox f ≠ BoxAbsent /\ page f = Some pageNum /\
  exists index, id f = formattedId index pageNum.

(** A field list made of fields of the pages before [pageNum], with
    pairwise distinct ids. *)
Definition fromPagesBefore (pageNum : nat) (fs : list Field) : Prop :=
  NoDup (ids fs) /\
  Forall (fun f => exists p, 1 <= p < pageNum /\ fromPage p f) fs.

(** A projection of the application state that does not look at the
    extracted data nor at the progress marker. *)
Definition blindToProgress {B} (proj : App -> B) : Prop :=
  forall a ed pp,
    proj {| form := with_extractedData ed (with_processingPage pp (form a));
            currentProvider := currentProvider a |} = proj a.

(** The store's keys that a run of the extraction sets on its way, other
    than the extracted data and the progress marker. *)
Definition runFlags (a : App)
  : bool * option string * list HistoryEntry :=
  (processing (form a), error (form a), history (form a)).

(** The run takes the single-call branch on the store [s]. *)
Definition singlePage (s : Store) : Prop :=
  isPDF s = false \/ totalPages s <= 1 \/ originalFile s = None.

(** ** Sample data *)

Definition sampleClock (n : nat) : Z := 1700000000000 + Z.of_nat n.

(** An environment that holds the Gemini key only, and the world the
    application starts in under it. *)
Definition sampleEnv : gmap string string :=
  <["VITE_GEMINI_API_KEY" := "key"]> ∅.

(** An environment without any key. *)
Definition emptyEnv : gmap string string := ∅.

Definition sampleStart : World :=
  {| app := {| form := initialStore "gemini"; currentProvider := "gemini" |};
     ticks := 0; urls := 0; log := [] |}.

(** An image, and the world after its upload. *)
Definition sampleScan : File :=
  {| file_name := "scan.png"; file_type := "image/png";
     file_size := 4096; file_content := 3 |}.

Definition sampleScanWorld : World :=
  {| app := {| form := with_currentForm (Some sampleScan)
                         (with_imagePreview (Some "blob:0")
                            (initialStore "gemini"));
               currentProvider := "gemini" |};
     ticks := 0; urls := 1; log := [] |}.

(** The world after a reload of the page and the upload of the image,
    when the selection that the store persisted is "claude": the store
    is rehydrated with it, and the service starts with its default
    provider under [sampleEnv], which is "gemini". *)
Definition sampleReloadedWorld : World :=
  {| app := {| form := with_currentForm (Some sampleScan)
                         (with_imagePreview (Some "blob:0")
                            (initialStore "claude"));
               currentProvider := "gemini" |};
     ticks := 0; urls := 1; log := [] |}.

(** The world while a run on the image waits for the provider. *)
Definition sampleRunningWorld : World :=
  {| app := {| form := with_processing true (store sampleScanWorld);
               currentProvider := "gemini" |};
     ticks := 0; urls := 1; log := [ServiceExtract "gemini" sampleScan] |}.

(** A provider response for the image, and the world after the run that
    received it. *)
Definition sampleResponse : option RawData :=
  Some {| raw_fields :=
            Some [{| raw_label := Some "Name"; raw_value := Some (JsString "Ada");
                     raw_type := None; raw_confidence := Some 0.9%Q;
                     raw_boundingBox := None |}];
          raw_formTitle := Some "Form";
          raw_summary := None |}.

Definition sampleField : Field :=
  {| id := "field_0_1"; label := "Name"; value := JsString "Ada"; type := "text";
     confidence := 0.9; verified := false; page := Some 1;
     boundingBox := BoxNull |}.

Definition sampleData : ExtractedData :=
  {| formTitle := Some "Form"; fields := [sampleField];
     extractedAt := sampleClock 1 |}.

Definition sampleWorld : World :=
  {| app := {| form :=
                 with_extractedData (Some sampleData)
                 (with_history [{| h_id := sampleClock 2;
                                   h_filename := "scan.png";
                                   h_extractedAt := sampleClock 3;
                                   h_fieldsCount := 1;
                                   h_formTitle := Some "Form";
                                   h_provider := "Gemini 2.5" |}]
                    (store sampleScanWorld));
               currentProvider := "gemini" |};
     ticks := 4; urls := 1; log := [ServiceExtract "gemini" sampleScan] |}.

(** A two-page PDF, the image its first page is rendered to, and the
    world after its upload. *)
Definition samplePdf : File :=
  {| file_name := "form.pdf"; file_type := "application/pdf";
     file_size := 2048; file_content := 1 |}.

Definition sampleImage : Blob := {| blob_size := 512; blob_content := 2 |}.

Definition samplePdfWorld : World :=
  {| app := {| form :=
                 with_currentForm
                   (Some (new_File sampleImage "form.pdf" "image/png"))
                 (with_originalFile (Some samplePdf)
                 (with_imagePreview (Some "blob:0")
                 (with_isPDF true
                 (with_totalPages 2 (initialStore "gemini")))));
               currentProvider := "gemini" |};
     ticks := 0; urls := 1;
     log := [PDFPageCount samplePdf; PDFToImage samplePdf] |}.

(** A provider response with the given title and one field per label. *)
Definition sampleRaw (title : string) (labels : list string)
  : option RawData :=
  Some {| raw_fields :=
            Some (map (fun l => {| raw_label := Some l; raw_value := None;
                                   raw_type := None; raw_confidence := None;
                                   raw_boundingBox := None |}) labels);
          raw_formTitle := Some title;
          raw_summary := None |}.

(** * Properties *)

(** ** Laws of the semantics *)

Section ExecLaws.

Variable clock : nat -> Z.

Lemma exec_bind {A B} (p : Prog A) (f : A -> Prog B) w script :
  exec clock (p ≫= f) w script =
  match exec clock p w script with
  | Some (inr r, w', script') => exec clock (f r) w' script'
  | Some (inl e, w', script') => Some (inl e, w', script')
  | None => None
  end.
Proof.
  revert w script.
  induction p as [r|e|k IH|a k IH|k IH|k IH|req k IH]; intros w script;
    simpl; try reflexivity; try apply IH.
  destruct script as [|r script']; [reflexivity|].
  destruct (answer req r) as [v|]; [apply IH | reflexivity].
Qed.

Lemma exec_try_catch {A} (p : Prog A) (h : JsError -> Prog A) w script :
  exec clock (try_catch p h) w script =
  match exec clock p w script with
  | Some (inr r, w', script') => Some (inr r, w', script')
  | Some (inl e, w', script') => exec clock (h e) w' script'
  | None => None
  end.
Proof.
  revert w script.
  induction p as [r|e|k IH|a k IH|k IH|k IH|req k IH]; intros w script;
    simpl; try reflexivity; try apply IH.
  destruct script as [|r script']; [reflexivity|].
  destruct (answer req r) as [v|]; [apply IH | reflexivity].
Qed.

End ExecLaws.

Section Primitives.

Variable clock : nat -> Z.

Lemma exec_get w script :
  exec clock get w script = Some (inr (store w), w, script).
Proof. reflexivity. Qed.

Lemma exec_set f w script :
  exec clock (set f) w script = Some (inr tt, with_form (f (store w)) w, script).
Proof. reflexivity. Qed.

Lemma exec_dateNow w script :
  exec clock dateNow w script = Some (inr (clock (ticks w)), tick w, script).
Proof. reflexivity. Qed.

Lemma exec_await req r v w script :
  answer req r = Some v ->
  exec clock (await req) w (r :: script) = Some (v, logged req w, script).
Proof.
  intros H. simpl. rewrite H. destruct v; reflexivity.
Qed.

End Primitives.

(** ** The sample worlds are states of the application *)

Lemma sampleStart_default :
  AIProviderService.getDefaultProvider sampleEnv = "gemini".
Proof. reflexivity. Qed.

Lemma sampleScanWorld_uploaded :
  exec sampleClock (uploadForm (Some sampleScan)) sampleStart []
  = Some (inr tt, sampleScanWorld, []).
Proof. reflexivity. Qed.

Lemma samplePdfWorld_uploaded :
  exec sampleClock (uploadForm (Some samplePdf)) sampleStart
       [Pages 2; Image sampleImage]
  = Some (inr tt, samplePdfWorld, []).
Proof. reflexivity. Qed.

Lemma sampleWorld_extracted :
  exec sampleClock (extractFields sampleEnv) sampleScanWorld
       [Parsed sampleResponse]
  = Some (inr sampleData, sampleWorld, []).
Proof. vm_compute. reflexivity. Qed.

(** ** Truthiness *)

Lemma truthy_string_true (s : string) : truthy s = true <-> s ≠ "".
Proof.
  unfold truthy, truthy_string. rewrite negb_true_iff.
  split.
  - intros H ->. discriminate.
  - intros H. apply String.eqb_neq. exact H.
Qed.

Lemma js_or_present_nonempty (s d : string) : s ≠ "" -> Some s ?| d = s.
Proof.
  intros H. unfold js_or. apply truthy_string_true in H. now rewrite H.
Qed.

Lemma js_or_empty (d : string) : Some "" ?| d = d.
Proof. reflexivity. Qed.

Lemma js_or_missing {A} `{Truthy A} (d : A) : None ?| d = d.
Proof. reflexivity. Qed.

(** ** FormProcessingService: the response-field mapping *)

Module FormatSpec.
Import FormProcessingService.

(** The fields of the formatted data depend neither on the clock nor
    on anything but the raw fields and the page number. *)
Lemma fields_formatExtractedData now now' rawData pageNumber :
  fields (formatExtractedData now rawData pageNumber) =
  fields (formatExtractedData now' rawData pageNumber).
Proof.
  destruct rawData as [[[fs|] t sm]|]; reflexivity.
Qed.

Lemma formTitle_formatExtractedData now now' rawData p p' :
  formTitle (formatExtractedData now rawData p) =
  formTitle (formatExtractedData now' rawData p').
Proof.
  destruct rawData as [[[fs|] t sm]|]; reflexivity.
Qed.




End FormatSpec.

(** ** AIProviderService: the default provider *)

Module RegistrySpec.
Import AIProviderService.

(** C7, as stated, fails: with no provider configured the default is
    "gpt-4o", which is not the first entry of the priority order. *)
Lemma getDefaultProvider_unconfigured_not_first :
  (forall k, k ∈ priorityOrder -> configured ∅ k = false) /\
  head priorityOrder = Some "gemini" /\
  getDefaultProvider ∅ = "gpt-4o" /\
  Some (getDefaultProvider ∅) ≠ head priorityOrder.
Proof.
  split; [|repeat split; discriminate].
  intros k Hk. unfold priorityOrder in Hk.
  repeat (apply elem_of_cons in Hk as [-> | Hk]; [reflexivity|]).
  inversion Hk.
Qed.

Lemma firstConfigured_Some env order k :
  firstConfigured env order = Some k ->
  exists l1 l2, order = l1 ++ k :: l2 /\
                Forall (fun j => configured env j = false) l1 /\
                configured env k = true.
Proof.
  induction order as [|p rest IH]; simpl; [discriminate|].
  destruct (configured env p) eqn:Hp.
  - intros [= <-]. exists [], rest. repeat split; [constructor | exact Hp].
  - intros H. destruct (IH H) as (l1 & l2 & -> & Hl1 & Hk).
    exists (p :: l1), l2. repeat split; [constructor; assumption | exact Hk].
Qed.

Lemma firstConfigured_None env order :
  firstConfigured env order = None ->
  Forall (fun j => configured env j = false) order.
Proof.
  induction order as [|p rest IH]; simpl; [constructor|].
  destruct (configured env p) eqn:Hp; [discriminate|].
  intros H. constructor; auto.
Qed.

(** C7, amended: the default provider is the first configured entry
    of the priority order gemini, gpt-4o, claude; when none of them is
    configured it is "gpt-4o", the second entry of that order. *)
Theorem getDefaultProvider_spec (env : gmap string string) :
  (exists l1 k l2,
      priorityOrder = l1 ++ k :: l2 /\
      Forall (fun j => configured env j = false) l1 /\
      configured env k = true /\
      getDefaultProvider env = k)
  \/
  (Forall (fun j => configured env j = false) priorityOrder /\
   getDefaultProvider env = "gpt-4o" /\
   priorityOrder !! 1%nat = Some "gpt-4o").
Proof.
  unfold getDefaultProvider.
  destruct (firstConfigured env priorityOrder) as [k|] eqn:Hfc.
  - left. destruct (firstConfigured_Some _ _ _ Hfc) as (l1 & l2 & E & H1 & Hk).
    exists l1, k, l2. auto.
  - right. split; [now apply firstConfigured_None | split; reflexivity].
Qed.

End RegistrySpec.

(** ** The field collection of the store *)

Lemma with_form_store w : with_form (store w) w = w.
Proof. destruct w as [[s cp] t u l]. reflexivity. Qed.

Lemma with_extractedData_same s data :
  extractedData s = Some data ->
  with_extractedData (Some (with_fields (fields data) data)) s = s.
Proof.
  destruct s, data; simpl. intros ->. reflexivity.
Qed.

Section FieldStore.

Variable clock : nat -> Z.

(** A mutation of the field collection succeeds on a store that holds
    extracted data, and changes nothing else. *)
Lemma exec_update_fields f w script data :
  extractedData (store w) = Some data ->
  exec clock (set_with (update_fields f)) w script =
  Some (inr tt,
        with_form (with_extractedData
                     (Some (with_fields (f (fields data)) data)) (store w)) w,
        script).
Proof.
  unfold store. intros H. simpl. unfold update_fields. rewrite H. reflexivity.
Qed.

Lemma map_unless_id {A} (test : A -> bool) (g : A -> A) (l : list A) :
  (forall a, a ∈ l -> test a = false) ->
  map (fun a => if test a then g a else a) l = l.
Proof.
  induction l as [|a l IH]; intros H; simpl; [reflexivity|].
  rewrite (H a) by (left). f_equal. apply IH. intros b Hb. apply H. now right.
Qed.

Lemma id_eqb_absent (fieldId : string) (fs : list Field) :
  (forall f, f ∈ fs -> id f ≠ fieldId) ->
  forall f, f ∈ fs -> String.eqb (id f) fieldId = false.
Proof. intros H f Hf. apply String.eqb_neq. now apply H. Qed.

(** *** updateField *)

(** C4, amended: on a collection that has no field with the given id,
    [updateField] returns normally, raises no error and leaves the
    whole state, the field collection included, unchanged. *)
Theorem updateField_unknown_id_unchanged fieldId updates w script data :
  extractedData (store w) = Some data ->
  (forall f, f ∈ fields data -> id f ≠ fieldId) ->
  exec clock (updateField fieldId updates) w script = Some (inr tt, w, script).
Proof.
  intros Hd Habs. unfold updateField.
  rewrite (exec_update_fields _ _ _ _ Hd).
  rewrite map_unless_id by (now apply id_eqb_absent).
  rewrite (with_extractedData_same _ _ Hd). now rewrite with_form_store.
Qed.

(** *** toggleFieldVerification *)

Lemma toggle_involutive fieldId field :
  toggle fieldId (toggle fieldId field) = field.
Proof.
  unfold toggle. destruct (String.eqb (id field) fieldId) eqn:E.
  - simpl. rewrite E. destruct field; simpl. now rewrite negb_involutive.
  - now rewrite E.
Qed.

Lemma map_toggle_involutive fieldId (fs : list Field) :
  map (toggle fieldId) (map (toggle fieldId) fs) = fs.
Proof.
  induction fs as [|f fs IH]; simpl; [reflexivity|].
  now rewrite toggle_involutive, IH.
Qed.

(** C9: on a store that holds a field collection, toggling the same
    id twice in succession restores the state exactly, and toggling
    an id that is not in the collection changes nothing. *)
Theorem toggleFieldVerification_twice fieldId w script data :
  extractedData (store w) = Some data ->
  exec clock (toggleFieldVerification fieldId;;
              toggleFieldVerification fieldId) w script
    = Some (inr tt, w, script)
  /\ ((forall f, f ∈ fields data -> id f ≠ fieldId) ->
      exec clock (toggleFieldVerification fieldId) w script
        = Some (inr tt, w, script)).
Proof.
  intros Hd. unfold toggleFieldVerification. split.
  - rewrite exec_bind, (exec_update_fields _ _ _ _ Hd).
    erewrite exec_update_fields by reflexivity.
    change (fun field : Field =>
              if String.eqb (id field) fieldId
              then with_verified (negb (verified field)) field
              else field) with (toggle fieldId).
    simpl fields. rewrite map_toggle_involutive.
    destruct w as [[s cp] t u l], s, data; unfold store in Hd; simpl in Hd.
    subst. reflexivity.
  - intros Habs. rewrite (exec_update_fields _ _ _ _ Hd).
    rewrite map_unless_id by (now apply id_eqb_absent).
    rewrite (with_extractedData_same _ _ Hd). now rewrite with_form_store.
Qed.

End FieldStore.

(** C4, as stated, fails: updating an id that is not in the collection
    does not fail, the call returns normally. *)
Lemma updateField_unknown_id_returns :
  let call :=
    updateField "field_7_1" {| upd_label := Some "Age"; upd_value := None |} in
  (forall f, f ∈ fields sampleData -> id f ≠ "field_7_1") /\
  exec sampleClock call sampleWorld [] = Some (inr tt, sampleWorld, []) /\
  ~ (exists e w', exec sampleClock call sampleWorld [] = Some (inl e, w', [])).
Proof.
  intros call. split; [|split; [reflexivity|]].
  - intros f Hf. apply list_elem_of_singleton in Hf. subst f. discriminate.
  - intros (e & w' & H). discriminate H.
Qed.

Lemma updateField_unknown_id_unchanged_witness :
  (forall f, f ∈ fields sampleData -> id f ≠ "field_7_1") /\
  exec sampleClock
       (updateField "field_7_1" {| upd_label := Some "Age"; upd_value := None |})
       sampleWorld [Rejected (Error "unused")]
    = Some (inr tt, sampleWorld, [Rejected (Error "unused")]).
Proof.
  assert (H : forall f, f ∈ fields sampleData -> id f ≠ "field_7_1").
  { intros f Hf. apply list_elem_of_singleton in Hf. subst f. discriminate. }
  split; [exact H|].
  exact (updateField_unknown_id_unchanged sampleClock "field_7_1"
           {| upd_label := Some "Age"; upd_value := None |}
           sampleWorld [Rejected (Error "unused")] sampleData eq_refl H).
Defined.

Lemma toggleFieldVerification_twice_witness :
  extractedData (store sampleWorld) = Some sampleData /\
  exec sampleClock
       (toggleFieldVerification "field_0_1";;
        toggleFieldVerification "field_0_1") sampleWorld []
    = Some (inr tt, sampleWorld, []).
Proof.
  split; [reflexivity|].
  exact (proj1 (toggleFieldVerification_twice sampleClock "field_0_1"
                  sampleWorld [] sampleData eq_refl)).
Defined.

(** *** addField *)

(** C5, as stated, fails: an add request with an empty label is not
    rejected; the call returns normally and appends a field labelled
    "New Field". *)
Lemma addField_empty_label_accepted :
  exists w',
    exec sampleClock
         (addField {| fd_label := Some ""; fd_value := None;
                      fd_type := None; fd_page := Some 2 |})
         sampleWorld [] = Some (inr tt, w', []) /\
    label <$> (extractedData (store w') ≫= fun d => last (fields d))
      = Some "New Field".
Proof. eexists. split; reflexivity. Qed.

(** C5, amended: the add operation does not validate the label.  On a
    store that holds a field collection it appends exactly one field,
    with confidence 1.0, verified true and no boundingBox; its page is
    the given page when one is given (and is not 0), otherwise the
    store's current page; its label is the given label when one is
    given and not empty, otherwise "New Field". *)
Theorem addField_appends clock fieldData w script data :
  extractedData (store w) = Some data ->
  exists newField,
    exec clock (addField fieldData) w script =
      Some (inr tt,
            with_form (with_extractedData
                         (Some (with_fields (fields data ++ [newField]) data))
                         (store w)) (tick w),
            script) /\
    confidence newField = 1.0%Q /\
    verified newField = true /\
    boundingBox newField = BoxAbsent /\
    (forall p, fd_page fieldData = Some p -> p ≠ 0%nat ->
               page newField = Some p) /\
    (fd_page fieldData = None \/ fd_page fieldData = Some 0%nat ->
     currentPage (store w) ≠ 0%nat ->
     page newField = Some (currentPage (store w))) /\
    (forall l, fd_label fieldData = Some l -> l ≠ "" -> label newField = l) /\
    (fd_label fieldData = None \/ fd_label fieldData = Some "" ->
     label newField = "New Field").
Proof.
  intros Hd. unfold addField, get.
  eexists. split.
  - simpl. unfold store in Hd. unfold update_fields. simpl. rewrite Hd.
    reflexivity.
  - simpl. repeat split.
    + intros p -> Hp. unfold js_or_opt, js_or, truthy, truthy_nat.
      apply Nat.eqb_neq in Hp. rewrite Hp. simpl. now rewrite Hp.
    + intros Hp Hc. unfold js_or_opt, js_or, truthy, truthy_nat.
      unfold store in *. apply Nat.eqb_neq in Hc.
      destruct Hp as [-> | ->]; simpl; now rewrite Hc.
    + intros l -> Hl. now apply js_or_present_nonempty.
    + intros [-> | ->]; reflexivity.
Qed.

Lemma addField_appends_witness :
  exists newField,
    exec sampleClock
         (addField {| fd_label := Some "Email"; fd_value := None;
                      fd_type := None; fd_page := Some 2 |})
         sampleWorld [] =
      Some (inr tt,
            with_form (with_extractedData
                         (Some (with_fields (fields sampleData ++ [newField])
                                            sampleData))
                         (store sampleWorld)) (tick sampleWorld),
            []) /\
    confidence newField = 1.0%Q /\ verified newField = true /\
    boundingBox newField = BoxAbsent.
Proof.
  destruct (addField_appends sampleClock
              {| fd_label := Some "Email"; fd_value := None;
                 fd_type := None; fd_page := Some 2 |}
              sampleWorld [] sampleData eq_refl)
    as (newField & He & Hc & Hv & Hb & _).
  exists newField. auto.
Defined.

(** *** uploadForm *)

Lemma includes_In (l : list string) (s : string) :
  FormProcessingService.includes l s = true <-> In s l.
Proof.
  unfold FormProcessingService.includes. rewrite existsb_exists. split.
  - intros (x & Hx & E). apply String.eqb_eq in E. now subst.
  - intros H. exists s. split; [exact H | apply String.eqb_refl].
Qed.

(** X29: a file fails validation exactly when its type is not one of
    the five allowed types or its size is over 10 MiB (a file of exactly
    that size passes). *)
Lemma validateImageFile_invalid_iff (f : File) :
  (exists msg, FormProcessingService.validateImageFile (Some f)
               = FormProcessingService.invalid msg) <->
  (~ In (file_type f) FormProcessingService.allowedTypes \/
   (FormProcessingService.maxSize < file_size f)%N).
Proof.
  unfold FormProcessingService.validateImageFile.
  destruct (FormProcessingService.includes _ (file_type f)) eqn:Hi;
    cbn [negb].
  - apply includes_In in Hi.
    destruct (N.ltb_spec FormProcessingService.maxSize (file_size f)).
    + split; [intros _; now right | intros _; eauto].
    + split; [intros (msg & H'); discriminate|].
      intros [Hn | Hlt]; [contradiction | lia].
  - split; [|intros _; eauto].
    intros _. left. intros Hin. apply includes_In in Hin. congruence.
Qed.

(** C10: an upload of a file that fails validation is rejected with the
    validation error; it issues no request, and it changes nothing in
    the store but the error message, which it sets, and the processing
    flag, which it leaves cleared. *)
Theorem uploadForm_invalid_file clock w script file msg :
  FormProcessingService.validateImageFile file
    = FormProcessingService.invalid msg ->
  exists w',
    exec clock (uploadForm file) w script = Some (inl (Error msg), w', script) /\
    w' = with_form (with_error (Some msg) (with_processing false (store w))) w /\
    currentForm (store w') = currentForm (store w) /\
    originalFile (store w') = originalFile (store w) /\
    extractedData (store w') = extractedData (store w) /\
    totalPages (store w') = totalPages (store w) /\
    currentPage (store w') = currentPage (store w) /\
    error (store w') = Some msg /\
    processing (store w') = false /\
    log w' = log w.
Proof.
  intros Hv. eexists. split; [|repeat split].
  unfold uploadForm. rewrite exec_bind. simpl.
  rewrite exec_try_catch, Hv. reflexivity.
Qed.

Lemma uploadForm_invalid_file_witness :
  let big := {| file_name := "scan.pdf"; file_type := "application/pdf";
                file_size := 10485761; file_content := 1 |} in
  exists w',
    exec sampleClock (uploadForm (Some big)) sampleWorld []
      = Some (inl (Error "File too large. Maximum size is 10MB."), w', []) /\
    extractedData (store w') = Some sampleData.
Proof.
  intros big.
  destruct (uploadForm_invalid_file sampleClock sampleWorld [] (Some big)
              "File too large. Maximum size is 10MB." eq_refl)
    as (w' & He & _ & _ & _ & Hd & _).
  exists w'. split; [exact He | exact Hd].
Defined.

(** X30: the upload of a valid PDF whose page count and first page are
    obtained opens the session that the multi-page run expects: the
    PDF is kept as the original file, the page count is the one
    reported, the current form is the first page rendered under the
    name of the PDF, and no extracted data are held. *)
Lemma uploadForm_pdf_session clock w f n b script :
  FormProcessingService.validateImageFile (Some f)
    = FormProcessingService.valid ->
  FormProcessingService.isPDF f = true ->
  exists w',
    exec clock (uploadForm (Some f)) w (Pages n :: Image b :: script)
      = Some (inr tt, w', script) /\
    isPDF (store w') = true /\
    originalFile (store w') = Some f /\
    totalPages (store w') = n /\
    currentForm (store w') = Some (new_File b (file_name f) "image/png") /\
    extractedData (store w') = None.
Proof.
  intros Hv Hp. unfold uploadForm.
  rewrite exec_bind, exec_set, exec_try_catch, Hv, Hp.
  eexists. split; [reflexivity|]. repeat split.
Qed.

(** ** The extraction run *)

Section ProviderCall.

Variable env : gmap string string.
Variable clock : nat -> Z.

Lemma exec_extractFormFields_parsed imageFile rawData w script :
  providerReady env w ->
  exec clock (extractFormFields env imageFile) w (Parsed rawData :: script) =
  Some (inr rawData,
        logged (ServiceExtract (currentProvider (app w)) imageFile) w, script).
Proof.
  intros (info & Hl & Hc). unfold extractFormFields.
  rewrite exec_bind. cbn [exec]. rewrite Hl, Hc. reflexivity.
Qed.

Lemma exec_extractFormFields_rejected imageFile e w script :
  providerReady env w ->
  exec clock (extractFormFields env imageFile) w (Rejected e :: script) =
  Some (inl e,
        logged (ServiceExtract (currentProvider (app w)) imageFile) w, script).
Proof.
  intros (info & Hl & Hc). unfold extractFormFields.
  rewrite exec_bind. cbn [exec]. rewrite Hl, Hc. reflexivity.
Qed.

(** One iteration of the loop whose page is rendered and extracted. *)
Lemma exec_extractPages_step pdf remaining pageNum allFields title b rawData
    w script :
  providerReady env w ->
  exec clock (extractPages env pdf (S remaining) pageNum allFields title) w
       (Image b :: Parsed rawData :: script) =
  let title' := if Nat.eqb pageNum 1 then reportedTitle rawData else title in
  let allFields' := allFields ++ pageFields pageNum rawData in
  exec clock (extractPages env pdf remaining (S pageNum) allFields' title')
       (afterPage clock pdf pageNum b allFields' title' w) script.
Proof.
  intros Hready. cbn [extractPages].
  rewrite exec_bind, exec_set.
  rewrite exec_bind,
    (exec_await clock (PDFPageToImage pdf pageNum) (Image b) (inr b))
    by reflexivity.
  rewrite exec_bind, exec_extractFormFields_parsed by exact Hready.
  rewrite exec_bind, exec_dateNow.
  rewrite exec_bind, exec_dateNow.
  rewrite exec_bind, exec_set.
  cbv zeta. unfold pageFields, reportedTitle.
  rewrite (FormatSpec.fields_formatExtractedData _ 0).
  rewrite (FormatSpec.formTitle_formatExtractedData _ 0 _ pageNum 1).
  unfold afterPage, with_form, logged, tick, store. simpl.
  rewrite <- app_assoc. reflexivity.
Qed.

(** The iteration at which the provider call is rejected ends the loop
    with the provider's error. *)
Lemma exec_extractPages_rejected pdf remaining pageNum allFields title b e
    w script :
  providerReady env w ->
  exec clock (extractPages env pdf (S remaining) pageNum allFields title) w
       (Image b :: Rejected e :: script) =
  Some (inl e,
        {| app := {| form := with_processingPage (Some pageNum) (store w);
                     currentProvider := currentProvider (app w) |};
           ticks := ticks w; urls := urls w;
           log := log w ++
                  [PDFPageToImage pdf pageNum;
                   ServiceExtract (currentProvider (app w))
                     (new_File b (file_name pdf) "image/png")] |},
        script).
Proof.
  intros Hready. cbn [extractPages].
  rewrite exec_bind, exec_set.
  rewrite exec_bind,
    (exec_await clock (PDFPageToImage pdf pageNum) (Image b) (inr b))
    by reflexivity.
  rewrite exec_bind, exec_extractFormFields_rejected by exact Hready.
  unfold with_form, logged, store. simpl.
  rewrite <- app_assoc. reflexivity.
Qed.

End ProviderCall.

Lemma length_pageFields pageNum rawData :
  length (pageFields pageNum rawData) = rawCount rawData.
Proof.
  unfold pageFields, rawCount. rewrite length_map.
  destruct rawData as [[[fs|] t sm]|]; simpl; try reflexivity.
  apply length_imap.
Qed.

Lemma length_mergedFields raws : forall pageNum,
  length (mergedFields pageNum raws) = sum_list (rawCount <$> raws).
Proof.
  induction raws as [|r raws IH]; intros pageNum; simpl; [reflexivity|].
  now rewrite length_app, length_pageFields, IH.
Qed.

Lemma page_pageFields pageNum rawData :
  Forall (fun f => page f = Some pageNum) (pageFields pageNum rawData).
Proof.
  unfold pageFields. apply Forall_forall. intros f Hf.
  apply list_elem_of_In, in_map_iff in Hf. destruct Hf as (g & <- & _).
  reflexivity.
Qed.

Lemma page_mergedFields raws : forall pageNum,
  Forall (fun f => exists p, page f = Some p /\
                             pageNum <= p < pageNum + length raws)
         (mergedFields pageNum raws).
Proof.
  induction raws as [|r raws IH]; intros pageNum; simpl; [constructor|].
  apply Forall_app. split.
  - eapply Forall_impl; [apply page_pageFields|].
    intros f Hf. exists pageNum. split; [exact Hf | lia].
  - eapply Forall_impl; [apply IH|].
    intros f (p & Hp & Hr). exists p. split; [exact Hp | lia].
Qed.

Lemma titleAfter_later raws : forall pageNum title,
  2 <= pageNum -> titleAfter pageNum raws title = title.
Proof.
  induction raws as [|r raws IH]; intros pageNum title H; simpl; [reflexivity|].
  rewrite IH by lia.
  destruct (Nat.eqb_spec pageNum 1); [lia | reflexivity].
Qed.

Lemma titleAfter_first r raws title :
  titleAfter 1 (r :: raws) title = reportedTitle r.
Proof. simpl. now rewrite titleAfter_later. Qed.

Lemma store_with_same (s : Store) :
  with_extractedData (extractedData s) (with_processingPage (processingPage s) s)
  = s.
Proof. destruct s. reflexivity. Qed.

Section Pages.

Variable env : gmap string string.
Variable clock : nat -> Z.

Lemma providerReady_afterPage pdf pageNum b allFields title w :
  providerReady env w ->
  providerReady env (afterPage clock pdf pageNum b allFields title w).
Proof. intros H. exact H. Qed.

(** The loop, run over pages that are all rendered and extracted,
    reaches the iteration that follows them. *)
Lemma exec_extractPages_prefix pdf (done : list (Blob * option RawData)) :
  forall m pageNum allFields title w script,
    providerReady env w ->
    exists w1,
      exec clock
           (extractPages env pdf (length done + m) pageNum allFields title)
           w (pagesScript done ++ script)
      = exec clock
             (extractPages env pdf m (pageNum + length done)
                (allFields ++ mergedFields pageNum done.*2)
                (titleAfter pageNum done.*2 title))
             w1 script
      /\ pagesDone pdf pageNum allFields done w w1.
Proof.
  induction done as [|[b r] done IH];
    intros m pageNum allFields title w script Hready.
  - exists w. simpl. rewrite Nat.add_0_r, app_nil_r. split; [reflexivity|].
    split; [reflexivity|]. split; [now rewrite app_nil_r|].
    exists (extractedData (store w)), (processingPage (store w)).
    split; [now rewrite store_with_same|]. split; [reflexivity | congruence].
  - change (length ((b, r) :: done) + m) with (S (length done + m)).
    change (pagesScript ((b, r) :: done) ++ script)
      with (Image b :: Parsed r :: (pagesScript done ++ script)).
    rewrite exec_extractPages_step by exact Hready. cbv zeta.
    destruct (IH m (S pageNum) (allFields ++ pageFields pageNum r)
                (if Nat.eqb pageNum 1 then reportedTitle r else title)
                (afterPage clock pdf pageNum b
                   (allFields ++ pageFields pageNum r)
                   (if Nat.eqb pageNum 1 then reportedTitle r else title) w)
                script (providerReady_afterPage _ _ _ _ _ _ Hready))
      as (w1 & He & Hp & Hl & ed & pp & Hs & Hnil & Hcons).
    exists w1. split.
    + rewrite He. simpl. rewrite <- app_assoc, Nat.add_succ_r. reflexivity.
    + split; [exact Hp|]. split.
      * rewrite Hl. simpl. rewrite <- app_assoc. reflexivity.
      * exists ed, pp. split; [rewrite Hs; reflexivity|].
        split; [discriminate|]. intros _.
        destruct done as [|p done].
        -- rewrite (Hnil eq_refl). simpl. rewrite app_nil_r. eauto.
        -- destruct (Hcons ltac:(discriminate)) as (pt & pa & ->).
           exists pt, pa. now rewrite <- app_assoc.
Qed.

(** The loop over pages that are all rendered and extracted returns
    the merged fields and the title. *)
Lemma exec_extractPages_all pdf (done : list (Blob * option RawData))
    pageNum allFields title w script :
  providerReady env w ->
  exists w1,
    exec clock (extractPages env pdf (length done) pageNum allFields title)
         w (pagesScript done ++ script)
    = Some (inr (allFields ++ mergedFields pageNum done.*2,
                 titleAfter pageNum done.*2 title), w1, script)
    /\ pagesDone pdf pageNum allFields done w w1.
Proof.
  intros Hready.
  destruct (exec_extractPages_prefix pdf done 0 pageNum allFields title w
              script Hready) as (w1 & He & Hd).
  rewrite Nat.add_0_r in He. exists w1. split; [|exact Hd].
  rewrite He. reflexivity.
Qed.

End Pages.

Section Run.

Variable env : gmap string string.
Variable clock : nat -> Z.

(** A run on a loaded document: the flags are set, the extraction
    proper runs, and its outcome decides between the end of the [try]
    block and the [catch] block. *)
Lemma exec_extractFields_loaded w cur script :
  currentForm (store w) = Some cur ->
  exec clock (extractFields env) w script =
  match exec clock (runPages env (store w) cur)
             (with_form (with_processing true (with_error None (store w))) w)
             script with
  | Some (inl e, w1, script1) => Some (inl e, failed e w1, script1)
  | Some (inr r, w1, script1) =>
      match AIProviderService.getProviderInfo env (selectedProvider (store w))
      with
      | inr providerInfo =>
          Some (inr (finalDataOf clock r w1),
                finished clock providerInfo (selectedProvider (store w))
                         cur r w1,
                script1)
      | inl e => Some (inl e, failed e (tick w1), script1)
      end
  | None => None
  end.
Proof.
  intros Hcur. unfold extractFields, runPages.
  rewrite exec_bind, exec_get. cbv beta iota. rewrite Hcur.
  rewrite exec_bind, exec_set, exec_try_catch, exec_bind.
  match goal with
  | |- match match ?x with _ => _ end with _ => _ end = _ =>
      destruct x as [[[[e|[fs t]] w1] script1]|]
  end; try reflexivity.
  rewrite exec_bind, exec_dateNow, exec_bind.
  destruct (AIProviderService.getProviderInfo env (selectedProvider (store w)))
    as [e|providerInfo]; reflexivity.
Qed.

(** [getProviderInfo] returns for every key but those inherited from
    [Object.prototype], for which it throws. *)
Lemma getProviderInfo_returns key :
  ~ In key inheritedKeys ->
  exists providerInfo,
    AIProviderService.getProviderInfo env key = inr providerInfo.
Proof.
  intros Hk. unfold AIProviderService.getProviderInfo.
  destruct (AIProviderService.providers !! key); [eauto|].
  destruct (FormProcessingService.includes inheritedKeys key) eqn:E;
    [|eauto].
  apply includes_In in E. contradiction.
Qed.

Lemma getProviderInfo_throws key :
  In key inheritedKeys ->
  AIProviderService.getProviderInfo env key
  = inl (TypeError "provider.isConfigured is not a function").
Proof.
  intros Hk. unfold inheritedKeys in Hk.
  repeat (destruct Hk as [<- | Hk]; [reflexivity|]). destruct Hk.
Qed.

Lemma exec_extractFields_unloaded w script :
  currentForm (store w) = None ->
  exec clock (extractFields env) w script
    = Some (inl (Error "No form uploaded"), w, script).
Proof.
  intros Hcur. unfold extractFields.
  rewrite exec_bind, exec_get. cbv beta iota. now rewrite Hcur.
Qed.

Lemma runPages_multipage s cur pdf :
  isPDF s = true -> 1 < totalPages s -> originalFile s = Some pdf ->
  runPages env s cur = extractPages env pdf (totalPages s) 1 [] (Some "").
Proof.
  intros Hpdf Hmany Horig. unfold runPages.
  apply Nat.ltb_lt in Hmany. now rewrite Hpdf, Hmany, Horig.
Qed.

(** The title of a run over several pages is the title of the
    formatted response of page 1. *)
Lemma reportedTitle_spec (rawData : option RawData) :
  reportedTitle rawData =
  match rawData with
  | Some r => match raw_fields r with
              | Some _ => raw_formTitle r
              | None => Some "Unknown Form"
              end
  | None => Some "Unknown Form"
  end.
Proof. destruct rawData as [[[fs|] t sm]|]; reflexivity. Qed.

(** C1, amended: a run over a PDF of N > 1 pages in which every page is
    rendered and extracted, the selected provider not being a property
    name inherited from [Object.prototype], returns; the fields of its
    result are those of the pages in order, their number is the sum of
    the numbers of fields of the pages, each carries a page number
    between 1 and N, and the title is the one that page 1 reports when
    the response of page 1 has a field list, and [Unknown Form] when it
    has none; the titles of the later pages play no part. *)
Theorem extractFields_multipage w pdf cur
    (pages : list (Blob * option RawData)) script :
  currentForm (store w) = Some cur ->
  originalFile (store w) = Some pdf ->
  isPDF (store w) = true ->
  totalPages (store w) = length pages ->
  1 < length pages ->
  providerReady env w ->
  ~ In (selectedProvider (store w)) inheritedKeys ->
  exists d w',
    exec clock (extractFields env) w (pagesScript pages ++ script)
      = Some (inr d, w', script) /\
    extractedData (store w') = Some d /\
    fields d = mergedFields 1 pages.*2 /\
    length (fields d) = sum_list (rawCount <$> pages.*2) /\
    Forall (fun f => exists p, page f = Some p /\ 1 <= p <= length pages)
           (fields d) /\
    (forall r fs, head pages.*2 = Some (Some r) -> raw_fields r = Some fs ->
       formTitle d = raw_formTitle r) /\
    (forall r, head pages.*2 = Some (Some r) -> raw_fields r = None ->
       formTitle d = Some "Unknown Form") /\
    (head pages.*2 = Some None -> formTitle d = Some "Unknown Form").
Proof.
  intros Hcur Horig Hpdf Htotal Hmany Hready Hsel.
  rewrite (exec_extractFields_loaded _ _ _ Hcur).
  rewrite (runPages_multipage _ _ pdf) by (rewrite ?Htotal; assumption).
  rewrite Htotal.
  destruct (exec_extractPages_all env clock pdf pages 1 [] (Some "")
              (with_form (with_processing true (with_error None (store w))) w)
              script Hready) as (w1 & He & _).
  destruct (getProviderInfo_returns _ Hsel) as (providerInfo & Hi).
  rewrite He, Hi. eexists. eexists. split; [reflexivity|].
  split; [reflexivity|]. simpl.
  split; [reflexivity|].
  split; [apply length_mergedFields|].
  split.
  - eapply Forall_impl; [apply page_mergedFields|].
    intros f (p & Hp & Hr). exists p. rewrite length_fmap in Hr.
    split; [exact Hp | lia].
  - destruct pages as [|[b r] pages]; [simpl in Hmany; lia|].
    simpl. rewrite titleAfter_later by lia. rewrite reportedTitle_spec.
    repeat split.
    + intros r' fs [= ->] Hf. now rewrite Hf.
    + intros r' [= ->] Hf. now rewrite Hf.
    + intros [= ->]. reflexivity.
Qed.

End Run.

Lemma sampleEnv_ready : providerReady sampleEnv samplePdfWorld.
Proof. eexists. split; reflexivity. Qed.

(** A key that is not one of the inherited property names. *)
Ltac not_inherited :=
  let H := fresh in
  intros H; unfold inheritedKeys in H; simpl in H;
  repeat (destruct H as [H|H]; [discriminate H|]); exact H.

Lemma extractFields_multipage_witness :
  let pages := [(sampleImage, sampleRaw "Page one" ["Name"; "Email"]);
                (sampleImage, sampleRaw "Page two" ["Phone"])] in
  exists d w',
    exec sampleClock (extractFields sampleEnv) samplePdfWorld
         (pagesScript pages) = Some (inr d, w', []) /\
    length (fields d) = 3%nat /\
    formTitle d = Some "Page one".
Proof.
  intros pages.
  destruct (extractFields_multipage sampleEnv sampleClock samplePdfWorld
              samplePdf (new_File sampleImage "form.pdf" "image/png")
              pages [] eq_refl eq_refl eq_refl eq_refl
              ltac:(simpl; lia) sampleEnv_ready ltac:(not_inherited))
    as (d & w' & He & _ & _ & Hn & _ & Ht & _).
  exists d, w'. split; [exact He|]. split; [exact Hn|].
  exact (Ht _ _ eq_refl eq_refl).
Defined.

(** C1, as stated, fails: when the response of page 1 reports a title
    but has no field list, the title of the result is [Unknown Form],
    not the title that page 1 reports. *)
Lemma extractFields_title_without_fields :
  let page1 := {| raw_fields := None; raw_formTitle := Some "Tax return";
                  raw_summary := None |} in
  let pages := [(sampleImage, Some page1);
                (sampleImage, sampleRaw "Page two" ["Phone"])] in
  exists d w',
    exec sampleClock (extractFields sampleEnv) samplePdfWorld
         (pagesScript pages) = Some (inr d, w', []) /\
    raw_formTitle page1 = Some "Tax return" /\
    formTitle d = Some "Unknown Form" /\
    formTitle d ≠ raw_formTitle page1.
Proof.
  intros page1 pages.
  destruct (exec sampleClock (extractFields sampleEnv) samplePdfWorld
              (pagesScript pages)) as [[[[e|d] w'] script']|] eqn:E;
    try (vm_compute in E; discriminate E).
  vm_compute in E. injection E as <- <- <-.
  eexists. eexists. split; [reflexivity|].
  repeat split; discriminate.
Qed.

Lemma providerReady_same env w w1 :
  currentProvider (app w1) = currentProvider (app w) ->
  providerReady env w -> providerReady env w1.
Proof. unfold providerReady. intros ->. auto. Qed.

Lemma pageRequests_app provider pdf blobs1 : forall pageNum blobs2,
  pageRequests provider pdf pageNum (blobs1 ++ blobs2) =
  pageRequests provider pdf pageNum blobs1 ++
  pageRequests provider pdf (pageNum + length blobs1) blobs2.
Proof.
  induction blobs1 as [|b blobs1 IH]; intros pageNum blobs2; simpl.
  - now rewrite Nat.add_0_r.
  - rewrite IH, Nat.add_succ_r. reflexivity.
Qed.

Lemma renderedPages_app l1 l2 :
  renderedPages (l1 ++ l2) = renderedPages l1 ++ renderedPages l2.
Proof. unfold renderedPages. apply flat_map_app. Qed.

Lemma renderedPages_pageRequests provider pdf blobs : forall pageNum,
  renderedPages (pageRequests provider pdf pageNum blobs)
  = seq pageNum (length blobs).
Proof.
  induction blobs as [|b blobs IH]; intros pageNum; simpl; [reflexivity|].
  now rewrite <- IH.
Qed.

(** C3, as stated, fails on its last part: the failure that is reported
    does not carry the page number.  The same provider error at page 1
    and at page 2 of the same document is reported identically: the
    same error is thrown, the same message is stored, and the progress
    marker is reset. *)
Lemma extractFields_failure_without_page :
  let boom := Error "Request failed" in
  let atPage1 := [Image sampleImage; Rejected boom] in
  let atPage2 := [Image sampleImage; Parsed (sampleRaw "Title" ["Name"]);
                  Image sampleImage; Rejected boom] in
  reportedFailure <$> exec sampleClock (extractFields sampleEnv)
                           samplePdfWorld atPage1
    = Some (Some boom, Some "Request failed", None) /\
  reportedFailure <$> exec sampleClock (extractFields sampleEnv)
                           samplePdfWorld atPage2
    = Some (Some boom, Some "Request failed", None) /\
  (renderedPages ∘ log ∘ snd ∘ fst) <$>
    exec sampleClock (extractFields sampleEnv) samplePdfWorld atPage1
    = Some [1] /\
  (renderedPages ∘ log ∘ snd ∘ fst) <$>
    exec sampleClock (extractFields sampleEnv) samplePdfWorld atPage2
    = Some [1; 2].
Proof. repeat split; vm_compute; reflexivity. Qed.

Section Failure.

Variable env : gmap string string.
Variable clock : nat -> Z.

(** C3, amended: when the provider call of page k fails, the run
    rethrows the provider's error unchanged; the pages rendered are
    1..k and no other; the fields published for pages 1..k-1 stay in
    the store (for k = 1 the extracted data is what it was); the
    store's error is the error's message, processing is false and the
    progress marker is reset, so that the failure itself does not
    name the page. *)
Theorem extractFields_page_failure w pdf cur
    (done : list (Blob * option RawData)) b e script :
  currentForm (store w) = Some cur ->
  originalFile (store w) = Some pdf ->
  isPDF (store w) = true ->
  1 < totalPages (store w) ->
  length done < totalPages (store w) ->
  providerReady env w ->
  exists w',
    exec clock (extractFields env) w
         (pagesScript done ++ Image b :: Rejected e :: script)
      = Some (inl e, w', script) /\
    log w' = log w ++ pageRequests (currentProvider (app w)) pdf 1
                                   (done.*1 ++ [b]) /\
    renderedPages (log w') = renderedPages (log w) ++ seq 1 (S (length done)) /\
    (done = [] -> extractedData (store w') = extractedData (store w)) /\
    (done ≠ [] ->
     exists t a,
       extractedData (store w') =
       Some {| formTitle := t; fields := mergedFields 1 done.*2;
               extractedAt := a |}) /\
    error (store w') = Some (message e) /\
    processing (store w') = false /\
    processingPage (store w') = None.
Proof.
  intros Hcur Horig Hpdf Hmany Hk Hready.
  rewrite (exec_extractFields_loaded _ _ _ _ _ Hcur).
  rewrite (runPages_multipage _ _ _ pdf) by assumption.
  replace (totalPages (store w))
    with (length done + S (totalPages (store w) - S (length done))) by lia.
  destruct (exec_extractPages_prefix env clock pdf done
              (S (totalPages (store w) - S (length done))) 1 [] (Some "")
              (with_form (with_processing true (with_error None (store w))) w)
              (Image b :: Rejected e :: script) Hready)
    as (w1 & He & Hp & Hl & ed & pp & Hs & Hnil & Hcons).
  rewrite He.
  rewrite exec_extractPages_rejected
    by (apply (providerReady_same _ _ _ Hp), Hready).
  eexists. split; [reflexivity|].
  assert (Hlog : log (failed e
            {| app := {| form := with_processingPage (Some (1 + length done))
                                   (store w1);
                         currentProvider := currentProvider (app w1) |};
               ticks := ticks w1; urls := urls w1;
               log := log w1 ++
                 [PDFPageToImage pdf (1 + length done);
                  ServiceExtract (currentProvider (app w1))
                    (new_File b (file_name pdf) "image/png")] |})
          = log w ++ pageRequests (currentProvider (app w)) pdf 1
                                  (done.*1 ++ [b])).
  { simpl. rewrite Hl, Hp, pageRequests_app, length_fmap, <- app_assoc.
    reflexivity. }
  split; [exact Hlog|].
  split.
  { rewrite Hlog, renderedPages_app, renderedPages_pageRequests.
    rewrite length_app, length_fmap, Nat.add_comm. reflexivity. }
  unfold failed, store in *. simpl. rewrite Hs. simpl.
  repeat split.
  - intros Hd. now apply Hnil.
  - intros Hd. destruct (Hcons Hd) as (pt & pa & ->). eauto.
Qed.

End Failure.

Lemma extractFields_page_failure_witness :
  exists w',
    exec sampleClock (extractFields sampleEnv) samplePdfWorld
         (pagesScript [(sampleImage, sampleRaw "Title" ["Name"])]
          ++ [Image sampleImage; Rejected (Error "Request failed")])
      = Some (inl (Error "Request failed"), w', []) /\
    renderedPages (log w') = [1; 2] /\
    error (store w') = Some "Request failed".
Proof.
  destruct (extractFields_page_failure sampleEnv sampleClock samplePdfWorld
              samplePdf (new_File sampleImage "form.pdf" "image/png")
              [(sampleImage, sampleRaw "Title" ["Name"])] sampleImage
              (Error "Request failed") []
              eq_refl eq_refl eq_refl ltac:(simpl; lia) ltac:(simpl; lia)
              sampleEnv_ready)
    as (w' & He & _ & Hr & _ & _ & Herr & _).
  exists w'. split; [exact He|]. split; [exact Hr | exact Herr].
Defined.

(** ** The history of runs *)

Lemma providers_name_truthy key info :
  AIProviderService.providers !! key = Some info ->
  truthy (AIProviderService.name info) = true.
Proof.
  unfold AIProviderService.providers. intros H.
  repeat (apply lookup_insert_Some in H as [[_ <-] | [_ H]]; [reflexivity|]).
  rewrite lookup_empty in H. discriminate.
Qed.

Section History.

Variable env : gmap string string.
Variable clock : nat -> Z.

Lemma keepsHistory_ret {A} (a : A) : keepsHistory clock (mret a).
Proof. intros w script o w' script' [= _ <- _]. reflexivity. Qed.

Lemma keepsHistory_throw {A} e : keepsHistory clock (@Throw A e).
Proof. intros w script o w' script' [= _ <- _]. reflexivity. Qed.

Lemma keepsHistory_bind {A B} (p : Prog A) (f : A -> Prog B) :
  keepsHistory clock p -> (forall a, keepsHistory clock (f a)) -> keepsHistory clock (p ≫= f).
Proof.
  intros Hp Hf w script o w' script'. rewrite exec_bind.
  destruct (exec clock p w script) as [[[[e|a] w1] script1]|] eqn:E;
    [|intros H|discriminate].
  - intros [= _ <- _]. exact (Hp _ _ _ _ _ E).
  - rewrite (Hf _ _ _ _ _ _ H). exact (Hp _ _ _ _ _ E).
Qed.

Lemma keepsHistory_try_catch {A} (p : Prog A) h :
  keepsHistory clock p -> (forall e, keepsHistory clock (h e)) ->
  keepsHistory clock (try_catch p h).
Proof.
  intros Hp Hh w script o w' script'. rewrite exec_try_catch.
  destruct (exec clock p w script) as [[[[e|a] w1] script1]|] eqn:E;
    [intros H| |discriminate].
  - rewrite (Hh _ _ _ _ _ _ H). exact (Hp _ _ _ _ _ E).
  - intros [= _ <- _]. exact (Hp _ _ _ _ _ E).
Qed.

Lemma keepsHistory_set f :
  (forall s, history (f s) = history s) -> keepsHistory clock (set f).
Proof.
  intros Hf w script o w' script'. rewrite exec_set.
  intros [= _ <- _]. apply Hf.
Qed.

Lemma keepsHistory_dateNow : keepsHistory clock dateNow.
Proof. intros w script o w' script' [= _ <- _]. reflexivity. Qed.

Lemma keepsHistory_await req : keepsHistory clock (await req).
Proof.
  intros w [|r script] o w' script'; simpl; [discriminate|].
  destruct (answer req r) as [[e|v]|]; [| |discriminate];
    intros [= _ <- _]; reflexivity.
Qed.

Lemma keepsHistory_extractFormFields imageFile :
  keepsHistory clock (extractFormFields env imageFile).
Proof.
  unfold extractFormFields. apply keepsHistory_bind.
  - intros w script o w' script' [= _ <- _]. reflexivity.
  - intros a. destruct (AIProviderService.providers !! currentProvider a);
      [|destruct (FormProcessingService.includes _ _);
        apply keepsHistory_throw].
    destruct (negb _); [apply keepsHistory_throw|].
    apply keepsHistory_try_catch;
      [apply (keepsHistory_await (ServiceExtract (currentProvider a) imageFile))
      | intros e; apply keepsHistory_throw].
Qed.

Lemma keepsHistory_extractPages pdf remaining :
  forall pageNum allFields title,
    keepsHistory clock (extractPages env pdf remaining pageNum allFields title).
Proof.
  induction remaining as [|remaining IH]; intros pageNum allFields title.
  - apply keepsHistory_ret.
  - cbn [extractPages].
    apply keepsHistory_bind; [now apply keepsHistory_set|]; intros _.
    apply keepsHistory_bind;
      [apply (keepsHistory_await (PDFPageToImage pdf pageNum))|];
      intros imageBlob.
    apply keepsHistory_bind; [apply keepsHistory_extractFormFields|];
      intros rawData.
    apply keepsHistory_bind; [apply keepsHistory_dateNow|]; intros now.
    apply keepsHistory_bind; [apply keepsHistory_dateNow|]; intros now'.
    apply keepsHistory_bind; [now apply keepsHistory_set|]; intros _.
    apply IH.
Qed.

Lemma keepsHistory_runPages s cur : keepsHistory clock (runPages env s cur).
Proof.
  unfold runPages.
  destruct (isPDF s && Nat.ltb 1 (totalPages s)), (originalFile s);
    try apply keepsHistory_extractPages;
    (apply keepsHistory_bind; [apply keepsHistory_extractFormFields|];
     intros rawData;
     apply keepsHistory_bind; [apply keepsHistory_dateNow|]; intros now;
     apply keepsHistory_ret).
Qed.

(** A successful run ends in the world that the end of the [try]
    block leaves, the history untouched until then. *)
Lemma extractFields_success w script d w' script' :
  exec clock (extractFields env) w script = Some (inr d, w', script') ->
  exists cur r w1 providerInfo,
    currentForm (store w) = Some cur /\
    history (store w1) = history (store w) /\
    d = finalDataOf clock r w1 /\
    w' = finished clock providerInfo (selectedProvider (store w)) cur r w1 /\
    AIProviderService.getProviderInfo env (selectedProvider (store w))
    = inr providerInfo.
Proof.
  intros H.
  destruct (currentForm (store w)) as [cur|] eqn:Hcur;
    [|rewrite exec_extractFields_unloaded in H by exact Hcur; discriminate].
  rewrite (exec_extractFields_loaded _ _ _ _ _ Hcur) in H.
  destruct (exec clock (runPages env (store w) cur) _ script)
    as [[[[e|r] w1] script1]|] eqn:E; try discriminate.
  destruct (AIProviderService.getProviderInfo env (selectedProvider (store w)))
    as [e|providerInfo] eqn:Hi; try discriminate.
  injection H as <- <- <-.
  apply keepsHistory_runPages in E.
  exists cur, r, w1, providerInfo. auto.
Qed.

Lemma history_finished providerInfo selected cur r w1 :
  history (store (finished clock providerInfo selected cur r w1))
  = historyEntryOf clock providerInfo selected cur r w1
    :: take 9 (history (store w1)).
Proof. reflexivity. Qed.

(** The history after a successful run: one entry is put at the head
    and at most the 9 entries that were most recent before it are kept,
    so that the history never has more than 10 entries and the oldest
    is the one dropped.  The entry records the name of the current
    form, the number of fields and the title of the result, the instant
    read last, and the registry's name of the provider selected in the
    store (the key itself when the registry does not know it). *)
Lemma extractFields_history w script d w' script' :
  exec clock (extractFields env) w script = Some (inr d, w', script') ->
  exists cur entry,
    currentForm (store w) = Some cur /\
    history (store w') = entry :: take 9 (history (store w)) /\
    length (history (store w')) <= 10 /\
    h_filename entry = file_name cur /\
    h_fieldsCount entry = length (fields d) /\
    h_formTitle entry = formTitle d /\
    (forall info,
       AIProviderService.providers !! selectedProvider (store w) = Some info ->
       h_provider entry = AIProviderService.name info) /\
    (AIProviderService.providers !! selectedProvider (store w) = None ->
     h_provider entry = selectedProvider (store w)) /\
    (exists n, ticks w' = S n /\ h_extractedAt entry = clock n).
Proof.
  intros H.
  destruct (extractFields_success _ _ _ _ _ H)
    as (cur & r & w1 & providerInfo & Hcur & Hh & -> & -> & Hinfo).
  exists cur,
    (historyEntryOf clock providerInfo (selectedProvider (store w)) cur r w1).
  split; [exact Hcur|].
  split; [now rewrite history_finished, Hh|].
  split; [rewrite history_finished; simpl; rewrite length_take; lia|].
  unfold AIProviderService.getProviderInfo in Hinfo.
  repeat split.
  - intros info Hi. simpl. rewrite Hi in Hinfo. injection Hinfo as <-.
    simpl. unfold js_or.
    now rewrite (providers_name_truthy _ _ Hi).
  - intros Hi. simpl. rewrite Hi in Hinfo.
    destruct (FormProcessingService.includes _ _); [discriminate|].
    now injection Hinfo as <-.
  - exists (S (S (ticks w1))). split; reflexivity.
Qed.

Lemma extractRuns_history_bounded scripts : forall w w',
  length (history (store w)) <= 10 ->
  extractRuns env clock scripts w = Some w' ->
  length (history (store w')) <= 10.
Proof.
  induction scripts as [|script scripts IH]; intros w w' Hw;
    cbn [extractRuns].
  - intros [= <-]. exact Hw.
  - destruct (exec clock (extractFields env) w script)
      as [[[[e|d] w1] script1]|] eqn:E; try discriminate.
    apply IH.
    destruct (extractFields_success _ _ _ _ _ E)
      as (cur & r & w2 & providerInfo & _ & _ & _ & -> & _).
    rewrite history_finished. simpl. rewrite length_take. lia.
Qed.

End History.

Lemma extractFields_history_witness :
  let script := pagesScript [(sampleImage, sampleRaw "Page one" ["Name"]);
                             (sampleImage, sampleRaw "Page two" ["Phone"])] in
  exists d w' entry,
    exec sampleClock (extractFields sampleEnv) samplePdfWorld script
      = Some (inr d, w', []) /\
    history (store w') = [entry] /\
    h_filename entry = "form.pdf" /\
    h_provider entry = "Gemini 2.5".
Proof.
  intros script.
  destruct (exec sampleClock (extractFields sampleEnv) samplePdfWorld script)
    as [[[[e|d] w'] rest]|] eqn:E;
    try (vm_compute in E; discriminate E).
  assert (Hrest : rest = []) by (vm_compute in E; congruence).
  subst rest.
  destruct (extractFields_history sampleEnv sampleClock samplePdfWorld script
              d w' [] E)
    as (cur & entry & Hcur & Hh & _ & Hf & _ & _ & Hp & _).
  exists d, w', entry. split; [reflexivity|]. split; [exact Hh|].
  injection Hcur as <-. split; [exact Hf|].
  exact (Hp _ eq_refl).
Defined.

(** C8: the entry that a run puts into the history names the provider
    selected in the store, not the provider that served the run.  After
    a reload the two differ: the store is rehydrated with the selection
    it persisted, here "claude", while the service starts with its
    default provider, here "gemini".  The run on the image is then
    served by Gemini, and the entry says Claude 3.5. *)
Theorem extractFields_history_names_selection :
  exists d w' entry,
    selectedProvider (store sampleReloadedWorld) = "claude" /\
    currentProvider (app sampleReloadedWorld)
    = AIProviderService.getDefaultProvider sampleEnv /\
    exec sampleClock (extractFields sampleEnv) sampleReloadedWorld
         [Parsed sampleResponse] = Some (inr d, w', []) /\
    log w' = [ServiceExtract "gemini" sampleScan] /\
    history (store w') = [entry] /\
    h_provider entry = "Claude 3.5".
Proof.
  destruct (exec sampleClock (extractFields sampleEnv) sampleReloadedWorld
              [Parsed sampleResponse]) as [[[[e|d] w'] rest]|] eqn:E;
    try (vm_compute in E; discriminate E).
  vm_compute in E. injection E as <- <- <-.
  do 3 eexists. repeat split.
Qed.

(** ** Starting a run *)

Section Turns.

Variable env : gmap string string.
Variable clock : nat -> Z.

Lemma advance_bind {A B} (p : Prog A) (f : A -> Prog B) w :
  advance clock (p ≫= f) w =
  match advance clock p w with
  | (Done (inr r), w') => advance clock (f r) w'
  | (Done (inl e), w') => (Done (inl e), w')
  | (Blocked req k, w') => (Blocked req (fun v => k v ≫= f), w')
  end.
Proof.
  revert w.
  induction p as [r|e|k IH|a k IH|k IH|k IH|req k IH]; intros w;
    simpl; try reflexivity; apply IH.
Qed.

Lemma advance_try_catch {A} (p : Prog A) h w :
  advance clock (try_catch p h) w =
  match advance clock p w with
  | (Done (inr r), w') => (Done (inr r), w')
  | (Done (inl e), w') => advance clock (h e) w'
  | (Blocked req k, w') => (Blocked req (fun v => try_catch (k v) h), w')
  end.
Proof.
  revert w.
  induction p as [r|e|k IH|a k IH|k IH|k IH|req k IH]; intros w;
    simpl; try reflexivity; apply IH.
Qed.

(** The extraction proper, started with a configured provider, issues
    its first request and waits. *)
Lemma advance_runPages s cur w :
  providerReady env w ->
  exists k w1,
    advance clock (runPages env s cur) w
      = (Blocked (firstRequest s cur (currentProvider (app w))) k, w1) /\
    log w1 = log w ++ [firstRequest s cur (currentProvider (app w))] /\
    processing (store w1) = processing (store w) /\
    error (store w1) = error (store w).
Proof.
  intros (info & Hl & Hc). unfold runPages, firstRequest.
  assert (Hsingle : exists k w1,
    advance clock
      (extractFormFields env cur ≫= fun rawData =>
       dateNow ≫= fun now =>
       mret (map (with_page 1)
               (fields (FormProcessingService.formatExtractedData
                          now rawData 1)),
             formTitle (FormProcessingService.formatExtractedData
                          now rawData 1))) w
      = (Blocked (ServiceExtract (currentProvider (app w)) cur) k, w1) /\
    log w1 = log w ++ [ServiceExtract (currentProvider (app w)) cur] /\
    processing (store w1) = processing (store w) /\
    error (store w1) = error (store w)).
  { unfold extractFormFields. rewrite !advance_bind. cbn [advance].
    rewrite Hl, Hc. simpl. do 2 eexists. split; [reflexivity|].
    repeat split. }
  destruct (isPDF s && Nat.ltb 1 (totalPages s)) eqn:Hm; [|exact Hsingle].
  destruct (originalFile s) as [pdf|]; [|exact Hsingle].
  apply andb_true_iff in Hm as [_ Hm]. apply Nat.ltb_lt in Hm.
  destruct (totalPages s) as [|n]; [lia|].
  cbn [extractPages]. rewrite !advance_bind. simpl.
  do 2 eexists. split; [reflexivity|]. repeat split.
Qed.

(** C2, amended: a call of the extraction operation on a loaded
    document, the provider being configured, is not rejected, whether
    or not the processing flag is already set: it sets the flag,
    clears the error, issues the first request of a run and waits for
    its reply. *)
Theorem extractFields_starts w cur :
  currentForm (store w) = Some cur ->
  providerReady env w ->
  exists k w1,
    advance clock (extractFields env) w
      = (Blocked (firstRequest (store w) cur (currentProvider (app w))) k,
         w1) /\
    log w1 = log w ++ [firstRequest (store w) cur (currentProvider (app w))] /\
    processing (store w1) = true /\
    error (store w1) = None.
Proof.
  intros Hcur Hready.
  destruct (advance_runPages (store w) cur
              (with_form (with_processing true (with_error None (store w))) w)
              Hready) as (k & w1 & Ha & Hl & Hp & He).
  unfold extractFields. rewrite advance_bind. cbn [advance get].
  unfold runPages, with_form, store in *.
  rewrite Hcur. rewrite advance_bind. cbn [advance set].
  rewrite advance_try_catch, advance_bind.
  cbn [app form ticks urls log currentProvider]. rewrite Ha.
  eexists. exists w1. split; [reflexivity|].
  split; [exact Hl|]. split; [exact Hp | exact He].
Qed.

End Turns.

(** C2, as stated, fails: nothing rejects a call made while a run is in
    flight.  A first call on a loaded image issues its provider request
    and waits, the processing flag set; a second call made then is not
    rejected either: it issues a second provider request and waits,
    so that two runs are in flight. *)
Lemma extractFields_reentrant_call_starts_run :
  let req := ServiceExtract "gemini" sampleScan in
  exists k1 k2 w2,
    advance sampleClock (extractFields sampleEnv) sampleScanWorld
      = (Blocked req k1, sampleRunningWorld) /\
    processing (store sampleRunningWorld) = true /\
    advance sampleClock (extractFields sampleEnv) sampleRunningWorld
      = (Blocked req k2, w2) /\
    log w2 = [req; req].
Proof.
  do 3 eexists. split; [reflexivity|]. split; [reflexivity|].
  split; reflexivity.
Qed.

Lemma sampleRunningWorld_ready : providerReady sampleEnv sampleRunningWorld.
Proof. eexists. split; reflexivity. Qed.

Lemma extractFields_starts_witness :
  processing (store sampleRunningWorld) = true /\
  exists k w1,
    advance sampleClock (extractFields sampleEnv) sampleRunningWorld
      = (Blocked (ServiceExtract "gemini" sampleScan) k, w1) /\
    log w1 = [ServiceExtract "gemini" sampleScan;
              ServiceExtract "gemini" sampleScan].
Proof.
  split; [reflexivity|].
  destruct (extractFields_starts sampleEnv sampleClock sampleRunningWorld
              sampleScan eq_refl sampleRunningWorld_ready)
    as (k & w1 & Ha & Hl & _).
  exists k, w1. split; [exact Ha | exact Hl].
Defined.

(** * More properties of the store and of the services *)

(** ** The field collection: delete, update, add *)

Lemma exec_update_fields_null clock f w script :
  extractedData (store w) = None ->
  exec clock (set_with (update_fields f)) w script =
  Some (inl (TypeError "Cannot read properties of null (reading 'fields')"),
        w, script).
Proof.
  unfold store. intros H. simpl. unfold update_fields. now rewrite H.
Qed.

Lemma exec_fields_op clock f w script data :
  extractedData (store w) = Some data ->
  exec clock (set_with (update_fields f)) w script =
  Some (inr tt, with_fieldList (f (fields data)) data w, script).
Proof. apply exec_update_fields. Qed.

Lemma with_fieldList_data fs data w :
  extractedData (store (with_fieldList fs data w)) = Some (with_fields fs data).
Proof. reflexivity. Qed.

Lemma with_fieldList_twice fs fs' data w :
  with_fieldList fs' (with_fields fs data) (with_fieldList fs data w)
  = with_fieldList fs' data w.
Proof. reflexivity. Qed.

Lemma filter_id_ne_In (fieldId : string) (fs : list Field) (f : Field) :
  In f (List.filter (fun field => negb (String.eqb (id field) fieldId)) fs)
  <-> In f fs /\ id f ≠ fieldId.
Proof.
  rewrite filter_In, negb_true_iff, String.eqb_neq. reflexivity.
Qed.

Lemma filter_sublist {A} (test : A -> bool) (l : list A) :
  sublist (List.filter test l) l.
Proof.
  induction l as [|a l IH]; simpl; [constructor|].
  destruct (test a); [now apply sublist_skip | now apply sublist_cons].
Qed.

Lemma filter_filter_same {A} (test : A -> bool) (l : list A) :
  List.filter test (List.filter test l) = List.filter test l.
Proof.
  induction l as [|a l IH]; simpl; [reflexivity|].
  destruct (test a) eqn:E; simpl; [rewrite E; f_equal|]; exact IH.
Qed.

(** X1: on a store that holds a field collection, [deleteField] removes
    every field that has the given id and only those, keeps the others
    in their order, and changes nothing else; deleting the same id a
    second time changes nothing more. *)
Theorem deleteField_removes clock fieldId w script data :
  extractedData (store w) = Some data ->
  exists kept,
    exec clock (deleteField fieldId) w script
      = Some (inr tt, with_fieldList kept data w, script) /\
    (forall f, In f kept <-> In f (fields data) /\ id f ≠ fieldId) /\
    sublist kept (fields data) /\
    exec clock (deleteField fieldId;; deleteField fieldId) w script
      = Some (inr tt, with_fieldList kept data w, script).
Proof.
  intros Hd. unfold deleteField.
  exists (List.filter (fun field => negb (String.eqb (id field) fieldId))
                      (fields data)).
  split; [now apply exec_fields_op|].
  split; [intros f; apply filter_id_ne_In|].
  split; [apply filter_sublist|].
  rewrite exec_bind, (exec_fields_op _ _ _ _ _ Hd).
  rewrite (exec_fields_op _ _ _ _ _ (with_fieldList_data _ _ _)).
  simpl fields. now rewrite filter_filter_same, with_fieldList_twice.
Qed.

Lemma deleteField_removes_witness :
  exists kept,
    exec sampleClock (deleteField "field_0_1") sampleWorld []
      = Some (inr tt, with_fieldList kept sampleData sampleWorld, []) /\
    kept = [].
Proof.
  destruct (deleteField_removes sampleClock "field_0_1" sampleWorld []
              sampleData eq_refl) as (kept & He & Hin & _).
  exists kept. split; [exact He|].
  destruct kept as [|f kept]; [reflexivity|].
  destruct (proj1 (Hin f) (or_introl eq_refl)) as [Hf Hne].
  destruct Hf as [<- | []]. now contradiction Hne.
Defined.

Lemma map_if_lookup {A} (test : A -> bool) (g : A -> A) (l : list A) i a :
  l !! i = Some a ->
  map (fun x => if test x then g x else x) l !! i
  = Some (if test a then g a else a).
Proof.
  intros H. change (map ?f l) with (f <$> l). now rewrite list_lookup_fmap, H.
Qed.

Lemma ids_map_keep (g : Field -> Field) (fs : list Field) :
  (forall f, id (g f) = id f) -> ids (map g fs) = ids fs.
Proof.
  intros H. unfold ids. rewrite map_map. apply map_ext. exact H.
Qed.

(** X2: on a store that holds a field collection, [updateField] keeps
    the number, the order and the ids of the fields; a field with
    another id is left as it is; a field with the given id gets the
    label and the value of the update where the update has them, is
    marked verified, and keeps its type, confidence, page and box. *)
Theorem updateField_known_id clock fieldId updates w script data :
  extractedData (store w) = Some data ->
  exists fs',
    exec clock (updateField fieldId updates) w script
      = Some (inr tt, with_fieldList fs' data w, script) /\
    ids fs' = ids (fields data) /\
    forall i f, fields data !! i = Some f ->
      exists f', fs' !! i = Some f' /\
        (id f ≠ fieldId -> f' = f) /\
        (id f = fieldId ->
           verified f' = true /\
           label f' = default (label f) (upd_label updates) /\
           value f' = default (value f) (upd_value updates) /\
           type f' = type f /\ confidence f' = confidence f /\
           page f' = page f /\ boundingBox f' = boundingBox f).
Proof.
  intros Hd. unfold updateField. eexists.
  split; [now apply exec_fields_op|].
  split.
  - apply ids_map_keep. intros f. now destruct (String.eqb (id f) fieldId).
  - intros i f Hi. eexists. split; [apply map_if_lookup, Hi|].
    destruct (String.eqb_spec (id f) fieldId) as [E|E]; split;
      try contradiction; try reflexivity.
    intros _. repeat split.
Qed.

Lemma updateField_known_id_witness :
  exists fs',
    exec sampleClock
         (updateField "field_0_1"
            {| upd_label := Some "Full name"; upd_value := None |})
         sampleWorld []
      = Some (inr tt, with_fieldList fs' sampleData sampleWorld, []) /\
    ids fs' = ["field_0_1"].
Proof.
  destruct (updateField_known_id sampleClock "field_0_1"
              {| upd_label := Some "Full name"; upd_value := None |}
              sampleWorld [] sampleData eq_refl) as (fs' & He & Hi & _).
  exists fs'. split; [exact He | exact Hi].
Defined.

Lemma NoDup_ids_filter (test : Field -> bool) (fs : list Field) :
  NoDup (ids fs) -> NoDup (ids (List.filter test fs)).
Proof.
  unfold ids. induction fs as [|f fs IH]; simpl; [auto|].
  intros H. apply NoDup_cons in H as [Hf H].
  destruct (test f); simpl; [|auto].
  apply NoDup_cons. split; [|auto].
  intros Hin. apply Hf. apply list_elem_of_In, in_map_iff in Hin.
  destruct Hin as (g & Hg & Hin). apply filter_In in Hin as [Hin _].
  apply list_elem_of_In, in_map_iff. eauto.
Qed.

(** X3: the ids of the collection stay pairwise distinct under
    [updateField], [toggleFieldVerification] and [deleteField]. *)
Theorem field_ids_stay_distinct clock fieldId updates w script data :
  extractedData (store w) = Some data ->
  NoDup (ids (fields data)) ->
  forall op,
    op = updateField fieldId updates \/
    op = toggleFieldVerification fieldId \/
    op = deleteField fieldId ->
    exists w' data',
      exec clock op w script = Some (inr tt, w', script) /\
      extractedData (store w') = Some data' /\
      NoDup (ids (fields data')).
Proof.
  intros Hd Hn op [-> | [-> | ->]];
    unfold updateField, toggleFieldVerification, deleteField;
    rewrite (exec_fields_op _ _ _ _ _ Hd);
    eexists; eexists; (split; [reflexivity|]); (split; [reflexivity|]);
    simpl fields.
  - rewrite ids_map_keep; [exact Hn|].
    intros f. now destruct (String.eqb (id f) fieldId).
  - rewrite ids_map_keep; [exact Hn|].
    intros f. now destruct (String.eqb (id f) fieldId).
  - now apply NoDup_ids_filter.
Qed.

Lemma field_ids_stay_distinct_witness :
  exists w' data',
    exec sampleClock (toggleFieldVerification "field_0_1") sampleWorld []
      = Some (inr tt, w', []) /\
    extractedData (store w') = Some data' /\
    NoDup (ids (fields data')).
Proof.
  apply (field_ids_stay_distinct sampleClock "field_0_1"
           {| upd_label := None; upd_value := None |} sampleWorld []
           sampleData eq_refl).
  - apply NoDup_singleton.
  - right. left. reflexivity.
Defined.

(** X4: before any extraction, when the store holds no extracted data,
    [updateField], [toggleFieldVerification], [deleteField] and
    [addField] throw a TypeError and leave the store as it is. *)
Theorem field_actions_without_data clock fieldId updates fieldData w script :
  extractedData (store w) = None ->
  forall op,
    op = updateField fieldId updates \/
    op = toggleFieldVerification fieldId \/
    op = deleteField fieldId \/
    op = addField fieldData ->
    exists e w',
      exec clock op w script = Some (inl e, w', script) /\
      err_name e = "TypeError" /\
      store w' = store w.
Proof.
  intros Hd op [-> | [-> | [-> | ->]]];
    try (unfold updateField, toggleFieldVerification, deleteField;
         rewrite (exec_update_fields_null _ _ _ _ Hd);
         eexists; eexists; repeat split).
  unfold addField. rewrite exec_bind, exec_get. cbv beta.
  rewrite exec_bind, exec_dateNow.
  rewrite exec_update_fields_null by exact Hd.
  eexists. eexists. repeat split.
Qed.

Lemma field_actions_without_data_witness :
  exists e w',
    exec sampleClock (deleteField "field_0_1") sampleScanWorld []
      = Some (inl e, w', []) /\
    err_name e = "TypeError" /\
    store w' = store sampleScanWorld.
Proof.
  apply (field_actions_without_data sampleClock "field_0_1"
           {| upd_label := None; upd_value := None |}
           {| fd_label := None; fd_value := None; fd_type := None;
              fd_page := None |} sampleScanWorld [] eq_refl).
  right. right. left. reflexivity.
Defined.

Lemma filter_id_absent (fieldId : string) (fs : list Field) :
  ~ In fieldId (ids fs) ->
  List.filter (fun field => negb (String.eqb (id field) fieldId)) fs = fs.
Proof.
  unfold ids. induction fs as [|f fs IH]; simpl; [reflexivity|].
  intros H. destruct (String.eqb_spec (id f) fieldId) as [E|E]; simpl.
  - exfalso. apply H. now left.
  - f_equal. apply IH. intros Hin. apply H. now right.
Qed.

Lemma filter_id_last (fieldId : string) (fs : list Field) (f : Field) :
  id f = fieldId -> ~ In fieldId (ids fs) ->
  List.filter (fun field => negb (String.eqb (id field) fieldId)) (fs ++ [f])
  = fs.
Proof.
  intros Hf Hfs. rewrite List.filter_app, filter_id_absent by exact Hfs. simpl.
  rewrite <- Hf, String.eqb_refl. simpl. apply app_nil_r.
Qed.

(** X5: a field that [addField] appended under an id that no other
    field of the collection has is removed again by [deleteField] of
    that id, which gives the collection back as it was. *)
Theorem addField_deleteField clock fieldData w script w1 data data1 added :
  extractedData (store w) = Some data ->
  exec clock (addField fieldData) w script = Some (inr tt, w1, script) ->
  extractedData (store w1) = Some data1 ->
  last (fields data1) = Some added ->
  ~ In (id added) (ids (fields data)) ->
  exists w2,
    exec clock (deleteField (id added)) w1 script = Some (inr tt, w2, script) /\
    extractedData (store w2) = Some data.
Proof.
  intros Hd Hadd Hd1 Hlast Hfresh.
  unfold addField in Hadd. rewrite exec_bind, exec_get in Hadd.
  cbv beta in Hadd. rewrite exec_bind, exec_dateNow in Hadd.
  rewrite (exec_fields_op _ _ (tick w) _ _ Hd) in Hadd.
  injection Hadd as <-.
  rewrite with_fieldList_data in Hd1. injection Hd1 as <-.
  simpl in Hlast. rewrite last_snoc in Hlast. injection Hlast as <-.
  unfold deleteField.
  rewrite (exec_fields_op _ _ _ _ _ (with_fieldList_data _ _ _)).
  eexists. split; [reflexivity|].
  rewrite with_fieldList_data. simpl fields.
  rewrite filter_id_last by (reflexivity || exact Hfresh).
  now destruct data.
Qed.

Lemma addField_deleteField_witness :
  exists w1 added w2,
    exec sampleClock
         (addField {| fd_label := Some "Email"; fd_value := None;
                      fd_type := None; fd_page := Some 2 |})
         sampleWorld [] = Some (inr tt, w1, []) /\
    exec sampleClock (deleteField (id added)) w1 [] = Some (inr tt, w2, []) /\
    extractedData (store w2) = Some sampleData.
Proof.
  destruct (exec sampleClock
              (addField {| fd_label := Some "Email"; fd_value := None;
                           fd_type := None; fd_page := Some 2 |})
              sampleWorld []) as [[[[e|[]] w1] rest]|] eqn:E;
    try (vm_compute in E; discriminate E).
  assert (Hrest : rest = []) by (vm_compute in E; congruence). subst rest.
  destruct (extractedData (store w1)) as [data1|] eqn:Hd1;
    [|vm_compute in E; injection E as <-; discriminate Hd1].
  destruct (last (fields data1)) as [added|] eqn:Hl;
    [|vm_compute in E; injection E as <-; injection Hd1 as <-;
      discriminate Hl].
  assert (Hfresh : ~ In (id added) (ids (fields sampleData))).
  { vm_compute in E. injection E as <-. injection Hd1 as <-.
    injection Hl as <-. intros [H | []]. discriminate H. }
  destruct (addField_deleteField sampleClock _ sampleWorld [] w1 sampleData
              data1 added eq_refl E Hd1 Hl Hfresh) as (w2 & He & Hd2).
  exists w1, added, w2. auto.
Defined.

(** ** The ids that the extraction gives *)

Lemma string_of_uint_no_underscore (d : Decimal.uint) :
  countChar "_"%char (NilEmpty.string_of_uint d) = 0.
Proof. induction d; simpl; auto. Qed.

Lemma nat_to_string_no_underscore (n : nat) :
  countChar "_"%char (nat_to_string n) = 0.
Proof.
  unfold nat_to_string, NilZero.string_of_uint.
  destruct (Nat.to_uint n); try apply string_of_uint_no_underscore.
  reflexivity.
Qed.

Lemma to_uint_nonnil (n : nat) : Nat.to_uint n ≠ Decimal.Nil.
Proof.
  rewrite <- (DecimalNat.Unsigned.of_to n) at 1.
  rewrite DecimalNat.Unsigned.to_of. apply DecimalFacts.unorm_nonnil.
Qed.

Lemma nat_to_string_inj (n m : nat) :
  nat_to_string n = nat_to_string m -> n = m.
Proof.
  unfold nat_to_string. intros H.
  apply DecimalNat.Unsigned.to_uint_inj.
  pose proof (NilZero.usu _ (to_uint_nonnil n)) as Hn.
  pose proof (NilZero.usu _ (to_uint_nonnil m)) as Hm.
  rewrite H in Hn. congruence.
Qed.

(** Two strings cut at their first underscore agree part by part. *)
Lemma append_underscore_inj (s1 : string) : forall s2 t1 t2,
  countChar "_"%char s1 = 0 -> countChar "_"%char s2 = 0 ->
  s1 +:+ "_" +:+ t1 = s2 +:+ "_" +:+ t2 -> s1 = s2 /\ t1 = t2.
Proof.
  induction s1 as [|a s1 IH]; intros [|b s2] t1 t2 H1 H2 H;
    cbv [String.append] in H; fold String.append in H; simpl in H1, H2.
  - injection H as ->. auto.
  - injection H as <- _. rewrite Ascii.eqb_refl in H2. discriminate H2.
  - injection H as -> _. rewrite Ascii.eqb_refl in H1. discriminate H1.
  - injection H as -> H.
    destruct (Ascii.eqb b "_"%char); [discriminate H1|].
    destruct (IH s2 t1 t2 H1 H2 H) as [-> ->]. auto.
Qed.

Lemma formattedId_inj i p i' p' :
  formattedId i p = formattedId i' p' -> i = i' /\ p = p'.
Proof.
  unfold formattedId. intros H.
  cbv [String.append] in H; fold String.append in H.
  injection H as H.
  apply append_underscore_inj in H as [Hi Hp];
    try apply nat_to_string_no_underscore.
  split; now apply nat_to_string_inj.
Qed.

Lemma ids_pageFields_now now pageNum rawData :
  ids (map (with_page pageNum)
         (fields (FormProcessingService.formatExtractedData now rawData
                    pageNum)))
  = (fun i => formattedId i pageNum) <$> seq 0 (rawCount rawData).
Proof.
  unfold ids, rawCount. rewrite map_map.
  destruct rawData as [[[fs|] t sm]|]; simpl; try reflexivity.
  change (map ?f ?l) with (f <$> l). rewrite fmap_imap.
  rewrite <- imap_seq_0. apply imap_ext. reflexivity.
Qed.

Lemma fromPage_pageFields_now now pageNum rawData :
  Forall (fromPage pageNum)
    (map (with_page pageNum)
       (fields (FormProcessingService.formatExtractedData now rawData
                  pageNum))).
Proof.
  apply Forall_forall. intros f Hf.
  apply list_elem_of_In, in_map_iff in Hf. destruct Hf as (g & <- & Hg).
  destruct rawData as [[[fs|] t sm]|]; simpl in Hg; try contradiction.
  apply list_elem_of_In, elem_of_lookup_imap in Hg.
  destruct Hg as (i & x & -> & _).
  unfold fromPage. simpl. repeat split.
  - destruct (raw_boundingBox x); discriminate.
  - exists i. reflexivity.
Qed.

Lemma NoDup_formattedIds pageNum n :
  NoDup ((fun i => formattedId i pageNum) <$> seq 0 n).
Proof.
  apply NoDup_fmap_2_strong; [|apply NoDup_seq].
  intros i j _ _ H. now apply formattedId_inj in H.
Qed.

(** Appending the fields of page [pageNum] to fields of earlier pages
    gives fields of the pages before the next one. *)
Lemma fromPagesBefore_snoc now pageNum rawData fs :
  1 <= pageNum ->
  fromPagesBefore pageNum fs ->
  fromPagesBefore (S pageNum)
    (fs ++ map (with_page pageNum)
             (fields (FormProcessingService.formatExtractedData now rawData
                        pageNum))).
Proof.
  intros Hp [Hn Hf]. split.
  - unfold ids in *. rewrite map_app. apply NoDup_app. split; [exact Hn|].
    split; [|fold (ids (map (with_page pageNum)
                         (fields (FormProcessingService.formatExtractedData
                                    now rawData pageNum))));
             rewrite ids_pageFields_now; apply NoDup_formattedIds].
    intros x Hx Hx'.
    apply list_elem_of_In, in_map_iff in Hx. destruct Hx as (f & <- & Hin).
    rewrite Forall_forall in Hf.
    destruct (Hf f (proj2 (list_elem_of_In _ _) Hin))
      as (p & Hr & _ & _ & _ & i & Hid).
    apply list_elem_of_In, in_map_iff in Hx'. destruct Hx' as (g & Hg & Hgin).
    pose proof (fromPage_pageFields_now now pageNum rawData) as Hnew.
    rewrite Forall_forall in Hnew.
    destruct (Hnew g (proj2 (list_elem_of_In _ _) Hgin))
      as (_ & _ & _ & j & Hjd).
    rewrite Hid, Hjd in Hg. apply formattedId_inj in Hg. lia.
  - apply Forall_app. split.
    + eapply Forall_impl; [exact Hf|]. intros f (p & Hr & H).
      exists p. split; [lia | exact H].
    + eapply Forall_impl; [apply fromPage_pageFields_now|].
      intros f H. exists pageNum. split; [lia | exact H].
Qed.

(** ** What a run returns, whatever the replies *)

Section Returns.

Variable env : gmap string string.
Variable clock : nat -> Z.

Lemma returns_ret {A} (Q : A -> Prop) a : Q a -> returns clock Q (mret a).
Proof. intros H w script a' w' script' [= <- _ _]. exact H. Qed.

Lemma returns_bind {A B} (Q : B -> Prop) (p : Prog A) (f : A -> Prog B) :
  (forall a, returns clock Q (f a)) -> returns clock Q (p ≫= f).
Proof.
  intros Hf w script b w' script'. rewrite exec_bind.
  destruct (exec clock p w script) as [[[[e|a] w1] script1]|];
    try discriminate.
  apply Hf.
Qed.

Lemma returns_extractPages pdf remaining : forall pageNum allFields title,
  1 <= pageNum ->
  fromPagesBefore pageNum allFields ->
  returns clock (fun r => fromPagesBefore (pageNum + remaining) r.1)
          (extractPages env pdf remaining pageNum allFields title).
Proof.
  induction remaining as [|remaining IH]; intros pageNum allFields title Hp Hi.
  - apply returns_ret. now rewrite Nat.add_0_r.
  - cbn [extractPages].
    apply returns_bind; intros _.
    apply returns_bind; intros imageBlob.
    apply returns_bind; intros rawData.
    apply returns_bind; intros now.
    apply returns_bind; intros now'.
    apply returns_bind; intros _.
    rewrite Nat.add_succ_r. apply (IH (S pageNum)); [lia|].
    now apply fromPagesBefore_snoc.
Qed.

Lemma returns_runPages s cur :
  returns clock (fun r => fromPagesBefore (S (Nat.max 1 (totalPages s))) r.1)
          (runPages env s cur).
Proof.
  assert (Hsingle : returns clock
            (fun r => fromPagesBefore (S (Nat.max 1 (totalPages s))) r.1)
            (extractFormFields env cur ≫= fun rawData =>
             dateNow ≫= fun now =>
             mret (map (with_page 1)
                     (fields (FormProcessingService.formatExtractedData
                                now rawData 1)),
                   formTitle (FormProcessingService.formatExtractedData
                                now rawData 1)))).
  { apply returns_bind; intros rawData. apply returns_bind; intros now.
    apply returns_ret. cbn [fst].
    destruct (fromPagesBefore_snoc now 1 rawData [] (le_n 1)) as [Hn Hf].
    { split; [constructor | constructor]. }
    split; [exact Hn|]. eapply Forall_impl; [exact Hf|].
    intros f (p & Hr & H). exists p. split; [lia | exact H]. }
  unfold runPages.
  destruct (isPDF s && Nat.ltb 1 (totalPages s)) eqn:Hm; [|exact Hsingle].
  destruct (originalFile s) as [pdf|]; [|exact Hsingle].
  apply andb_true_iff in Hm as [_ Hm]. apply Nat.ltb_lt in Hm.
  intros w script r w' script' H.
  apply (returns_extractPages pdf (totalPages s) 1 [] (Some "")) in H;
    [|lia|split; constructor].
  replace (S (Nat.max 1 (totalPages s))) with (1 + totalPages s) by lia.
  exact H.
Qed.

(** The result of a successful run and the world it leaves. *)
Lemma extractFields_result w script d w' script' :
  exec clock (extractFields env) w script = Some (inr d, w', script') ->
  extractedData (store w') = Some d /\
  fromPagesBefore (S (Nat.max 1 (totalPages (store w)))) (fields d).
Proof.
  intros H.
  destruct (currentForm (store w)) as [cur|] eqn:Hcur;
    [|rewrite exec_extractFields_unloaded in H by exact Hcur; discriminate].
  rewrite (exec_extractFields_loaded _ _ _ _ _ Hcur) in H.
  destruct (exec clock (runPages env (store w) cur) _ script)
    as [[[[e|r] w1] script1]|] eqn:E; try discriminate.
  destruct (AIProviderService.getProviderInfo env (selectedProvider (store w)))
    as [e|providerInfo]; try discriminate.
  injection H as <- <- <-. split; [reflexivity|].
  apply returns_runPages in E. exact E.
Qed.

(** X6: whatever the replies, the fields that a successful run returns
    and stores have pairwise distinct ids. *)
Theorem extractFields_ids_distinct w script d w' script' :
  exec clock (extractFields env) w script = Some (inr d, w', script') ->
  extractedData (store w') = Some d /\ NoDup (ids (fields d)).
Proof.
  intros H. destruct (extractFields_result _ _ _ _ _ H) as [Hd [Hn _]].
  auto.
Qed.

(** X7: whatever the replies, every field that a successful run
    returns is unverified, has a box slot (a box or null), and carries a
    page number between 1 and the number of pages of the document (1
    when the store says less). *)
Theorem extractFields_fields_fresh w script d w' script' :
  exec clock (extractFields env) w script = Some (inr d, w', script') ->
  Forall (fun f => verified f = false /\ boundingBox f ≠ BoxAbsent /\
                   exists p, page f = Some p /\
                             1 <= p <= Nat.max 1 (totalPages (store w)))
         (fields d).
Proof.
  intros H. destruct (extractFields_result _ _ _ _ _ H) as [_ [_ Hf]].
  eapply Forall_impl; [exact Hf|].
  intros f (p & Hr & Hv & Hb & Hp & _). repeat split; auto.
  exists p. split; [exact Hp | lia].
Qed.

End Returns.

Lemma sampleRun_returns :
  exists d w',
    exec sampleClock (extractFields sampleEnv) samplePdfWorld
         (pagesScript [(sampleImage, sampleRaw "Page one" ["Name"; "Email"]);
                       (sampleImage, sampleRaw "Page two" ["Phone"])])
      = Some (inr d, w', []).
Proof.
  destruct (exec sampleClock (extractFields sampleEnv) samplePdfWorld _)
    as [[[[e|d] w'] rest]|] eqn:E; try (vm_compute in E; discriminate E).
  assert (Hrest : rest = []) by (vm_compute in E; congruence). subst rest.
  eauto.
Qed.

Lemma extractFields_ids_distinct_witness :
  exists d w',
    exec sampleClock (extractFields sampleEnv) samplePdfWorld
         (pagesScript [(sampleImage, sampleRaw "Page one" ["Name"; "Email"]);
                       (sampleImage, sampleRaw "Page two" ["Phone"])])
      = Some (inr d, w', []) /\
    NoDup (ids (fields d)).
Proof.
  destruct sampleRun_returns as (d & w' & E).
  exists d, w'. split; [exact E|].
  exact (proj2 (extractFields_ids_distinct sampleEnv sampleClock _ _ _ _ _ E)).
Defined.

Lemma extractFields_fields_fresh_witness :
  exists d w',
    exec sampleClock (extractFields sampleEnv) samplePdfWorld
         (pagesScript [(sampleImage, sampleRaw "Page one" ["Name"; "Email"]);
                       (sampleImage, sampleRaw "Page two" ["Phone"])])
      = Some (inr d, w', []) /\
    Forall (fun f => verified f = false) (fields d).
Proof.
  destruct sampleRun_returns as (d & w' & E).
  exists d, w'. split; [exact E|].
  eapply Forall_impl;
    [exact (extractFields_fields_fresh sampleEnv sampleClock _ _ _ _ _ E)|].
  intros f H. exact (proj1 H).
Defined.

(** ** getStats *)

Lemma js_or_zero (n : nat) : Some n ?| 0%nat = n.
Proof. unfold js_or, truthy, truthy_nat. now destruct n. Qed.

Lemma filter_length_le {A} (test : A -> bool) (l : list A) :
  length (List.filter test l) <= length l.
Proof.
  induction l as [|a l IH]; simpl; [lia|]. destruct (test a); simpl; lia.
Qed.

Lemma exec_getStats clock w script :
  exec clock getStats w script =
  Some (inr {| currentFieldsCount :=
                 match extractedData (store w) with
                 | Some d => length (fields d) | None => 0 end;
               verifiedFieldsCount :=
                 match extractedData (store w) with
                 | Some d => length (List.filter verified (fields d))
                 | None => 0 end;
               totalProcessed := length (history (store w));
               hasCurrentForm :=
                 match extractedData (store w) with
                 | Some _ => true | None => false end |}, w, script).
Proof.
  unfold getStats. rewrite exec_bind, exec_get. cbv beta. simpl exec.
  destruct (extractedData (store w)) as [d|]; simpl; [|reflexivity].
  unfold truthy, truthy_nat.
  now destruct (length (fields d)), (length (List.filter verified (fields d))).
Qed.

(** X8: [getStats] changes nothing and reports the number of fields of
    the collection, the number of those that are verified, which is
    never more, and the length of the history; it reports a current form
    exactly when the store holds extracted data, and zero fields when it
    holds none. *)
Theorem getStats_counts clock w script :
  exists st,
    exec clock getStats w script = Some (inr st, w, script) /\
    verifiedFieldsCount st <= currentFieldsCount st /\
    totalProcessed st = length (history (store w)) /\
    (hasCurrentForm st = true <-> extractedData (store w) ≠ None) /\
    (forall d, extractedData (store w) = Some d ->
       currentFieldsCount st = length (fields d) /\
       verifiedFieldsCount st = length (List.filter verified (fields d))) /\
    (extractedData (store w) = None ->
       currentFieldsCount st = 0%nat /\ verifiedFieldsCount st = 0%nat).
Proof.
  eexists. split; [apply exec_getStats|]. simpl.
  destruct (extractedData (store w)) as [d|].
  - split; [apply filter_length_le|]. split; [reflexivity|].
    split; [split; [discriminate | reflexivity]|].
    split; [intros d' [= <-]; auto | discriminate].
  - split; [lia|]. split; [reflexivity|].
    split; [split; [discriminate | congruence]|].
    split; [discriminate | auto].
Qed.

Lemma filter_none {A} (test : A -> bool) (l : list A) :
  Forall (fun a => test a = false) l -> List.filter test l = [].
Proof.
  induction 1 as [|a l Ha _ IH]; simpl; [reflexivity|]. now rewrite Ha.
Qed.

(** X9: right after a successful run, [getStats] reports as many fields
    as the run returned, none of them verified, a current form, and a
    history of at least one and at most ten runs. *)
Theorem getStats_after_run env clock w script d w' script' :
  exec clock (extractFields env) w script = Some (inr d, w', script') ->
  exists st,
    exec clock getStats w' script' = Some (inr st, w', script') /\
    currentFieldsCount st = length (fields d) /\
    verifiedFieldsCount st = 0%nat /\
    hasCurrentForm st = true /\
    1 <= totalProcessed st <= 10.
Proof.
  intros H. eexists. split; [apply exec_getStats|].
  destruct (extractFields_result _ _ _ _ _ _ _ H) as [Hd [_ Hf]].
  destruct (extractFields_success _ _ _ _ _ _ _ H)
    as (cur & r & w1 & providerInfo & _ & _ & _ & Hw & _).
  simpl. rewrite Hd. split; [reflexivity|].
  split.
  - rewrite filter_none; [reflexivity|].
    eapply Forall_impl; [exact Hf|]. intros f (p & _ & Hv & _). exact Hv.
  - split; [reflexivity|]. rewrite Hw, history_finished. simpl.
    rewrite length_take. lia.
Qed.

Lemma getStats_after_run_witness :
  exists d w' st,
    exec sampleClock (extractFields sampleEnv) samplePdfWorld
         (pagesScript [(sampleImage, sampleRaw "Page one" ["Name"; "Email"]);
                       (sampleImage, sampleRaw "Page two" ["Phone"])])
      = Some (inr d, w', []) /\
    exec sampleClock getStats w' [] = Some (inr st, w', []) /\
    verifiedFieldsCount st = 0%nat.
Proof.
  destruct sampleRun_returns as (d & w' & E).
  destruct (getStats_after_run sampleEnv sampleClock _ _ _ _ _ E)
    as (st & Hs & _ & Hv & _).
  exists d, w', st. auto.
Defined.

(** ** What a run leaves alone, whatever the replies *)

Section Keeps.

Variable env : gmap string string.
Variable clock : nat -> Z.
Context {B : Type} (proj : App -> B).
Hypothesis proj_blind : blindToProgress proj.

Lemma keeps_ret {A} (a : A) : keeps clock proj (mret a).
Proof. intros w script o w' script' [= _ <- _]. reflexivity. Qed.

Lemma keeps_throw {A} e : keeps clock proj (@Throw A e).
Proof. intros w script o w' script' [= _ <- _]. reflexivity. Qed.

Lemma keeps_bind {A C} (p : Prog A) (f : A -> Prog C) :
  keeps clock proj p -> (forall a, keeps clock proj (f a)) ->
  keeps clock proj (p ≫= f).
Proof.
  intros Hp Hf w script o w' script'. rewrite exec_bind.
  destruct (exec clock p w script) as [[[[e|a] w1] script1]|] eqn:E;
    [|intros H|discriminate].
  - intros [= _ <- _]. exact (Hp _ _ _ _ _ E).
  - rewrite (Hf _ _ _ _ _ _ H). exact (Hp _ _ _ _ _ E).
Qed.

Lemma keeps_try_catch {A} (p : Prog A) h :
  keeps clock proj p -> (forall e, keeps clock proj (h e)) ->
  keeps clock proj (try_catch p h).
Proof.
  intros Hp Hh w script o w' script'. rewrite exec_try_catch.
  destruct (exec clock p w script) as [[[[e|a] w1] script1]|] eqn:E;
    [intros H| |discriminate].
  - rewrite (Hh _ _ _ _ _ _ H). exact (Hp _ _ _ _ _ E).
  - intros [= _ <- _]. exact (Hp _ _ _ _ _ E).
Qed.

Lemma keeps_dateNow : keeps clock proj dateNow.
Proof. intros w script o w' script' [= _ <- _]. reflexivity. Qed.

Lemma keeps_await req : keeps clock proj (await req).
Proof.
  intros w [|r script] o w' script'; simpl; [discriminate|].
  destruct (answer req r) as [[e|v]|]; [| |discriminate];
    intros [= _ <- _]; reflexivity.
Qed.

Lemma keeps_set_processingPage v :
  keeps clock proj (set (with_processingPage v)).
Proof.
  intros w script o w' script'. rewrite exec_set. intros [= _ <- _].
  destruct w as [[s cp] t u l]. simpl.
  rewrite <- (proj_blind {| form := s; currentProvider := cp |}
                (extractedData s) v).
  f_equal.
Qed.

Lemma keeps_set_extractedData (v : Store -> option ExtractedData) :
  keeps clock proj (set (fun state => with_extractedData (v state) state)).
Proof.
  intros w script o w' script'. rewrite exec_set. intros [= _ <- _].
  destruct w as [[s cp] t u l]. simpl.
  rewrite <- (proj_blind {| form := s; currentProvider := cp |}
                (v s) (processingPage s)).
  f_equal.
Qed.

Lemma keeps_extractFormFields imageFile :
  keeps clock proj (extractFormFields env imageFile).
Proof.
  unfold extractFormFields. apply keeps_bind.
  - intros w script o w' script' [= _ <- _]. reflexivity.
  - intros a. destruct (AIProviderService.providers !! currentProvider a);
      [|destruct (FormProcessingService.includes _ _); apply keeps_throw].
    destruct (negb _); [apply keeps_throw|].
    apply keeps_try_catch;
      [apply (keeps_await (ServiceExtract (currentProvider a) imageFile))
      | intros e; apply keeps_throw].
Qed.

Lemma keeps_extractPages pdf remaining :
  forall pageNum allFields title,
    keeps clock proj (extractPages env pdf remaining pageNum allFields title).
Proof.
  induction remaining as [|remaining IH]; intros pageNum allFields title.
  - apply keeps_ret.
  - cbn [extractPages].
    apply keeps_bind; [apply keeps_set_processingPage|]; intros _.
    apply keeps_bind; [apply (keeps_await (PDFPageToImage pdf pageNum))|];
      intros imageBlob.
    apply keeps_bind; [apply keeps_extractFormFields|]; intros rawData.
    apply keeps_bind; [apply keeps_dateNow|]; intros now.
    apply keeps_bind; [apply keeps_dateNow|]; intros now'.
    apply keeps_bind; [|intros _; apply IH].
    apply (keeps_set_extractedData (fun state => Some _)).
Qed.

Lemma keeps_runPages s cur : keeps clock proj (runPages env s cur).
Proof.
  unfold runPages.
  destruct (isPDF s && Nat.ltb 1 (totalPages s)), (originalFile s);
    try apply keeps_extractPages;
    (apply keeps_bind; [apply keeps_extractFormFields|];
     intros rawData;
     apply keeps_bind; [apply keeps_dateNow|]; intros now;
     apply keeps_ret).
Qed.

End Keeps.

Lemma session_blind : blindToProgress session.
Proof. intros a ed pp. reflexivity. Qed.

Lemma runFlags_blind : blindToProgress runFlags.
Proof. intros a ed pp. reflexivity. Qed.

(** X10: whatever the replies, a run that ends, with a result or with
    an error, leaves the document session as it found it: the current
    form, the original file, the preview, the page count, the current
    page and the selection of the provider. *)
Theorem extractFields_keeps_session env clock w script o w' script' :
  exec clock (extractFields env) w script = Some (o, w', script') ->
  session (app w') = session (app w).
Proof.
  intros H.
  destruct (currentForm (store w)) as [cur|] eqn:Hcur;
    [|rewrite exec_extractFields_unloaded in H by exact Hcur;
      now injection H as _ <- _].
  rewrite (exec_extractFields_loaded _ _ _ _ _ Hcur) in H.
  destruct (exec clock (runPages env (store w) cur) _ script)
    as [[[[e|r] w1] script1]|] eqn:E; try discriminate;
    apply (keeps_runPages env clock session session_blind) in E;
    [|destruct (AIProviderService.getProviderInfo env
                  (selectedProvider (store w))) as [e|providerInfo]];
    injection H as _ <- _;
    (transitivity (session (app w1)); [reflexivity | exact E]).
Qed.

(** X11: whatever the replies, a run on a loaded document that ends
    leaves processing false and the progress marker reset; when it ends
    with an error, the store's error is the error's message and the
    history is what it was; when it ends with a result, the store's
    error is null and its extracted data is the result. *)
Theorem extractFields_settles env clock w script o w' script' :
  exec clock (extractFields env) w script = Some (o, w', script') ->
  currentForm (store w) ≠ None ->
  processing (store w') = false /\
  processingPage (store w') = None /\
  match o with
  | inl e => error (store w') = Some (message e) /\
             history (store w') = history (store w)
  | inr d => error (store w') = None /\ extractedData (store w') = Some d
  end.
Proof.
  intros H Hloaded.
  destruct (currentForm (store w)) as [cur|] eqn:Hcur; [|congruence].
  rewrite (exec_extractFields_loaded _ _ _ _ _ Hcur) in H.
  destruct (exec clock (runPages env (store w) cur) _ script)
    as [[[[e|r] w1] script1]|] eqn:E; try discriminate;
    apply (keeps_runPages env clock runFlags runFlags_blind) in E;
    injection E as _ He Hh.
  - injection H as <- <- _. repeat split. exact Hh.
  - destruct (AIProviderService.getProviderInfo env
                (selectedProvider (store w))) as [e|providerInfo];
      injection H as <- <- _.
    + repeat split. exact Hh.
    + repeat split. exact He.
Qed.

Lemma extractFields_settles_witness :
  exists w',
    exec sampleClock (extractFields sampleEnv) samplePdfWorld
         [Image sampleImage; Rejected (Error "Request failed")]
      = Some (inl (Error "Request failed"), w', []) /\
    processing (store w') = false /\ processingPage (store w') = None.
Proof.
  destruct (exec sampleClock (extractFields sampleEnv) samplePdfWorld
              [Image sampleImage; Rejected (Error "Request failed")])
    as [[[o w'] rest]|] eqn:E; [|vm_compute in E; discriminate E].
  assert (Ho : o = inl (Error "Request failed") /\ rest = [])
    by (vm_compute in E; injection E as <- _ <-; split; reflexivity).
  destruct Ho as [-> ->].
  destruct (extractFields_settles sampleEnv sampleClock _ _ _ _ _ E
              ltac:(discriminate)) as (Hp & Hpp & _).
  exists w'. auto.
Defined.

Lemma extractFields_keeps_session_witness :
  exists w',
    exec sampleClock (extractFields sampleEnv) samplePdfWorld
         [Image sampleImage; Rejected (Error "Request failed")]
      = Some (inl (Error "Request failed"), w', []) /\
    session (app w') = session (app samplePdfWorld).
Proof.
  destruct (exec sampleClock (extractFields sampleEnv) samplePdfWorld
              [Image sampleImage; Rejected (Error "Request failed")])
    as [[[o w'] rest]|] eqn:E; [|vm_compute in E; discriminate E].
  assert (Ho : o = inl (Error "Request failed") /\ rest = [])
    by (vm_compute in E; injection E as <- _ <-; split; reflexivity).
  destruct Ho as [-> ->].
  exists w'. split; [reflexivity|].
  exact (extractFields_keeps_session sampleEnv sampleClock _ _ _ _ _ E).
Defined.

(** ** Runs on a single page, and runs without credentials *)

Section SinglePage.

Variable env : gmap string string.
Variable clock : nat -> Z.

Lemma runPages_single s cur :
  singlePage s ->
  runPages env s cur =
  (extractFormFields env cur ≫= fun rawData =>
   dateNow ≫= fun now =>
   mret (map (with_page 1)
           (fields (FormProcessingService.formatExtractedData now rawData 1)),
         formTitle (FormProcessingService.formatExtractedData now rawData 1))).
Proof.
  unfold runPages, singlePage. intros [H | [H | H]].
  - now rewrite H.
  - apply Nat.ltb_ge in H. rewrite H, andb_false_r. reflexivity.
  - rewrite H. now destruct (isPDF s && Nat.ltb 1 (totalPages s)).
Qed.

(** X12: a run on an image, or on a document of one page, with a
    configured provider, the selected provider not being a property
    name inherited from [Object.prototype], sends the current form
    itself to the provider in one request and returns the fields of the
    response, all tagged with page 1, as many as the response has,
    under the title of the formatted response. *)
Theorem extractFields_single_page w cur rawData script :
  currentForm (store w) = Some cur ->
  singlePage (store w) ->
  providerReady env w ->
  ~ In (selectedProvider (store w)) inheritedKeys ->
  exists d w',
    exec clock (extractFields env) w (Parsed rawData :: script)
      = Some (inr d, w', script) /\
    fields d = pageFields 1 rawData /\
    Forall (fun f => page f = Some 1%nat) (fields d) /\
    length (fields d) = rawCount rawData /\
    formTitle d = reportedTitle rawData /\
    log w' = log w ++ [ServiceExtract (currentProvider (app w)) cur].
Proof.
  intros Hcur Hs Hready Hsel.
  rewrite (exec_extractFields_loaded _ _ _ _ _ Hcur).
  rewrite (runPages_single _ _ Hs).
  rewrite exec_bind, exec_extractFormFields_parsed by exact Hready.
  rewrite exec_bind, exec_dateNow. cbn [exec mret prog_ret].
  destruct (getProviderInfo_returns env _ Hsel) as (providerInfo & ->).
  eexists. eexists. split; [reflexivity|]. cbn [finalDataOf fields formTitle].
  cbn [fst snd].
  rewrite (FormatSpec.fields_formatExtractedData _ 0).
  rewrite (FormatSpec.formTitle_formatExtractedData _ 0 _ 1 1).
  split; [reflexivity|]. split; [apply page_pageFields|].
  split; [apply length_pageFields|]. split; reflexivity.
Qed.

(** X13: a run on a single page while the active provider has no
    credentials ends with an error that names the provider, without any
    request: the error's message is stored, processing is false, the
    log of requests and the history are what they were. *)
Theorem extractFields_not_configured w cur info script :
  currentForm (store w) = Some cur ->
  singlePage (store w) ->
  AIProviderService.providers !! currentProvider (app w) = Some info ->
  AIProviderService.isConfigured env info = false ->
  exists msg w',
    exec clock (extractFields env) w script
      = Some (inl (Error msg), w', script) /\
    msg = AIProviderService.name info +:+
          " is not configured. Please add the API key to your .env file. " +:+
          "Alternatively, try another provider from the dropdown." /\
    log w' = log w /\
    error (store w') = Some msg /\
    processing (store w') = false /\
    history (store w') = history (store w).
Proof.
  intros Hcur Hs Hl Hc.
  rewrite (exec_extractFields_loaded _ _ _ _ _ Hcur).
  rewrite (runPages_single _ _ Hs).
  rewrite exec_bind. unfold extractFormFields at 1.
  rewrite exec_bind. cbn [exec]. cbn [with_form app currentProvider].
  rewrite Hl, Hc. cbn [negb exec].
  eexists. eexists. split; [reflexivity|]. repeat split.
Qed.

End SinglePage.

Lemma sampleScanWorld_ready : providerReady sampleEnv sampleScanWorld.
Proof. eexists. split; reflexivity. Qed.

Lemma extractFields_single_page_witness :
  exists d w',
    exec sampleClock (extractFields sampleEnv) sampleScanWorld
         [Parsed sampleResponse] = Some (inr d, w', []) /\
    fields d = pageFields 1 sampleResponse /\
    log w' = [ServiceExtract "gemini" sampleScan].
Proof.
  destruct (extractFields_single_page sampleEnv sampleClock sampleScanWorld
              sampleScan sampleResponse [] eq_refl
              (or_introl eq_refl) sampleScanWorld_ready
              ltac:(not_inherited))
    as (d & w' & He & Hf & _ & _ & _ & Hl).
  exists d, w'. auto.
Defined.

Lemma extractFields_not_configured_witness :
  exists msg w',
    exec sampleClock (extractFields emptyEnv) sampleScanWorld []
      = Some (inl (Error msg), w', []) /\
    log w' = [] /\
    error (store w') = Some msg.
Proof.
  destruct (extractFields_not_configured emptyEnv sampleClock
              sampleScanWorld sampleScan _ [] eq_refl (or_introl eq_refl)
              eq_refl eq_refl)
    as (msg & w' & He & _ & Hl & Herr & _).
  exists msg, w'. auto.
Defined.

(** ** Uploads *)

(** X14: the upload of a valid image opens a session of one page on the
    file itself, without any request: the extracted data of the session
    before are dropped, the preview is a fresh object URL, the history
    is kept. *)
Theorem uploadForm_image_session clock w f script :
  FormProcessingService.validateImageFile (Some f)
    = FormProcessingService.valid ->
  FormProcessingService.isPDF f = false ->
  exists w',
    exec clock (uploadForm (Some f)) w script = Some (inr tt, w', script) /\
    currentForm (store w') = Some f /\
    originalFile (store w') = None /\
    isPDF (store w') = false /\
    totalPages (store w') = 1%nat /\
    currentPage (store w') = 1%nat /\
    extractedData (store w') = None /\
    imagePreview (store w') = Some ("blob:" +:+ nat_to_string (urls w)) /\
    urls w' = S (urls w) /\
    processing (store w') = false /\
    error (store w') = None /\
    history (store w') = history (store w) /\
    log w' = log w.
Proof.
  intros Hv Hp. unfold uploadForm.
  rewrite exec_bind, exec_set, exec_try_catch, Hv, Hp.
  eexists. split; [reflexivity|]. repeat split.
Qed.

Lemma uploadForm_image_session_witness :
  exists w',
    exec sampleClock (uploadForm (Some sampleScan)) sampleWorld []
      = Some (inr tt, w', []) /\
    extractedData (store w') = None /\
    totalPages (store w') = 1%nat.
Proof.
  destruct (uploadForm_image_session sampleClock sampleWorld sampleScan []
              eq_refl eq_refl)
    as (w' & He & _ & _ & _ & Ht & _ & Hd & _).
  exists w'. auto.
Defined.

Lemma uploadForm_pdf_session_witness :
  exists w',
    exec sampleClock (uploadForm (Some samplePdf)) sampleStart
         [Pages 2; Image sampleImage] = Some (inr tt, w', []) /\
    totalPages (store w') = 2%nat /\
    originalFile (store w') = Some samplePdf.
Proof.
  destruct (uploadForm_pdf_session sampleClock sampleStart samplePdf 2
              sampleImage [] eq_refl eq_refl)
    as (w' & He & _ & Ho & Ht & _).
  exists w'. auto.
Defined.

(** The keys of the store that an upload sets when it succeeds. *)
Lemma uploadForm_outcome clock file w script o w' script' :
  exec clock (uploadForm file) w script = Some (o, w', script') ->
  match o with
  | inl e =>
      store w' = with_error (Some (message e))
                   (with_processing false (store w))
  | inr _ =>
      exists f cur preview n,
        file = Some f /\
        store w' =
          with_currentForm (Some cur)
          (with_originalFile
             (if FormProcessingService.isPDF f then Some f else None)
          (with_imagePreview (Some preview)
          (with_extractedData None
          (with_processing false
          (with_isPDF (FormProcessingService.isPDF f)
          (with_currentPage 1
          (with_totalPages n (with_error None (store w)))))))))
  end.
Proof.
  unfold uploadForm.
  rewrite exec_bind, exec_set, exec_try_catch.
  destruct (FormProcessingService.validateImageFile file) as [|msg],
    file as [f|];
    try (intros [= <- <- _]; reflexivity).
  destruct (FormProcessingService.isPDF f) eqn:Hp.
  - destruct script as [|r1 script]; [discriminate|].
    destruct r1 as [e|n|b|d]; try discriminate;
      [intros [= <- <- _]; reflexivity|].
    destruct script as [|r2 script]; [discriminate|].
    destruct r2 as [e|n'|b|d]; try discriminate;
      intros [= <- <- _]; [reflexivity|].
    eexists f, _, _, n. split; [reflexivity|]. rewrite Hp. reflexivity.
  - intros [= <- <- _]. eexists f, f, _, 1%nat.
    split; [reflexivity|]. rewrite Hp. reflexivity.
Qed.

(** X15: whatever the file and the replies, an upload that ends leaves
    processing false, the history and the selected provider as they
    were; when it fails, through validation or through a rejected
    conversion of the PDF, the store's error is the error's message and
    the session before (current form, original file, preview, extracted
    data, page count, current page) is untouched; when it succeeds, the
    error is null, the extracted data are dropped and the current page
    is 1. *)
Theorem uploadForm_settles clock file w script o w' script' :
  exec clock (uploadForm file) w script = Some (o, w', script') ->
  processing (store w') = false /\
  history (store w') = history (store w) /\
  selectedProvider (store w') = selectedProvider (store w) /\
  match o with
  | inl e =>
      error (store w') = Some (message e) /\
      currentForm (store w') = currentForm (store w) /\
      originalFile (store w') = originalFile (store w) /\
      imagePreview (store w') = imagePreview (store w) /\
      extractedData (store w') = extractedData (store w) /\
      isPDF (store w') = isPDF (store w) /\
      totalPages (store w') = totalPages (store w) /\
      currentPage (store w') = currentPage (store w)
  | inr _ =>
      error (store w') = None /\
      extractedData (store w') = None /\
      currentPage (store w') = 1%nat
  end.
Proof.
  intros H. apply uploadForm_outcome in H. destruct o as [e|[]].
  - rewrite H. repeat split.
  - destruct H as (f & cur & preview & n & _ & ->). repeat split.
Qed.

Lemma uploadForm_settles_witness :
  exists w',
    exec sampleClock (uploadForm (Some samplePdf)) sampleWorld
         [Pages 2; Rejected (Error "Failed to convert PDF: broken")]
      = Some (inl (Error "Failed to convert PDF: broken"), w', []) /\
    extractedData (store w') = Some sampleData /\
    processing (store w') = false.
Proof.
  assert (E : exists w',
             exec sampleClock (uploadForm (Some samplePdf)) sampleWorld
               [Pages 2; Rejected (Error "Failed to convert PDF: broken")]
             = Some (inl (Error "Failed to convert PDF: broken"), w', []))
    by (eexists; reflexivity).
  destruct E as (w' & E).
  destruct (uploadForm_settles sampleClock _ _ _ _ _ _ E)
    as (Hp & _ & _ & _ & _ & _ & _ & Hd & _).
  exists w'. auto.
Defined.

(** ** The provider registry *)

Lemma hasProvider_false key :
  AIProviderService.providers !! key = None ->
  ~ In key inheritedKeys ->
  hasProvider key = false.
Proof.
  intros Hl Hi. unfold hasProvider. rewrite Hl.
  destruct (FormProcessingService.includes inheritedKeys key) eqn:E;
    [|reflexivity].
  apply includes_In in E. contradiction.
Qed.

(** X16: [setProvider] with a key that is neither a provider nor a
    property name inherited from [Object.prototype] throws "Unknown
    provider: key" and leaves the store's selection and the service's
    current provider, with all the rest of the state, as they were. *)
Theorem setProvider_unknown clock key w script :
  AIProviderService.providers !! key = None ->
  ~ In key inheritedKeys ->
  exec clock (setProvider key) w script
    = Some (inl (Error ("Unknown provider: " +:+ key)), w, script).
Proof.
  intros Hl Hi. unfold setProvider, AIProviderService_setProvider.
  rewrite exec_try_catch, exec_bind, (hasProvider_false _ Hl Hi).
  reflexivity.
Qed.

Lemma setProvider_unknown_witness :
  exec sampleClock (setProvider "mistral") sampleScanWorld []
    = Some (inl (Error "Unknown provider: mistral"), sampleScanWorld, []).
Proof.
  apply (setProvider_unknown sampleClock "mistral" sampleScanWorld []).
  - reflexivity.
  - unfold inheritedKeys.
    intros H. repeat (destruct H as [H | H]; [discriminate H|]). exact H.
Defined.

(** X17: [setProvider] with the key of a provider switches at once,
    whether or not the provider has credentials: the store's selection
    and the service's current provider both become the key, nothing else
    changes, and the provider is ready exactly when it has credentials. *)
Theorem setProvider_known env clock key info w script :
  AIProviderService.providers !! key = Some info ->
  exists w',
    exec clock (setProvider key) w script = Some (inr tt, w', script) /\
    app w' = {| form := with_selectedProvider key (store w);
                currentProvider := key |} /\
    log w' = log w /\
    (providerReady env w' <-> AIProviderService.isConfigured env info = true).
Proof.
  intros Hl. unfold setProvider, AIProviderService_setProvider, hasProvider.
  rewrite exec_try_catch, exec_bind, Hl.
  eexists. split; [reflexivity|]. split; [reflexivity|].
  split; [reflexivity|]. unfold providerReady. simpl. split.
  - intros (info' & Hl' & Hc). congruence.
  - intros Hc. eauto.
Qed.

Lemma setProvider_known_witness :
  exists w',
    exec sampleClock (setProvider "claude") sampleScanWorld []
      = Some (inr tt, w', []) /\
    selectedProvider (store w') = "claude" /\
    currentProvider (app w') = "claude" /\
    ~ providerReady sampleEnv w'.
Proof.
  destruct (setProvider_known sampleEnv sampleClock "claude" _
              sampleScanWorld [] eq_refl) as (w' & He & Ha & _ & Hr).
  exists w'. split; [exact He|].
  unfold store. rewrite Ha. split; [reflexivity|]. split; [reflexivity|].
  intros H. apply Hr in H. discriminate H.
Defined.

(** X18: a property name that objects inherit from [Object.prototype]
    passes the check of [setProvider]: the switch succeeds, and from
    then on every call of the provider throws a TypeError without any
    request. *)
Theorem setProvider_inherited_key env clock key w imageFile script :
  In key inheritedKeys ->
  exists w' e,
    exec clock (setProvider key) w script = Some (inr tt, w', script) /\
    currentProvider (app w') = key /\
    exec clock (extractFormFields env imageFile) w' script
      = Some (inl e, w', script) /\
    err_name e = "TypeError".
Proof.
  intros Hk.
  assert (Hl : AIProviderService.providers !! key = None).
  { unfold inheritedKeys in Hk.
    repeat (destruct Hk as [<- | Hk]; [reflexivity|]). destruct Hk. }
  assert (Hh : hasProvider key = true).
  { unfold hasProvider. rewrite Hl. now apply includes_In. }
  unfold setProvider, AIProviderService_setProvider.
  rewrite exec_try_catch, exec_bind, Hh.
  eexists. eexists. split; [reflexivity|]. split; [reflexivity|].
  unfold extractFormFields. rewrite exec_bind. cbn [exec app currentProvider].
  rewrite Hl. apply includes_In in Hk. rewrite Hk. split; reflexivity.
Qed.

Lemma setProvider_inherited_key_witness :
  exists w' e,
    exec sampleClock (setProvider "toString") sampleScanWorld []
      = Some (inr tt, w', []) /\
    exec sampleClock (extractFormFields sampleEnv sampleScan) w' []
      = Some (inl e, w', []) /\
    err_name e = "TypeError".
Proof.
  destruct (setProvider_inherited_key sampleEnv sampleClock "toString"
              sampleScanWorld sampleScan [])
    as (w' & e & Hs & _ & He & Hn).
  - unfold inheritedKeys. do 8 right. left. reflexivity.
  - exists w', e. auto.
Defined.

Lemma configured_providerKeys env key :
  AIProviderService.configured env key = true -> In key providerKeys.
Proof.
  unfold AIProviderService.configured.
  destruct (AIProviderService.providers !! key) as [info|] eqn:Hl;
    [|discriminate].
  intros _. unfold AIProviderService.providers in Hl.
  repeat (apply lookup_insert_Some in Hl as [[<- _] | [_ Hl]];
          [simpl; auto|]).
  rewrite lookup_empty in Hl. discriminate.
Qed.


(** ** Page navigation, clearing and resetting *)

(** X20: [goToPage] on a session that is not a PDF session, or with a
    page number that is 0 or more than the page count, throws before it
    does anything: no request is issued and the state is unchanged. *)
Theorem goToPage_rejected clock pageNumber w script :
  isPDF (store w) = false \/ originalFile (store w) = None \/
  pageNumber = 0%nat \/ totalPages (store w) < pageNumber ->
  exists msg,
    exec clock (goToPage pageNumber) w script
      = Some (inl (Error msg), w, script) /\
    (isPDF (store w) = false \/ originalFile (store w) = None ->
     msg = "Current file is not a PDF") /\
    (isPDF (store w) = true -> originalFile (store w) ≠ None ->
     msg = "Invalid page number. Must be between 1 and " +:+
           nat_to_string (totalPages (store w))).
Proof.
  intros H. unfold goToPage. rewrite exec_bind, exec_get. cbv beta.
  destruct (isPDF (store w)) eqn:Hp.
  - destruct (originalFile (store w)) as [pdf|] eqn:Ho.
    + assert (Hr : Nat.ltb pageNumber 1
                   || Nat.ltb (totalPages (store w)) pageNumber = true).
      { apply orb_true_iff.
        destruct H as [H | [H | [-> | H]]]; try discriminate.
        - left. reflexivity.
        - right. now apply Nat.ltb_lt. }
      rewrite Hr. eexists. split; [reflexivity|].
      split; [intros [Hx|Hx]; discriminate Hx | reflexivity].
    + eexists. split; [reflexivity|].
      split; [reflexivity | intros _ Hne; now contradiction Hne].
  - eexists. split; [reflexivity|].
    split; [reflexivity | discriminate].
Qed.

Lemma goToPage_rejected_witness :
  exists msg,
    exec sampleClock (goToPage 3) samplePdfWorld []
      = Some (inl (Error msg), samplePdfWorld, []) /\
    msg = "Invalid page number. Must be between 1 and 2".
Proof.
  destruct (goToPage_rejected sampleClock 3 samplePdfWorld [])
    as (msg & He & _ & Hm).
  - right. right. right. simpl. lia.
  - exists msg. split; [exact He|].
    exact (Hm eq_refl ltac:(discriminate)).
Defined.

(** X21: [goToPage] on a PDF session with a page number within the
    page count renders that page and no other.  When the rendering
    succeeds, the current form is the rendered page under the name of
    the PDF, the preview is a fresh object URL, the preview before is
    the one revoked, the current page is the page asked for, hence
    within the page count, and processing is false.  When the rendering
    is rejected, the error is rethrown and only processing, set to
    false, may differ in the store.  In both cases the PDF, the page
    count, the extracted data and the history are kept. *)
Theorem goToPage_renders clock pageNumber pdf w reply script :
  isPDF (store w) = true ->
  originalFile (store w) = Some pdf ->
  1 <= pageNumber <= totalPages (store w) ->
  (forall b, reply = Image b ->
     exec clock (goToPage pageNumber) w (reply :: script)
     = Some (inr (revokeIfSet (imagePreview (store w))),
             {| app :=
                  {| form :=
                       with_currentForm
                         (Some (new_File b (file_name pdf) "image/png"))
                       (with_imagePreview
                          (Some ("blob:" +:+ nat_to_string (urls w)))
                       (with_currentPage pageNumber
                       (with_processing false (store w))));
                     currentProvider := currentProvider (app w) |};
                ticks := ticks w; urls := S (urls w);
                log := log w ++ [PDFPageToImage pdf pageNumber] |},
             script)) /\
  (forall e, reply = Rejected e ->
     exec clock (goToPage pageNumber) w (reply :: script)
     = Some (inl e,
             {| app := {| form := with_processing false (store w);
                          currentProvider := currentProvider (app w) |};
                ticks := ticks w; urls := urls w;
                log := log w ++ [PDFPageToImage pdf pageNumber] |},
             script)).
Proof.
  intros Hp Ho [H1 Hn].
  assert (Hr : Nat.ltb pageNumber 1
               || Nat.ltb (totalPages (store w)) pageNumber = false).
  { apply orb_false_iff. split; apply Nat.ltb_ge; lia. }
  split; intros x ->; unfold goToPage;
    rewrite exec_bind, exec_get; cbv beta; rewrite Hp, Ho, Hr;
    rewrite exec_bind, exec_set, exec_try_catch; reflexivity.
Qed.

Lemma goToPage_renders_witness :
  exists w',
    exec sampleClock (goToPage 2) samplePdfWorld [Image sampleImage]
      = Some (inr ["blob:0"], w', []) /\
    currentPage (store w') = 2%nat /\
    imagePreview (store w') = Some "blob:1".
Proof.
  destruct (goToPage_renders sampleClock 2 samplePdf samplePdfWorld
              (Image sampleImage) [] eq_refl eq_refl
              ltac:(simpl; lia)) as [Hok _].
  eexists. split; [exact (Hok sampleImage eq_refl)|]. split; reflexivity.
Defined.

(** X22: [clearForm] revokes the preview, if there is one, and takes
    the document session back to the empty one, keeping the history, the
    selected provider and the processing flag; an extraction called next
    is rejected with "No form uploaded" without any request or change. *)
Theorem clearForm_empties env clock w script :
  exists w',
    exec clock clearForm w script
      = Some (inr (revokeIfSet (imagePreview (store w))), w', script) /\
    currentForm (store w') = None /\ originalFile (store w') = None /\
    extractedData (store w') = None /\ imagePreview (store w') = None /\
    error (store w') = None /\ isPDF (store w') = false /\
    currentPage (store w') = 1%nat /\ totalPages (store w') = 1%nat /\
    processingPage (store w') = None /\
    history (store w') = history (store w) /\
    selectedProvider (store w') = selectedProvider (store w) /\
    processing (store w') = processing (store w) /\
    currentProvider (app w') = currentProvider (app w) /\
    log w' = log w /\
    exec clock (extractFields env) w' script
      = Some (inl (Error "No form uploaded"), w', script).
Proof.
  eexists. split; [reflexivity|]. repeat split.
Qed.

Lemma clearForm_empties_witness :
  exists w',
    exec sampleClock clearForm sampleWorld []
      = Some (inr ["blob:0"], w', []) /\
    exec sampleClock (extractFields sampleEnv) w' []
      = Some (inl (Error "No form uploaded"), w', []) /\
    length (history (store w')) = 1%nat.
Proof.
  destruct (clearForm_empties sampleEnv sampleClock sampleWorld [])
    as (w' & He & _ & _ & _ & _ & _ & _ & _ & _ & _ & Hh & _ & _ & _ & _ & Hx).
  exists w'. split; [exact He|]. split; [exact Hx|]. now rewrite Hh.
Defined.

(** X23: when no highlight is pending, [reset] revokes the preview, if
    there is one, and takes the store back to its initial state, history
    emptied, under the provider that was selected; the service's current
    provider is not touched. *)
Theorem reset_initial clock w script :
  highlightedFieldId (store w) = None ->
  exec clock reset w script
    = Some (inr (revokeIfSet (imagePreview (store w))),
            with_form (initialStore (selectedProvider (store w))) w, script).
Proof.
  intros Hh. unfold reset. rewrite exec_bind, exec_get. cbv beta zeta.
  rewrite exec_bind, exec_set. cbn [exec mret prog_ret].
  destruct w as [[s cp] t u l]. destruct s. unfold store in Hh.
  simpl in Hh. subst. reflexivity.
Qed.

Lemma reset_initial_witness :
  exec sampleClock reset sampleWorld []
    = Some (inr ["blob:0"], with_form (initialStore "gemini") sampleWorld, []).
Proof.
  exact (reset_initial sampleClock sampleWorld [] eq_refl).
Defined.

(** ** A run seen while it waits *)

Section Drive.

Variable env : gmap string string.
Variable clock : nat -> Z.

Lemma drive_of_exec {A} (p : Prog A) : forall w script o w' script',
  exec clock p w script = Some (o, w', script') ->
  drive clock p w script = Some (Done o, w', script').
Proof.
  induction p as [r|e|k IH|a k IH|k IH|k IH|req k IH]; intros w script o w'
    script'; simpl; try (intros [= <- <- <-]; reflexivity); try apply IH.
  destruct script as [|r script]; [discriminate|].
  destruct (answer req r) as [v|]; [apply IH | discriminate].
Qed.

Lemma drive_bind {A C} (p : Prog A) (f : A -> Prog C) w script :
  drive clock (p ≫= f) w script =
  match drive clock p w script with
  | Some (Done (inr r), w', script') => drive clock (f r) w' script'
  | Some (Done (inl e), w', script') => Some (Done (inl e), w', script')
  | Some (Blocked req k, w', script') =>
      Some (Blocked req (fun v => k v ≫= f), w', script')
  | None => None
  end.
Proof.
  revert w script.
  induction p as [r|e|k IH|a k IH|k IH|k IH|req k IH]; intros w script;
    simpl; try reflexivity; try apply IH.
  destruct script as [|r script']; [reflexivity|].
  destruct (answer req r) as [v|]; [apply IH | reflexivity].
Qed.

Lemma drive_try_catch {A} (p : Prog A) h w script :
  drive clock (try_catch p h) w script =
  match drive clock p w script with
  | Some (Done (inr r), w', script') => Some (Done (inr r), w', script')
  | Some (Done (inl e), w', script') => drive clock (h e) w' script'
  | Some (Blocked req k, w', script') =>
      Some (Blocked req (fun v => try_catch (k v) h), w', script')
  | None => None
  end.
Proof.
  revert w script.
  induction p as [r|e|k IH|a k IH|k IH|k IH|req k IH]; intros w script;
    simpl; try reflexivity; try apply IH.
  destruct script as [|r script']; [reflexivity|].
  destruct (answer req r) as [v|]; [apply IH | reflexivity].
Qed.

Lemma drive_get w script :
  drive clock get w script = Some (Done (inr (store w)), w, script).
Proof. reflexivity. Qed.

Lemma drive_set f w script :
  drive clock (set f) w script
  = Some (Done (inr tt), with_form (f (store w)) w, script).
Proof. reflexivity. Qed.

Lemma drive_dateNow w script :
  drive clock dateNow w script
  = Some (Done (inr (clock (ticks w))), tick w, script).
Proof. reflexivity. Qed.

Lemma drive_await req r v w script :
  answer req r = Some v ->
  drive clock (await req) w (r :: script) = Some (Done v, logged req w, script).
Proof. intros H. apply drive_of_exec, exec_await, H. Qed.

Lemma drive_extractFormFields_parsed imageFile rawData w script :
  providerReady env w ->
  drive clock (extractFormFields env imageFile) w (Parsed rawData :: script) =
  Some (Done (inr rawData),
        logged (ServiceExtract (currentProvider (app w)) imageFile) w, script).
Proof. intros H. apply drive_of_exec, exec_extractFormFields_parsed, H. Qed.

(** One iteration of the loop whose page is rendered and extracted. *)
Lemma drive_extractPages_step pdf remaining pageNum allFields title b rawData
    w script :
  providerReady env w ->
  drive clock (extractPages env pdf (S remaining) pageNum allFields title) w
        (Image b :: Parsed rawData :: script) =
  drive clock
        (extractPages env pdf remaining (S pageNum)
           (allFields ++ pageFields pageNum rawData)
           (if Nat.eqb pageNum 1 then reportedTitle rawData else title))
        (afterPage clock pdf pageNum b
           (allFields ++ pageFields pageNum rawData)
           (if Nat.eqb pageNum 1 then reportedTitle rawData else title) w)
        script.
Proof.
  intros Hready. cbn [extractPages].
  rewrite drive_bind, drive_set.
  rewrite drive_bind,
    (drive_await (PDFPageToImage pdf pageNum) (Image b) (inr b))
    by reflexivity.
  rewrite drive_bind, drive_extractFormFields_parsed by exact Hready.
  rewrite drive_bind, drive_dateNow.
  rewrite drive_bind, drive_dateNow.
  rewrite drive_bind, drive_set.
  cbv zeta. unfold pageFields, reportedTitle.
  rewrite (FormatSpec.fields_formatExtractedData _ 0).
  rewrite (FormatSpec.formTitle_formatExtractedData _ 0 _ pageNum 1).
  unfold afterPage, with_form, logged, tick, store. simpl.
  rewrite <- app_assoc. reflexivity.
Qed.

(** The loop, given the replies of the pages [done] and no more, waits
    for the rendering of the page that follows them. *)
Lemma drive_extractPages_waits pdf (done : list (Blob * option RawData)) :
  forall m pageNum allFields title w,
    providerReady env w ->
    exists k w1,
      drive clock
            (extractPages env pdf (length done + S m) pageNum allFields title)
            w (pagesScript done)
      = Some (Blocked (PDFPageToImage pdf (pageNum + length done)) k,
              logged (PDFPageToImage pdf (pageNum + length done))
                (with_form (with_processingPage
                              (Some (pageNum + length done)) (store w1)) w1),
              [])
      /\ pagesDone pdf pageNum allFields done w w1.
Proof.
  induction done as [|[b r] done IH]; intros m pageNum allFields title w Hready.
  - cbn [length Nat.add]. rewrite Nat.add_0_r. eexists. exists w. split.
    + cbn [pagesScript flat_map extractPages].
      rewrite drive_bind, drive_set.
      rewrite drive_bind. reflexivity.
    + split; [reflexivity|]. split; [simpl; now rewrite app_nil_r|].
      exists (extractedData (store w)), (processingPage (store w)).
      split; [now rewrite store_with_same|]. split; [reflexivity | congruence].
  - change (length ((b, r) :: done) + S m) with (S (length done + S m)).
    change (pagesScript ((b, r) :: done))
      with (Image b :: Parsed r :: pagesScript done).
    rewrite drive_extractPages_step by exact Hready.
    destruct (IH m (S pageNum) (allFields ++ pageFields pageNum r)
                (if Nat.eqb pageNum 1 then reportedTitle r else title)
                (afterPage clock pdf pageNum b
                   (allFields ++ pageFields pageNum r)
                   (if Nat.eqb pageNum 1 then reportedTitle r else title) w)
                Hready)
      as (k & w1 & He & Hp & Hl & ed & pp & Hs & Hnil & Hcons).
    exists k, w1. split.
    + rewrite He. simpl length. rewrite Nat.add_succ_r. reflexivity.
    + split; [exact Hp|]. split.
      * rewrite Hl. simpl. rewrite <- app_assoc. reflexivity.
      * exists ed, pp. split; [rewrite Hs; reflexivity|].
        split; [discriminate|]. intros _.
        destruct done as [|p done].
        -- rewrite (Hnil eq_refl). simpl. rewrite app_nil_r. eauto.
        -- destruct (Hcons ltac:(discriminate)) as (pt & pa & ->).
           exists pt, pa. simpl. now rewrite <- app_assoc.
Qed.

(** X24: in a run over a PDF of N > 1 pages, once the pages 1..j (j < N)
    are rendered and extracted and while the rendering of page j + 1 is
    awaited, the store already shows the run's progress: processing is
    true, the progress marker is j + 1, and the extracted data hold the
    fields of the pages 1..j in order (for j = 0, what they held before
    the run); the history is not yet touched. *)
Theorem extractFields_publishes_progress w pdf cur
    (done : list (Blob * option RawData)) :
  currentForm (store w) = Some cur ->
  originalFile (store w) = Some pdf ->
  isPDF (store w) = true ->
  1 < totalPages (store w) ->
  length done < totalPages (store w) ->
  providerReady env w ->
  exists k w',
    drive clock (extractFields env) w (pagesScript done)
      = Some (Blocked (PDFPageToImage pdf (S (length done))) k, w', []) /\
    processing (store w') = true /\
    processingPage (store w') = Some (S (length done)) /\
    (done = [] -> extractedData (store w') = extractedData (store w)) /\
    (done ≠ [] ->
     exists t a,
       extractedData (store w') =
       Some {| formTitle := t; fields := mergedFields 1 done.*2;
               extractedAt := a |}) /\
    history (store w') = history (store w).
Proof.
  intros Hcur Horig Hpdf Hmany Hk Hready.
  destruct (drive_extractPages_waits pdf done
              (totalPages (store w) - S (length done)) 1 [] (Some "")
              (with_form (with_processing true (with_error None (store w))) w)
              Hready)
    as (k & w1 & He & Hp & Hl & ed & pp & Hs & Hnil & Hcons).
  replace (length done + S (totalPages (store w) - S (length done)))
    with (totalPages (store w)) in He by lia.
  unfold extractFields. rewrite drive_bind, drive_get. cbv beta iota.
  rewrite Hcur, drive_bind, drive_set.
  rewrite drive_try_catch, drive_bind.
  apply Nat.ltb_lt in Hmany. rewrite Hpdf, Hmany, Horig. cbn [andb].
  rewrite He. eexists. eexists. split; [reflexivity|].
  unfold store in *. simpl. rewrite Hs. simpl.
  repeat split.
  - intros Hd. now apply Hnil.
  - intros Hd. destruct (Hcons Hd) as (pt & pa & ->). eauto.
Qed.

End Drive.

Lemma extractFields_publishes_progress_witness :
  exists k w',
    drive sampleClock (extractFields sampleEnv) samplePdfWorld
          (pagesScript [(sampleImage, sampleRaw "Page one" ["Name"; "Email"])])
      = Some (Blocked (PDFPageToImage samplePdf 2) k, w', []) /\
    processingPage (store w') = Some 2%nat /\
    exists t a,
      extractedData (store w') =
      Some {| formTitle := t;
              fields := mergedFields 1 [sampleRaw "Page one" ["Name"; "Email"]];
              extractedAt := a |}.
Proof.
  destruct (extractFields_publishes_progress sampleEnv sampleClock
              samplePdfWorld samplePdf
              (new_File sampleImage "form.pdf" "image/png")
              [(sampleImage, sampleRaw "Page one" ["Name"; "Email"])]
              eq_refl eq_refl eq_refl ltac:(simpl; lia) ltac:(simpl; lia)
              sampleEnv_ready)
    as (k & w' & He & _ & Hpp & _ & Hd & _).
  exists k, w'. split; [exact He|]. split; [exact Hpp|].
  exact (Hd ltac:(discriminate)).
Defined.

(** ** The CSV export *)

Lemma countChar_append c (a b : string) :
  countChar c (a +:+ b) = countChar c a + countChar c b.
Proof.
  induction a as [|x a IH]; [reflexivity|].
  change (String x a +:+ b) with (String x (a +:+ b)).
  cbn [countChar]. rewrite IH. lia.
Qed.

Lemma list_sum_cons x l : list_sum (x :: l) = x + list_sum l.
Proof. reflexivity. Qed.

Lemma countChar_join c sep (l : list string) :
  countChar c (join sep l) =
  list_sum (map (countChar c) l) + pred (length l) * countChar c sep.
Proof.
  induction l as [|x l IH]; [reflexivity|].
  destruct l as [|y l].
  - simpl. lia.
  - change (join sep (x :: y :: l)) with (x +:+ sep +:+ join sep (y :: l)).
    rewrite !countChar_append, IH. simpl. lia.
Qed.

Section ExportSpec.

Variable showNumber : Q -> string.
Variable showOther : string -> string.

Lemma countChar_row c (row : list string) :
  countChar c (join "," (map (fun cell => quote +:+ cell +:+ quote) row)) =
  list_sum (map (countChar c) row)
  + 2 * length row * countChar c quote
  + pred (length row) * countChar c ",".
Proof.
  rewrite countChar_join, length_map.
  assert (list_sum (map (countChar c)
                      (map (fun cell => quote +:+ cell +:+ quote) row))
          = list_sum (map (countChar c) row)
            + 2 * length row * countChar c quote) as ->; [|reflexivity].
  induction row as [|x row IH]; [reflexivity|].
  cbn [map length]. rewrite !list_sum_cons, !countChar_append, IH. lia.
Qed.

Lemma countChar_rows c (fs : list Field) :
  list_sum
    (map (countChar c)
       (map (fun row =>
               join "," (map (fun cell => quote +:+ cell +:+ quote) row))
            (map (csvRow showNumber showOther) fs))) =
  cellChars showNumber showOther c fs
  + length fs * (10 * countChar c quote + 4 * countChar c ",").
Proof.
  unfold cellChars. induction fs as [|f fs IH]; [reflexivity|].
  cbn [map length]. rewrite !list_sum_cons, IH, countChar_row.
  cbn [csvRow length pred]. lia.
Qed.

(** The occurrences of a character in the export of a collection that
    is not empty. *)
Lemma countChar_exportToCSV c (d : ExtractedData) :
  fields d <> [] ->
  countChar c (exportToCSV showNumber showOther d) =
  countChar c "Label,Value,Type,Confidence,Verified"
  + cellChars showNumber showOther c (fields d)
  + length (fields d)
    * (countChar c newline + 10 * countChar c quote + 4 * countChar c ",").
Proof.
  intros Hne. unfold exportToCSV. destruct (fields d) as [|f fs] eqn:Hf;
    [congruence|].
  rewrite countChar_join. cbn [map]. rewrite list_sum_cons.
  pose proof (countChar_rows c (f :: fs)) as Hr. cbn [map] in Hr.
  rewrite Hr. cbn [length pred]. rewrite !length_map.
  change (join "," ["Label"; "Value"; "Type"; "Confidence"; "Verified"])
    with "Label,Value,Type,Confidence,Verified".
  lia.
Qed.

(** X25: the CSV export is the sentence [No data to export] exactly when
    the collection is empty; otherwise it starts with the header line. *)
Theorem exportToCSV_sentinel (d : ExtractedData) :
  (exportToCSV showNumber showOther d = "No data to export" <->
   fields d = []) /\
  (fields d <> [] ->
   exists rest,
     exportToCSV showNumber showOther d =
     "Label,Value,Type,Confidence,Verified" +:+ newline +:+ rest).
Proof.
  unfold exportToCSV. destruct (fields d) as [|f fs].
  - split; [split; reflexivity | congruence].
  - split.
    + split; [|discriminate]. cbn [map join]. intros H. exfalso.
      revert H. generalize (join newline
        (map (fun row =>
                join "," (map (fun cell => quote +:+ cell +:+ quote) row))
             (csvRow showNumber showOther f :: map (csvRow showNumber showOther) fs))).
      intros s. simpl. discriminate.
    + intros _. eexists. cbn [map join]. reflexivity.
Qed.

(** X26: the cells are written between quotes as they are: the export
    has one line break per field besides those of the cells, so a cell
    that holds a line break splits its row. *)
Theorem exportToCSV_line_breaks (d : ExtractedData) :
  countChar newlineChar (exportToCSV showNumber showOther d) =
  length (fields d)
  + cellChars showNumber showOther newlineChar (fields d).
Proof.
  destruct (fields d) as [|f fs] eqn:Hf.
  - unfold exportToCSV. rewrite Hf. reflexivity.
  - rewrite countChar_exportToCSV by congruence. rewrite Hf.
    change (countChar newlineChar "Label,Value,Type,Confidence,Verified")
      with 0.
    change (countChar newlineChar newline) with 1.
    change (countChar newlineChar quote) with 0.
    change (countChar newlineChar ",") with 0. lia.
Qed.

(** X27: the export does not escape quotes: it holds ten quotes per
    field, those around the five cells, and each quote of a cell once. *)
Theorem exportToCSV_quotes_not_escaped (d : ExtractedData) :
  countChar quoteChar (exportToCSV showNumber showOther d) =
  10 * length (fields d)
  + cellChars showNumber showOther quoteChar (fields d).
Proof.
  destruct (fields d) as [|f fs] eqn:Hf.
  - unfold exportToCSV. rewrite Hf. reflexivity.
  - rewrite countChar_exportToCSV by congruence. rewrite Hf.
    change (countChar quoteChar "Label,Value,Type,Confidence,Verified")
      with 0.
    change (countChar quoteChar newline) with 0.
    change (countChar quoteChar quote) with 1.
    change (countChar quoteChar ",") with 0. lia.
Qed.

End ExportSpec.

(** ** The page filter over the result of a run *)

Lemma filter_page_same (n p : nat) (l : list Field) :
  1 <= n ->
  Forall (fun f => page f = Some n) l ->
  List.filter (fun f => Nat.eqb (page f ?| 1) p) l
  = if Nat.eqb n p then l else [].
Proof.
  intros Hn Hl. induction Hl as [|f l Hf _ IH].
  - now destruct (Nat.eqb n p).
  - cbn [List.filter]. rewrite IH, Hf. unfold js_or, truthy, truthy_nat.
    destruct (Nat.eqb_spec n 0) as [->|_]; [lia|]. cbn [negb].
    now destruct (Nat.eqb n p).
Qed.

Lemma displayedFields_later raws : forall start p,
  1 <= start -> p < start ->
  displayedFields (Some p) (mergedFields start raws) = [].
Proof.
  unfold displayedFields.
  induction raws as [|r raws IH]; intros start p Hs Hp; [reflexivity|].
  cbn [mergedFields]. rewrite List.filter_app.
  rewrite (filter_page_same start) by (auto using page_pageFields).
  rewrite IH by lia.
  destruct (Nat.eqb_spec start p); [lia | reflexivity].
Qed.

Lemma displayedFields_mergedFields raws : forall start p,
  1 <= start -> start <= p ->
  displayedFields (Some p) (mergedFields start raws)
  = match raws !! (p - start) with
    | Some r => pageFields p r
    | None => []
    end.
Proof.
  induction raws as [|r raws IH]; intros start p Hs Hp; [reflexivity|].
  unfold displayedFields. cbn [mergedFields]. rewrite List.filter_app.
  rewrite (filter_page_same start) by (auto using page_pageFields).
  destruct (Nat.eqb_spec start p) as [->|Hne].
  - fold (displayedFields (Some p) (mergedFields (S p) raws)).
    rewrite displayedFields_later by lia.
    rewrite Nat.sub_diag, app_nil_r. reflexivity.
  - fold (displayedFields (Some p) (mergedFields (S start) raws)).
    rewrite IH by lia.
    replace (p - start) with (S (p - S start)) by lia. reflexivity.
Qed.

Section PageFilter.

Variable env : gmap string string.
Variable clock : nat -> Z.

(** The fields that a run over a PDF of several pages returns. *)
Lemma extractFields_multipage_fields w pdf cur
    (pages : list (Blob * option RawData)) script :
  currentForm (store w) = Some cur ->
  originalFile (store w) = Some pdf ->
  isPDF (store w) = true ->
  totalPages (store w) = length pages ->
  1 < length pages ->
  providerReady env w ->
  ~ In (selectedProvider (store w)) inheritedKeys ->
  exists d w',
    exec clock (extractFields env) w (pagesScript pages ++ script)
      = Some (inr d, w', script) /\
    extractedData (store w') = Some d /\
    fields d = mergedFields 1 pages.*2.
Proof.
  intros Hcur Horig Hpdf Htotal Hmany Hready Hsel.
  rewrite (exec_extractFields_loaded _ _ _ _ _ Hcur).
  rewrite (runPages_multipage _ _ _ pdf) by (rewrite ?Htotal; assumption).
  rewrite Htotal.
  destruct (exec_extractPages_all env clock pdf pages 1 [] (Some "")
              (with_form (with_processing true (with_error None (store w))) w)
              script Hready) as (w1 & He & _).
  destruct (getProviderInfo_returns env _ Hsel) as (providerInfo & Hi).
  rewrite He, Hi. eexists. eexists. split; [reflexivity|].
  split; reflexivity.
Qed.

(** X28: over the result of a run on a PDF of N > 1 pages, the
    selected provider not being a property name inherited from
    [Object.prototype], the page filter of the field list set to page
    p >= 1 shows the fields of page p, in their order, and nothing for a
    page after the last; set to all pages it shows every field. *)
Theorem displayedFields_of_run w pdf cur
    (pages : list (Blob * option RawData)) script (p : nat) :
  currentForm (store w) = Some cur ->
  originalFile (store w) = Some pdf ->
  isPDF (store w) = true ->
  totalPages (store w) = length pages ->
  1 < length pages ->
  providerReady env w ->
  ~ In (selectedProvider (store w)) inheritedKeys ->
  1 <= p ->
  exists d w',
    exec clock (extractFields env) w (pagesScript pages ++ script)
      = Some (inr d, w', script) /\
    extractedData (store w') = Some d /\
    displayedFields None (fields d) = mergedFields 1 pages.*2 /\
    displayedFields (Some p) (fields d)
    = match pages !! (p - 1) with
      | Some (_, r) => pageFields p r
      | None => []
      end.
Proof.
  intros Hcur Horig Hpdf Htotal Hmany Hready Hsel Hp.
  destruct (extractFields_multipage_fields w pdf cur pages script
              Hcur Horig Hpdf Htotal Hmany Hready Hsel)
    as (d & w' & He & Hd & Hf).
  exists d, w'. split; [exact He|]. split; [exact Hd|].
  split; [exact Hf|].
  rewrite Hf, displayedFields_mergedFields by lia.
  rewrite list_lookup_fmap. destruct (pages !! (p - 1)) as [[b r]|];
    reflexivity.
Qed.

End PageFilter.

Lemma displayedFields_of_run_witness :
  exists d w',
    exec sampleClock (extractFields sampleEnv) samplePdfWorld
         (pagesScript [(sampleImage, sampleRaw "Page one" ["Name"; "Email"]);
                       (sampleImage, sampleRaw "Page two" ["Phone"])] ++ [])
      = Some (inr d, w', []) /\
    length (displayedFields None (fields d)) = 3%nat /\
    length (displayedFields (Some 2%nat) (fields d)) = 1%nat.
Proof.
  destruct (displayedFields_of_run sampleEnv sampleClock samplePdfWorld
              samplePdf (new_File sampleImage "form.pdf" "image/png")
              [(sampleImage, sampleRaw "Page one" ["Name"; "Email"]);
               (sampleImage, sampleRaw "Page two" ["Phone"])] [] 2
              eq_refl eq_refl eq_refl eq_refl ltac:(simpl; lia)
              sampleEnv_ready ltac:(not_inherited) ltac:(lia))
    as (d & w' & He & _ & Hall & Hp).
  exists d, w'. split; [exact He|].
  rewrite Hall, Hp. split; reflexivity.
Defined.
